(** * TaskManager backend: task service, list-query builder and
    password-reset flow.

    A shallow embedding of the Express/Mongoose backend under
    [TaskManager/src]: the Mongoose models ([models/Task.ts],
    [models/User.ts]), the zod request schemas ([routes/task.schemas.ts]),
    the services ([services/task.service.ts], [services/auth.service.ts]),
    the middleware ([middleware/auth.ts], [middleware/validate.ts]) and
    the controllers and routes that turn the results of the services
    into HTTP responses.

    Collections are lists of documents in natural (insertion) order.
    Instants are milliseconds since the epoch, as [Z].  A [string] is
    the UTF-8 encoding of the JavaScript string it stands for.  Everything the
    code obtains from its environment (the clock, random bytes, a salt,
    a fresh ObjectId, NODE_ENV) is an explicit argument of the operation
    that reads it.  Library functions whose internals are not part of
    the repository (SHA-256, bcrypt, JWT signing, the Date parser, the
    ObjectId cast, the text index) are fields of the classes [Runtime]
    and [Crypto].  The theorems hold for all their instances; the
    witnesses and examples run on the instances of [Stub]. *)

From Stdlib Require Import ZArith List String Bool Ascii Lia.
From Stdlib Require Import Permutation Sorted.
Import ListNotations.

Local Open Scope string_scope.
Local Open Scope list_scope.
Local Open Scope Z_scope.

Set Implicit Arguments.

(** ** JavaScript values *)

Module Js.

(** Truthiness of a string: only the empty string is falsy. *)
Definition truthy (s : string) : bool := negb (String.eqb s "").

(** [Boolean(s)] on a string is its truthiness. *)
Definition Boolean (s : string) : bool := truthy s.

(** A [string] holds the UTF-8 bytes of the JavaScript string it stands
    for: the no-break space U+00A0 is the two bytes 194 160. *)
Definition code (c : ascii) : N := N_of_ascii c.

(** ECMAScript white space and line terminators, which [trim] strips.
    In one byte: U+0009 to U+000D and U+0020. *)
Definition is_space (c : ascii) : bool :=
  match nat_of_ascii c with
  | 9%nat | 10%nat | 11%nat | 12%nat | 13%nat | 32%nat => true
  | _ => false
  end.

(** In two bytes: U+00A0. *)
Definition is_space2 (a b : ascii) : bool :=
  ((code a =? 194) && (code b =? 160))%N.

(** In three bytes: U+1680; U+2000 to U+200A, U+2028, U+2029 and
    U+202F; U+205F; U+3000; U+FEFF. *)
Definition is_space3 (a b c : ascii) : bool :=
  match code a, code b with
  | 225%N, 154%N => (code c =? 128)%N
  | 226%N, 128%N =>
      ((128 <=? code c) && (code c <=? 138)
       || (code c =? 168) || (code c =? 169) || (code c =? 175))%N
  | 226%N, 129%N => (code c =? 159)%N
  | 227%N, 128%N => (code c =? 128)%N
  | 239%N, 187%N => (code c =? 191)%N
  | _, _ => false
  end.

(** [s.trimStart()] *)
Fixpoint trimStart (s : string) : string :=
  match s with
  | String a r =>
      if is_space a then trimStart r
      else
        match r with
        | String b r2 =>
            if is_space2 a b then trimStart r2
            else
              match r2 with
              | String c r3 => if is_space3 a b c then trimStart r3 else s
              | EmptyString => s
              end
        | EmptyString => s
        end
  | EmptyString => EmptyString
  end.

(** [s.trimEnd()]: [s] up to the place from which all of it is white
    space. *)
Fixpoint trimEnd (s : string) : string :=
  match s with
  | String c r =>
      match trimStart s with
      | EmptyString => EmptyString
      | _ => String c (trimEnd r)
      end
  | EmptyString => EmptyString
  end.

(** [s.trim()] *)
Definition trim (s : string) : string := trimEnd (trimStart s).

(** [s.startsWith(p)] and [s.slice(n)] *)
Definition startsWith (p s : string) : bool := String.prefix p s.

Definition slice (n : nat) (s : string) : string :=
  String.substring n (String.length s - n) s.

End Js.

(** ** Environment *)

(** Instants are milliseconds since the epoch. *)
Definition Instant := Z.

(** ObjectIds are handled as their hex strings, as the services do. *)
Definition ObjectId := string.

(** What the code takes from the JavaScript runtime and from MongoDB. *)
Class Runtime := {
  (** [new Date(s).getTime()] *)
  Date_parse : string -> Instant;
  (** the check of zod's [z.string().datetime()] *)
  isDatetime : string -> bool;
  (** [Number(s)] when it is an integer, [None] when it is NaN.  The
      schemas do not ask for integers; fractional numbers are outside
      this model. *)
  Number_of : string -> option Z;
  (** [s.toLowerCase()] *)
  toLowerCase : string -> string;
  (** whether Mongoose casts a string to an ObjectId *)
  isObjectId : string -> bool;
  (** MongoDB's [$text] match of a search string against the text index
      on title and description *)
  textMatch : string -> string -> option string -> bool
}.

(** Errors thrown by the services and the store.  [HttpError msg st] is
    [Object.assign(new Error(msg), { status: st })]; [PlainError name] is
    an error of Mongoose or of the driver, which carries no status. *)
Inductive Thrown :=
| HttpError (message : string) (status : Z)
| PlainError (name : string).

Inductive result (A : Type) :=
| Ok (a : A)
| Throw (e : Thrown).
Arguments Ok {A} a.
Arguments Throw {A} e.

(** ** models/Task.ts *)

Inductive Priority := low | medium | high.

Definition Priority_eqb (p q : Priority) : bool :=
  match p, q with
  | low, low | medium, medium | high, high => true
  | _, _ => false
  end.

(** The string stored for a priority. *)
Definition Priority_str (p : Priority) : string :=
  match p with
  | low => "low"
  | medium => "medium"
  | high => "high"
  end.

Definition Priority_of_string (s : string) : option Priority :=
  if String.eqb s "low" then Some low
  else if String.eqb s "medium" then Some medium
  else if String.eqb s "high" then Some high
  else None.

Module Task.

(** [TaskDoc] with the fields Mongoose adds: [_id], and [createdAt]
    and [updatedAt] from [timestamps: true]. *)
Record Doc := {
  _id : ObjectId;
  user : ObjectId;
  title : string;
  description : option string;
  priority : Priority;
  dueDate : option Instant;
  completed : bool;
  createdAt : Instant;
  updatedAt : Instant
}.

End Task.

(** The tasks collection. *)
Definition Tasks := list Task.Doc.

(** ** routes/task.schemas.ts *)

(** Parsed request bodies and queries, as the schemas produce them. *)
Module Create.
Record Body := {
  title : string;
  description : option string;
  priority : Priority;
  dueDate : option string;
  completed : bool
}.
End Create.

Module Patch.
Record Body := {
  title : option string;
  description : option string;
  priority : option Priority;
  dueDate : option string;
  completed : option bool
}.
End Patch.

(** The values of the [sort] and [order] parameters. *)
Module Sort.
Inductive Field := createdAt | dueDate | priority.
Inductive Order := asc | desc.
End Sort.

Module Query.
(** The query object [listTasks] destructures.  Every field may be
    absent there; the schema fills in the last four. *)
Record t := {
  search : option string;
  priority : option Priority;
  completed : option bool;
  dueBefore : option string;
  dueAfter : option string;
  page : option Z;
  limit : option Z;
  sort : option Sort.Field;
  order : option Sort.Order
}.
End Query.

(** The query string as Express hands it over: every parameter that is
  present is a string. *)
Module Wire.
Record Query := {
  search : option string;
  priority : option string;
  completed : option string;
  dueBefore : option string;
  dueAfter : option string;
  page : option string;
  limit : option string;
  sort : option string;
  order : option string
}.
End Wire.

(** A JSON request body with the keys the task schemas know, each of the
    JSON type its schema accepts, or absent. *)
Module Json.
Record Body := {
  title : option string;
  description : option string;
  priority : option string;
  dueDate : option string;
  completed : option bool
}.
End Json.

Module Zod.
Section Schemas.
Context {RT : Runtime}.

(** [s.optional()]: an absent value stays absent, a present one is
    parsed by [s]; the outer option is failure of the parse. *)
Definition optional {A B} (s : A -> option B) (x : option A)
  : option (option B) :=
  match x with
  | None => Some None
  | Some a => match s a with Some b => Some (Some b) | None => None end
  end.

(** [s.default(d)] *)
Definition default {A B} (s : A -> option B) (d : B) (x : option A)
  : option (option B) :=
  match x with
  | None => Some (Some d)
  | Some a => match s a with Some b => Some (Some b) | None => None end
  end.

(** [z.string()] *)
Definition string_ (s : string) : option string := Some s.

(** [z.string().datetime()] *)
Definition datetime (s : string) : option string :=
  if isDatetime s then Some s else None.

(** [z.enum(['low', 'medium', 'high'])] *)
Definition priority_enum (s : string) : option Priority :=
  Priority_of_string s.

(** [z.enum(['createdAt', 'dueDate', 'priority'])] *)
Definition sort_enum (s : string) : option Sort.Field :=
  if String.eqb s "createdAt" then Some Sort.createdAt
  else if String.eqb s "dueDate" then Some Sort.dueDate
  else if String.eqb s "priority" then Some Sort.priority
  else None.

(** [z.enum(['asc', 'desc'])] *)
Definition order_enum (s : string) : option Sort.Order :=
  if String.eqb s "asc" then Some Sort.asc
  else if String.eqb s "desc" then Some Sort.desc
  else None.

(** [z.coerce.boolean()]: the input goes through [Boolean(...)], and
    the result is always a boolean. *)
Definition coerce_boolean (s : string) : option bool :=
  Some (Js.Boolean s).

(** [z.coerce.number().min(lo)] and [.max(hi)], on the numbers
    [Number_of] gives, the integers.  A string that [Number] reads as a
    fraction or as an infinity can pass these checks in the code and is
    outside this model: what is proved of a page or of a limit taken
    from a query string is stated for decimal numerals. *)
Definition coerce_number_min (lo : Z) (s : string) : option Z :=
  match Number_of s with
  | Some n => if lo <=? n then Some n else None
  | None => None
  end.

Definition coerce_number_min_max (lo hi : Z) (s : string) : option Z :=
  match Number_of s with
  | Some n => if (lo <=? n) && (n <=? hi) then Some n else None
  | None => None
  end.

(** [listQuerySchema], on the query part of the request.  [None] is a
    failed parse, answered with 400 by [validate]. *)
Definition listQuerySchema (q : Wire.Query) : option Query.t :=
  match optional string_ (Wire.search q),
        optional priority_enum (Wire.priority q),
        optional coerce_boolean (Wire.completed q),
        optional datetime (Wire.dueBefore q),
        optional datetime (Wire.dueAfter q),
        default (coerce_number_min 1) 1 (Wire.page q),
        default (coerce_number_min_max 1 100) 20 (Wire.limit q),
        default sort_enum Sort.createdAt (Wire.sort q),
        default order_enum Sort.desc (Wire.order q)
  with
  | Some s, Some p, Some c, Some b, Some a, Some pg, Some l, Some so, Some o =>
      Some {| Query.search := s; Query.priority := p; Query.completed := c;
              Query.dueBefore := b; Query.dueAfter := a; Query.page := pg;
              Query.limit := l; Query.sort := so; Query.order := o |}
  | _, _, _, _, _, _, _, _, _ => None
  end.

(** [z.string().min(1)] *)
Definition string_min1 (s : string) : option string :=
  if (1 <=? String.length s)%nat then Some s else None.

(** [z.boolean()] *)
Definition boolean (b : bool) : option bool := Some b.

(** [createTaskSchema], on the body of the request. *)
Definition createTaskSchema (b : Json.Body) : option Create.Body :=
  match
    match Json.title b with
    | Some s => string_min1 s
    | None => None
    end,
    optional string_ (Json.description b),
    default priority_enum medium (Json.priority b),
    optional datetime (Json.dueDate b),
    default boolean false (Json.completed b)
  with
  | Some t, Some d, Some (Some p), Some due, Some (Some c) =>
      Some {| Create.title := t; Create.description := d;
              Create.priority := p; Create.dueDate := due;
              Create.completed := c |}
  | _, _, _, _, _ => None
  end.

(** [updateTaskSchema], on the body of the request. *)
Definition updateTaskSchema (b : Json.Body) : option Patch.Body :=
  match
    optional string_min1 (Json.title b),
    optional string_ (Json.description b),
    optional priority_enum (Json.priority b),
    optional datetime (Json.dueDate b),
    optional boolean (Json.completed b)
  with
  | Some t, Some d, Some p, Some due, Some c =>
      Some {| Patch.title := t; Patch.description := d;
              Patch.priority := p; Patch.dueDate := due;
              Patch.completed := c |}
  | _, _, _, _, _ => None
  end.

(** [idSchema]: [params.id] is a string of length at least one. *)
Definition idSchema (id : string) : option string := string_min1 id.

End Schemas.
End Zod.

(** ** MongoDB queries on the tasks collection *)

Module Mongo.

(** The operand of a filter on [dueDate]: [{ $lte, $gte }]. *)
Record DateRange := {
  lte : option Instant;
  gte : option Instant
}.

(** A filter document: the conjunction of the conditions present. *)
Record Filter := {
  _id : option ObjectId;
  user : option ObjectId;
  priority : option Priority;
  completed : option bool;
  dueDate : option DateRange;
  text : option string
}.

Definition when {A} (o : option A) (p : A -> bool) : bool :=
  match o with
  | None => true
  | Some a => p a
  end.

(** A task without a due date matches no date comparison, and the empty
    operand [{}] is an equality with the empty document, which no date
    satisfies. *)
Definition in_range (r : DateRange) (d : option Instant) : bool :=
  match d with
  | None => false
  | Some d =>
      match lte r, gte r with
      | None, None => false
      | _, _ => when (lte r) (fun b => d <=? b) && when (gte r) (fun a => a <=? d)
      end
  end.

(** The hex string of an ObjectId as [toHexString] gives it, which is
    how the documents of a collection carry their ids: 24 digits, the
    letters in lower case. *)
Definition lower_hex (c : ascii) : bool :=
  ((48 <=? Js.code c) && (Js.code c <=? 57)
   || (97 <=? Js.code c) && (Js.code c <=? 102))%N.

Definition canonical (id : string) : bool :=
  (String.length id =? 24)%nat && forallb lower_hex (list_ascii_of_string id).

Section Queries.
Context {RT : Runtime}.

(** Whether a document satisfies a filter.  The ids of the filter are
    compared with those of the document as hex strings.  For ids in the
    form [canonical] this is the comparison of the ObjectIds Mongoose
    casts them to; another spelling of an id (its digits in upper case)
    is cast to the same ObjectId and is not equal as a string. *)
Definition matches (f : Filter) (t : Task.Doc) : bool :=
  when (_id f) (String.eqb (Task._id t))
  && when (user f) (String.eqb (Task.user t))
  && when (priority f) (Priority_eqb (Task.priority t))
  && when (completed f) (Bool.eqb (Task.completed t))
  && when (dueDate f) (fun r => in_range r (Task.dueDate t))
  && when (text f) (fun s => textMatch s (Task.title t) (Task.description t)).

(** The documents a filter matches, in natural order. *)
Definition matching (f : Filter) (db : Tasks) : list Task.Doc :=
  filter (matches f) db.

(** Mongoose casts the filter to the schema before it queries: the
    values of [_id] and [user] have to be ObjectIds. *)
Definition castable (f : Filter) : bool :=
  when (_id f) isObjectId && when (user f) isObjectId.

Definition CastError : Thrown := PlainError "CastError".

(** [Task.find(f)] and [Task.countDocuments(f)] *)
Definition find (f : Filter) (db : Tasks) : result (list Task.Doc) :=
  if castable f then Ok (matching f db) else Throw CastError.

Definition countDocuments (f : Filter) (db : Tasks) : result Z :=
  if castable f then Ok (Z.of_nat (List.length (matching f db)))
  else Throw CastError.

(** [Task.findOne(f)] *)
Definition findOne (f : Filter) (db : Tasks) : result (option Task.Doc) :=
  if castable f then Ok (List.find (matches f) db) else Throw CastError.

(** Values a sort key can take, in BSON comparison order: null (also a
    missing field) before strings before dates. *)
Inductive Bson :=
| BNull
| BString (s : string)
| BDate (d : Instant).

Definition Bson_leb (a b : Bson) : bool :=
  match a, b with
  | BNull, _ => true
  | BString _, BNull => false
  | BString x, BString y => String.leb x y
  | BString _, BDate _ => true
  | BDate x, BDate y => x <=? y
  | BDate _, _ => false
  end.

Definition sortKey (f : Sort.Field) (t : Task.Doc) : Bson :=
  match f with
  | Sort.createdAt => BDate (Task.createdAt t)
  | Sort.dueDate =>
      match Task.dueDate t with
      | Some d => BDate d
      | None => BNull
      end
  | Sort.priority => BString (Priority_str (Task.priority t))
  end.

(** A sort specification [{ [field]: dir }], [dir] being 1 or -1. *)
Definition SortSpec := (Sort.Field * Z)%type.

Definition before (s : SortSpec) (a b : Task.Doc) : bool :=
  if 0 <? snd s then Bson_leb (sortKey (fst s) a) (sortKey (fst s) b)
  else Bson_leb (sortKey (fst s) b) (sortKey (fst s) a).

(** The order a sorted result is in. *)
Definition ordered (s : SortSpec) (a b : Task.Doc) : Prop :=
  before s a b = true.

Fixpoint insert (s : SortSpec) (x : Task.Doc) (l : list Task.Doc)
  : list Task.Doc :=
  match l with
  | [] => [x]
  | y :: r => if before s x y then x :: l else y :: insert s x r
  end.

(** [.sort(s)].  MongoDB fixes no order among documents with equal
    keys; here they keep their natural order.  What depends on the
    order among equal keys is stated for distinct keys only. *)
Definition sort (s : SortSpec) (l : list Task.Doc) : list Task.Doc :=
  fold_right (insert s) [] l.

(** [.skip(n)]: the server refuses a negative skip. *)
Definition skip (n : Z) (l : list Task.Doc) : result (list Task.Doc) :=
  if n <? 0 then Throw (PlainError "MongoServerError")
  else Ok (skipn (Z.to_nat n) l).

(** [.limit(n)]: zero is no limit, and a negative limit is its absolute
    value. *)
Definition limit (n : Z) (l : list Task.Doc) : list Task.Doc :=
  if n =? 0 then l else firstn (Z.abs_nat n) l.

(** The collection without the first match of a filter. *)
Fixpoint removeFirst (f : Filter) (db : Tasks) : Tasks :=
  match db with
  | [] => []
  | t :: r => if matches f t then r else t :: removeFirst f r
  end.

(** The collection with the first match of a filter updated, and the
    updated document. *)
Fixpoint updateFirst (f : Filter) (upd : Task.Doc -> Task.Doc)
  (db : Tasks) : option Task.Doc * Tasks :=
  match db with
  | [] => (None, [])
  | t :: r =>
      if matches f t then (Some (upd t), upd t :: r)
      else let (o, r') := updateFirst f upd r in (o, t :: r')
  end.

(** [Task.findOneAndDelete(f)] *)
Definition findOneAndDelete (f : Filter) (db : Tasks) : result unit * Tasks :=
  if castable f then (Ok tt, removeFirst f db) else (Throw CastError, db).

(** [Task.findOneAndUpdate(f, upd, { new: true })] *)
Definition findOneAndUpdate (f : Filter) (upd : Task.Doc -> Task.Doc)
  (db : Tasks) : result (option Task.Doc) * Tasks :=
  if castable f
  then let (o, db') := updateFirst f upd db in (Ok o, db')
  else (Throw CastError, db).

End Queries.
End Mongo.

(** ** services/task.service.ts *)

Module TaskService.
Section Service.
Context {RT : Runtime}.

(** The cast of a date path: [if (x.dueDate) x.dueDate = new Date(x.dueDate)]
    in the service, then Mongoose's own cast, which stores null for the
    empty string the service left alone. *)
Definition castDueDate (s : string) : option Instant :=
  if Js.truthy s then Some (Date_parse s) else None.

(** [createTask(userId, data)].  [Task.create] trims title and
    description, refuses an empty title ([required: true]) and a user
    that is no ObjectId, stamps [createdAt] and [updatedAt], and appends
    the document under the fresh id [oid]. *)
Definition createTask (now : Instant) (oid : ObjectId) (userId : ObjectId)
  (data : Create.Body) (db : Tasks) : result Task.Doc * Tasks :=
  let doc :=
    {| Task._id := oid;
       Task.user := userId;
       Task.title := Js.trim (Create.title data);
       Task.description := option_map Js.trim (Create.description data);
       Task.priority := Create.priority data;
       Task.dueDate :=
         match Create.dueDate data with
         | Some s => castDueDate s
         | None => None
         end;
       Task.completed := Create.completed data;
       Task.createdAt := now;
       Task.updatedAt := now |} in
  if Js.truthy (Task.title doc) && isObjectId userId
  then (Ok doc, db ++ [doc])
  else (Throw (PlainError "ValidationError"), db).

(** The filter built by lines 11 to 18 of [listTasks]. *)
Definition listFilter (userId : ObjectId) (query : Query.t) : Mongo.Filter :=
  let dueBefore :=
    match Query.dueBefore query with
    | Some s => if Js.truthy s then Some (Date_parse s) else None
    | None => None
    end in
  let dueAfter :=
    match Query.dueAfter query with
    | Some s => if Js.truthy s then Some (Date_parse s) else None
    | None => None
    end in
  {| Mongo._id := None;
     Mongo.user := Some userId;
     Mongo.priority := Query.priority query;
     Mongo.completed := Query.completed query;
     Mongo.dueDate :=
       match dueBefore, dueAfter with
       | None, None => None
       | _, _ => Some {| Mongo.lte := dueBefore; Mongo.gte := dueAfter |}
       end;
     Mongo.text :=
       match Query.search query with
       | Some s => if Js.truthy s then Some s else None
       | None => None
       end |}.

Definition or_default {A} (o : option A) (d : A) : A :=
  match o with
  | Some a => a
  | None => d
  end.

Record Page := {
  items : list Task.Doc;
  page : Z;
  limit : Z;
  total : Z
}.

(** [listTasks(userId, query)] *)
Definition listTasks (userId : ObjectId) (query : Query.t) (db : Tasks)
  : result Page :=
  let page := or_default (Query.page query) 1 in
  let limit := or_default (Query.limit query) 20 in
  let sort := or_default (Query.sort query) Sort.createdAt in
  let order := or_default (Query.order query) Sort.desc in
  let filter := listFilter userId query in
  let skip := (page - 1) * limit in
  let sortSpec : Mongo.SortSpec :=
    (sort, match order with Sort.asc => 1 | Sort.desc => -1 end) in
  match Mongo.find filter db, Mongo.countDocuments filter db with
  | Ok docs, Ok total =>
      match Mongo.skip skip (Mongo.sort sortSpec docs) with
      | Ok rest =>
          Ok {| items := Mongo.limit limit rest;
                page := page;
                limit := limit;
                total := total |}
      | Throw e => Throw e
      end
  | Throw e, _ => Throw e
  | _, Throw e => Throw e
  end.

(** The filter [{ _id: id, user: userId }] of the single-task operations. *)
Definition ownedById (userId id : ObjectId) : Mongo.Filter :=
  {| Mongo._id := Some id;
     Mongo.user := Some userId;
     Mongo.priority := None;
     Mongo.completed := None;
     Mongo.dueDate := None;
     Mongo.text := None |}.

(** [getTask(userId, id)] *)
Definition getTask (userId id : ObjectId) (db : Tasks)
  : result (option Task.Doc) :=
  Mongo.findOne (ownedById userId id) db.

(** The update Mongoose applies for a patch: every key of the patch is
    set (strings trimmed, as the schema of the model asks), the other
    paths are left alone, and [updatedAt] is stamped. *)
Definition applyPatch (now : Instant) (patch : Patch.Body) (t : Task.Doc)
  : Task.Doc :=
  {| Task._id := Task._id t;
     Task.user := Task.user t;
     Task.title :=
       match Patch.title patch with
       | Some s => Js.trim s
       | None => Task.title t
       end;
     Task.description :=
       match Patch.description patch with
       | Some s => Some (Js.trim s)
       | None => Task.description t
       end;
     Task.priority := or_default (Patch.priority patch) (Task.priority t);
     Task.dueDate :=
       match Patch.dueDate patch with
       | Some s => castDueDate s
       | None => Task.dueDate t
       end;
     Task.completed := or_default (Patch.completed patch) (Task.completed t);
     Task.createdAt := Task.createdAt t;
     Task.updatedAt := now |}.

(** [updateTask(userId, id, patch)] *)
Definition updateTask (now : Instant) (userId id : ObjectId)
  (patch : Patch.Body) (db : Tasks) : result (option Task.Doc) * Tasks :=
  Mongo.findOneAndUpdate (ownedById userId id) (applyPatch now patch) db.

(** [deleteTask(userId, id)] *)
Definition deleteTask (userId id : ObjectId) (db : Tasks)
  : result unit * Tasks :=
  Mongo.findOneAndDelete (ownedById userId id) db.

End Service.
End TaskService.

(** [AuthUser] of [types/express.d.ts], which is also the payload of the
    bearer token ([sub] is [id]). *)
Module AuthUser.
Record t := {
  id : ObjectId;
  email : string;
  name : option string
}.
End AuthUser.

(** The cryptographic libraries: [crypto], [bcryptjs] and [jsonwebtoken]
    with the secret and the lifetime of [config/env.ts]. *)
Class Crypto := {
  (** [crypto.createHash('sha256').update(s).digest('hex')] *)
  sha256_hex : string -> string;
  (** [bcrypt.hash(password, 10)], with the salt it draws *)
  bcrypt_hash : string -> string -> string;
  (** [bcrypt.compare(password, hash)] *)
  bcrypt_compare : string -> string -> bool;
  (** [sign(payload, env.JWT_SECRET, { expiresIn: env.JWT_EXPIRES })] at
      an instant *)
  jwt_sign : AuthUser.t -> Instant -> string;
  (** [jwt.verify(token, env.JWT_SECRET)] at an instant; [None] when it
      throws *)
  jwt_verify : string -> Instant -> option AuthUser.t
}.

(** ** models/User.ts *)

Module User.

(** [UserDoc] with the fields Mongoose adds. *)
Record Doc := {
  _id : ObjectId;
  email : string;
  passwordHash : string;
  name : option string;
  themeBackgroundUrl : option string;
  passwordResetTokenHash : option string;
  passwordResetExpires : option Instant;
  createdAt : Instant;
  updatedAt : Instant
}.

Definition set_passwordHash (h : string) (u : Doc) : Doc :=
  {| _id := _id u; email := email u; passwordHash := h; name := name u;
     themeBackgroundUrl := themeBackgroundUrl u;
     passwordResetTokenHash := passwordResetTokenHash u;
     passwordResetExpires := passwordResetExpires u;
     createdAt := createdAt u; updatedAt := updatedAt u |}.

Definition set_name (n : option string) (u : Doc) : Doc :=
  {| _id := _id u; email := email u; passwordHash := passwordHash u;
     name := n; themeBackgroundUrl := themeBackgroundUrl u;
     passwordResetTokenHash := passwordResetTokenHash u;
     passwordResetExpires := passwordResetExpires u;
     createdAt := createdAt u; updatedAt := updatedAt u |}.

Definition set_passwordResetTokenHash (h : option string) (u : Doc) : Doc :=
  {| _id := _id u; email := email u; passwordHash := passwordHash u;
     name := name u; themeBackgroundUrl := themeBackgroundUrl u;
     passwordResetTokenHash := h;
     passwordResetExpires := passwordResetExpires u;
     createdAt := createdAt u; updatedAt := updatedAt u |}.

Definition set_passwordResetExpires (e : option Instant) (u : Doc) : Doc :=
  {| _id := _id u; email := email u; passwordHash := passwordHash u;
     name := name u; themeBackgroundUrl := themeBackgroundUrl u;
     passwordResetTokenHash := passwordResetTokenHash u;
     passwordResetExpires := e;
     createdAt := createdAt u; updatedAt := updatedAt u |}.

Definition set_updatedAt (t : Instant) (u : Doc) : Doc :=
  {| _id := _id u; email := email u; passwordHash := passwordHash u;
     name := name u; themeBackgroundUrl := themeBackgroundUrl u;
     passwordResetTokenHash := passwordResetTokenHash u;
     passwordResetExpires := passwordResetExpires u;
     createdAt := createdAt u; updatedAt := t |}.

End User.

(** The users collection. *)
Definition Users := list User.Doc.

Module UserStore.
Section Store.
Context {RT : Runtime}.

(** The setters of the [email] path ([lowercase], [trim]), which
    Mongoose applies to a value it stores and to a value it queries. *)
Definition castEmail (s : string) : string := Js.trim (toLowerCase s).

(** [{ email }] *)
Definition byEmail (email : string) (u : User.Doc) : bool :=
  String.eqb (User.email u) (castEmail email).

(** [{ passwordResetTokenHash: h, passwordResetExpires: { $gt: now } }]:
    a document without an expiry matches no comparison with a date. *)
Definition byResetToken (h : string) (now : Instant) (u : User.Doc) : bool :=
  match User.passwordResetTokenHash u with
  | Some h' => String.eqb h' h
  | None => false
  end
  &&
  match User.passwordResetExpires u with
  | Some e => now <? e
  | None => false
  end.

(** [User.findOne(filter)] *)
Definition findOne (f : User.Doc -> bool) (db : Users) : option User.Doc :=
  List.find f db.

(** [user.save()] on a document that was read from the collection: the
    document stored under its [_id] is replaced, and [updatedAt] is
    stamped. *)
Fixpoint save (now : Instant) (u : User.Doc) (db : Users) : Users :=
  match db with
  | [] => []
  | v :: r =>
      if String.eqb (User._id v) (User._id u)
      then User.set_updatedAt now u :: r
      else v :: save now u r
  end.

End Store.
End UserStore.

(** ** services/auth.service.ts *)

Module AuthService.

(** [{ user: { id, email, name }, token }] *)
Record Session := {
  user : AuthUser.t;
  token : string
}.

(** [{ ok: true }] or [{ ok: true, token }] *)
Record Forgot := {
  ok : bool;
  rawToken : option string
}.

Section Service.
Context {RT : Runtime} {CR : Crypto}.

Definition signToken (now : Instant) (id : ObjectId) (email : string)
  (name : option string) : string :=
  jwt_sign {| AuthUser.id := id; AuthUser.email := email; AuthUser.name := name |}
    now.

Definition session (now : Instant) (u : User.Doc) : Session :=
  {| user := {| AuthUser.id := User._id u; AuthUser.email := User.email u;
                AuthUser.name := User.name u |};
     token := signToken now (User._id u) (User.email u) (User.name u) |}.

(** [register(email, password, name)].  [User.create] casts the email,
    trims the name, refuses an empty email ([required: true]) and stores
    the document under the fresh id [oid]. *)
Definition register (now : Instant) (oid : ObjectId) (salt : string)
  (email password : string) (name : option string) (db : Users)
  : result Session * Users :=
  match UserStore.findOne (UserStore.byEmail email) db with
  | Some _ => (Throw (HttpError "EmailAlreadyExists" 409), db)
  | None =>
      let u :=
        {| User._id := oid;
           User.email := UserStore.castEmail email;
           User.passwordHash := bcrypt_hash password salt;
           User.name := option_map Js.trim name;
           User.themeBackgroundUrl := None;
           User.passwordResetTokenHash := None;
           User.passwordResetExpires := None;
           User.createdAt := now;
           User.updatedAt := now |} in
      if Js.truthy (User.email u) then (Ok (session now u), db ++ [u])
      else (Throw (PlainError "ValidationError"), db)
  end.

(** [login(email, password)] *)
Definition login (now : Instant) (email password : string) (db : Users)
  : result Session :=
  match UserStore.findOne (UserStore.byEmail email) db with
  | None => Throw (HttpError "InvalidCredentials" 401)
  | Some u =>
      if negb (bcrypt_compare password (User.passwordHash u))
      then Throw (HttpError "InvalidCredentials" 401)
      else Ok (session now u)
  end.

(** [requestPasswordReset(email)].  [rawToken] is the hex string of the
    32 random bytes, [production] is [process.env.NODE_ENV ===
    'production']. *)
Definition requestPasswordReset (now : Instant) (rawToken : string)
  (production : bool) (email : string) (db : Users) : Forgot * Users :=
  match UserStore.findOne (UserStore.byEmail email) db with
  | None => ({| ok := true; rawToken := None |}, db)
  | Some u =>
      let tokenHash := sha256_hex rawToken in
      let u1 := User.set_passwordResetTokenHash (Some tokenHash) u in
      let u2 := User.set_passwordResetExpires (Some (now + 60 * 60 * 1000)) u1 in
      let db' := UserStore.save now u2 db in
      let includeToken := negb production in
      (if includeToken then {| ok := true; rawToken := Some rawToken |}
       else {| ok := true; rawToken := None |}, db')
  end.

(** [resetPassword(rawToken, newPassword, name)] *)
Definition resetPassword (now : Instant) (salt : string)
  (rawToken newPassword : string) (name : option string) (db : Users)
  : result Session * Users :=
  let tokenHash := sha256_hex rawToken in
  match UserStore.findOne (UserStore.byResetToken tokenHash now) db with
  | None => (Throw (HttpError "InvalidOrExpiredResetToken" 400), db)
  | Some u =>
      let u1 := User.set_passwordHash (bcrypt_hash newPassword salt) u in
      let u2 :=
        match name with
        | Some n =>
            if (0 <? String.length (Js.trim n))%nat
            then User.set_name (Some (Js.trim n)) u1
            else u1
        | None => u1
        end in
      let u3 := User.set_passwordResetTokenHash None u2 in
      let u4 := User.set_passwordResetExpires None u3 in
      let db' := UserStore.save now u4 db in
      (Ok (session now u4), db')
  end.

End Service.
End AuthService.

(** ** HTTP responses *)

Module Http.

(** The JSON bodies the task controllers send. *)
Inductive Body :=
| Empty
| ErrorBody (error : string)
| TaskBody (t : Task.Doc)
| PageBody (p : TaskService.Page)
| SessionBody (s : AuthService.Session)
| ForgotBody (f : AuthService.Forgot).

Record Response := {
  status : Z;
  body : Body
}.

(** [res.json(x)] answers 200. *)
Definition json (b : Body) : Response := {| status := 200; body := b |}.

End Http.

(** ** middleware/auth.ts and middleware/validate.ts *)

Module Middleware.
Section Middleware.
Context {CR : Crypto}.

Definition unauthorized : Http.Response :=
  {| Http.status := 401; Http.body := Http.ErrorBody "Unauthorized" |}.

(** [requireAuth]: either the 401 response, or the user attached to the
    request before [next()]. *)
Definition requireAuth (now : Instant) (authorization : option string)
  : Http.Response + AuthUser.t :=
  match authorization with
  | None => inl unauthorized
  | Some hdr =>
      if negb (Js.truthy hdr) || negb (Js.startsWith "Bearer " hdr)
      then inl unauthorized
      else
        let token := Js.slice (String.length "Bearer ") hdr in
        match jwt_verify token now with
        | Some payload => inr payload
        | None => inl unauthorized
        end
  end.

(** [validate(schema)]: either the 400 response, or the parsed value.
    The parsed body replaces [req.body]; the parsed params and query
    are assigned onto [req.params] and [req.query], which the request
    keeps (Express 4, the version the backend guide names), so the
    controller reads the parsed values. *)
Definition validate {A B} (schema : A -> option B) (x : A)
  : Http.Response + B :=
  match schema x with
  | Some parsed => inr parsed
  | None =>
      inl {| Http.status := 400; Http.body := Http.ErrorBody "ValidationError" |}
  end.

End Middleware.
End Middleware.

(** ** controllers/task.controller.ts *)

(** A handler either sends a response or rejects; [asyncHandler] passes
    the rejection on to the error middleware.  Handlers that write
    return the collection as they leave it. *)
Module TaskController.
Section Controller.
Context {RT : Runtime}.

Definition notFound : Http.Response :=
  {| Http.status := 404; Http.body := Http.ErrorBody "NotFound" |}.

Definition create (now : Instant) (oid : ObjectId) (userId : ObjectId)
  (body : Create.Body) (db : Tasks) : result Http.Response * Tasks :=
  match TaskService.createTask now oid userId body db with
  | (Ok task, db') =>
      (Ok {| Http.status := 201; Http.body := Http.TaskBody task |}, db')
  | (Throw e, db') => (Throw e, db')
  end.

Definition list (userId : ObjectId) (query : Query.t) (db : Tasks)
  : result Http.Response :=
  match TaskService.listTasks userId query db with
  | Ok data => Ok (Http.json (Http.PageBody data))
  | Throw e => Throw e
  end.

Definition get (userId id : ObjectId) (db : Tasks) : result Http.Response :=
  match TaskService.getTask userId id db with
  | Ok None => Ok notFound
  | Ok (Some task) => Ok (Http.json (Http.TaskBody task))
  | Throw e => Throw e
  end.

Definition patch (now : Instant) (userId id : ObjectId) (body : Patch.Body)
  (db : Tasks) : result Http.Response * Tasks :=
  match TaskService.updateTask now userId id body db with
  | (Ok None, db') => (Ok notFound, db')
  | (Ok (Some task), db') => (Ok (Http.json (Http.TaskBody task)), db')
  | (Throw e, db') => (Throw e, db')
  end.

Definition remove (userId id : ObjectId) (db : Tasks)
  : result Http.Response * Tasks :=
  match TaskService.deleteTask userId id db with
  | (Ok _, db') => (Ok {| Http.status := 204; Http.body := Http.Empty |}, db')
  | (Throw e, db') => (Throw e, db')
  end.

End Controller.
End TaskController.

(** ** routes/task.routes.ts *)

(** Each route runs [requireAuth], then [validate] with its schema, then
    the controller.  A request is its [Authorization] header, its [:id]
    parameter, its query string or its JSON body. *)
Module TaskRoutes.
Section Routes.
Context {RT : Runtime} {CR : Crypto}.

Definition sent (r : Http.Response) (db : Tasks)
  : result Http.Response * Tasks := (Ok r, db).

(** [GET /tasks] *)
Definition get_tasks (now : Instant) (authorization : option string)
  (query : Wire.Query) (db : Tasks) : result Http.Response :=
  match Middleware.requireAuth now authorization with
  | inl r => Ok r
  | inr u =>
      match Middleware.validate Zod.listQuerySchema query with
      | inl r => Ok r
      | inr q => TaskController.list (AuthUser.id u) q db
      end
  end.

(** [GET /tasks/:id] *)
Definition get_task (now : Instant) (authorization : option string)
  (id : string) (db : Tasks) : result Http.Response :=
  match Middleware.requireAuth now authorization with
  | inl r => Ok r
  | inr u =>
      match Middleware.validate Zod.idSchema id with
      | inl r => Ok r
      | inr id' => TaskController.get (AuthUser.id u) id' db
      end
  end.

(** [POST /tasks] *)
Definition post_task (now : Instant) (oid : ObjectId)
  (authorization : option string) (body : Json.Body) (db : Tasks)
  : result Http.Response * Tasks :=
  match Middleware.requireAuth now authorization with
  | inl r => sent r db
  | inr u =>
      match Middleware.validate Zod.createTaskSchema body with
      | inl r => sent r db
      | inr b => TaskController.create now oid (AuthUser.id u) b db
      end
  end.

(** [PATCH /tasks/:id] *)
Definition patch_task (now : Instant) (authorization : option string)
  (id : string) (body : Json.Body) (db : Tasks)
  : result Http.Response * Tasks :=
  match Middleware.requireAuth now authorization with
  | inl r => sent r db
  | inr u =>
      match Middleware.validate Zod.idSchema id,
            Middleware.validate Zod.updateTaskSchema body with
      | inl r, _ => sent r db
      | _, inl r => sent r db
      | inr id', inr b => TaskController.patch now (AuthUser.id u) id' b db
      end
  end.

(** [DELETE /tasks/:id] *)
Definition delete_task (now : Instant) (authorization : option string)
  (id : string) (db : Tasks) : result Http.Response * Tasks :=
  match Middleware.requireAuth now authorization with
  | inl r => sent r db
  | inr u =>
      match Middleware.validate Zod.idSchema id with
      | inl r => sent r db
      | inr id' => TaskController.remove (AuthUser.id u) id' db
      end
  end.

End Routes.
End TaskRoutes.

(** ** controllers/auth.controller.ts and routes/auth.routes.ts *)

(** The auth routes have no middleware of their own: each is its
    controller under [asyncHandler]. *)
Module AuthController.

(** A JSON body with the keys the auth controllers read, each a string
    or absent. *)
Record Body := {
  email : option string;
  password : option string;
  name : option string;
  token : option string
}.

Section Controller.
Context {RT : Runtime} {CR : Crypto}.

(** [!x] for a key that is a string or absent *)
Definition missing (x : option string) : bool :=
  match x with
  | Some s => negb (Js.truthy s)
  | None => true
  end.

(** [x ? String(x) : undefined] *)
Definition optString (x : option string) : option string :=
  match x with
  | Some s => if Js.truthy s then Some s else None
  | None => None
  end.

Definition validationError : Http.Response :=
  {| Http.status := 400; Http.body := Http.ErrorBody "ValidationError" |}.

Definition register (now : Instant) (oid : ObjectId) (salt : string)
  (body : Body) (db : Users) : result Http.Response * Users :=
  match email body, password body with
  | Some e, Some p =>
      if missing (Some e) || missing (Some p) then (Ok validationError, db)
      else
        match AuthService.register now oid salt e p (optString (name body)) db with
        | (Ok s, db') =>
            (Ok {| Http.status := 201; Http.body := Http.SessionBody s |}, db')
        | (Throw err, db') => (Throw err, db')
        end
  | _, _ => (Ok validationError, db)
  end.

Definition login (now : Instant) (body : Body) (db : Users)
  : result Http.Response :=
  match email body, password body with
  | Some e, Some p =>
      if missing (Some e) || missing (Some p) then Ok validationError
      else
        match AuthService.login now e p db with
        | Ok s => Ok (Http.json (Http.SessionBody s))
        | Throw err => Throw err
        end
  | _, _ => Ok validationError
  end.

Definition forgot (now : Instant) (rawToken : string) (production : bool)
  (body : Body) (db : Users) : result Http.Response * Users :=
  match email body with
  | Some e =>
      if missing (Some e) then (Ok validationError, db)
      else
        let (f, db') := AuthService.requestPasswordReset now rawToken production e db in
        (Ok (Http.json (Http.ForgotBody f)), db')
  | None => (Ok validationError, db)
  end.

Definition reset (now : Instant) (salt : string) (body : Body) (db : Users)
  : result Http.Response * Users :=
  match token body, password body with
  | Some t, Some p =>
      if missing (Some t) || missing (Some p) then (Ok validationError, db)
      else
        match AuthService.resetPassword now salt t p (optString (name body)) db with
        | (Ok s, db') => (Ok (Http.json (Http.SessionBody s)), db')
        | (Throw err, db') => (Throw err, db')
        end
  | _, _ => (Ok validationError, db)
  end.

End Controller.
End AuthController.

(** ** A runtime to compute with *)

(** Instances of [Runtime] and [Crypto] on which the definitions above
    evaluate.  The date parser reads the UTC shape
    [YYYY-MM-DDTHH:MM:SSZ]; the hash and the token are transparent
    encodings.  The examples below run on them; no theorem depends on
    them. *)
Module Stub.

Definition digit (c : ascii) : option Z :=
  let n := nat_of_ascii c in
  if ((48 <=? n) && (n <=? 57))%nat then Some (Z.of_nat (n - 48)) else None.

Fixpoint decimal (acc : Z) (s : string) : option Z :=
  match s with
  | EmptyString => Some acc
  | String c r =>
      match digit c with
      | Some d => decimal (10 * acc + d) r
      | None => None
      end
  end.

(** Decimal numerals only. *)
Definition number (s : string) : option Z :=
  match s with
  | EmptyString => None
  | _ => decimal 0 s
  end.

(** Days from 1970-01-01 to a civil date. *)
Definition days_from_civil (y m d : Z) : Z :=
  let y' := if m <=? 2 then y - 1 else y in
  let era := y' / 400 in
  let yoe := y' - era * 400 in
  let mp := (m + 9) mod 12 in
  let doy := (153 * mp + 2) / 5 + d - 1 in
  let doe := yoe * 365 + yoe / 4 - yoe / 100 + doy in
  era * 146097 + doe - 719468.

Definition field (s : string) (from len : nat) : option Z :=
  number (String.substring from len s).

Definition fields (s : string) : option (Z * Z * Z * Z * Z * Z) :=
  match field s 0 4, field s 5 2, field s 8 2,
        field s 11 2, field s 14 2, field s 17 2 with
  | Some y, Some mo, Some d, Some h, Some mi, Some se =>
      Some (y, mo, d, h, mi, se)
  | _, _, _, _, _, _ => None
  end.

Definition datetime_shape (s : string) : bool :=
  (String.length s =? 20)%nat
  && String.eqb (String.substring 4 1 s) "-"
  && String.eqb (String.substring 7 1 s) "-"
  && String.eqb (String.substring 10 1 s) "T"
  && String.eqb (String.substring 13 1 s) ":"
  && String.eqb (String.substring 16 1 s) ":"
  && String.eqb (String.substring 19 1 s) "Z"
  && match fields s with Some _ => true | None => false end.

Definition parse (s : string) : Instant :=
  match fields s with
  | Some (y, mo, d, h, mi, se) =>
      (((days_from_civil y mo d * 24 + h) * 60 + mi) * 60 + se) * 1000
  | None => 0
  end.

Definition lower (c : ascii) : ascii :=
  let n := nat_of_ascii c in
  if ((65 <=? n) && (n <=? 90))%nat then ascii_of_nat (n + 32) else c.

Fixpoint lowercase (s : string) : string :=
  match s with
  | EmptyString => EmptyString
  | String c r => String (lower c) (lowercase r)
  end.

Fixpoint contains (needle s : string) : bool :=
  String.prefix needle s
  || match s with
     | EmptyString => false
     | String _ r => contains needle r
     end.

Definition hex (c : ascii) : bool :=
  let n := nat_of_ascii c in
  ((48 <=? n) && (n <=? 57) || (97 <=? n) && (n <=? 102)
   || (65 <=? n) && (n <=? 70))%nat.

Fixpoint all_hex (s : string) : bool :=
  match s with
  | EmptyString => true
  | String c r => hex c && all_hex r
  end.

(** Strings of 24 hexadecimal digits. *)
Definition object_id (s : string) : bool :=
  (String.length s =? 24)%nat && all_hex s.

Definition runtime : Runtime :=
  {| Date_parse := parse;
     isDatetime := datetime_shape;
     Number_of := number;
     toLowerCase := lowercase;
     isObjectId := object_id;
     textMatch := fun q title description =>
       contains q title
       || match description with
          | Some d => contains q d
          | None => false
          end |}.

Definition crypto : Crypto :=
  {| sha256_hex := fun s => ("sha256:" ++ s)%string;
     bcrypt_hash := fun password salt => (salt ++ "$" ++ password)%string;
     bcrypt_compare := fun password hash =>
       contains ("$" ++ password)%string hash;
     jwt_sign := fun payload _ => ("jwt:" ++ AuthUser.id payload)%string;
     jwt_verify := fun token _ =>
       if String.prefix "jwt:" token
       then Some {| AuthUser.id := Js.slice 4 token; AuthUser.email := "";
                    AuthUser.name := None |}
       else None |}.

End Stub.

(** ** Sample data *)

Module Sample.

Definition task (id owner title : string) (created : Instant) : Task.Doc :=
  {| Task._id := id; Task.user := owner; Task.title := title;
     Task.description := None; Task.priority := medium;
     Task.dueDate := None; Task.completed := false;
     Task.createdAt := created; Task.updatedAt := created |}.

(** The ids of the users alice and bob, and of five tasks. *)
Definition alice_id : ObjectId := "a11ce0000000000000000001".
Definition bob_id : ObjectId := "b0b000000000000000000002".
Definition t1 : ObjectId := "7a5c00000000000000000001".
Definition t2 : ObjectId := "7a5c00000000000000000002".
Definition t3 : ObjectId := "7a5c00000000000000000003".
Definition t4 : ObjectId := "7a5c00000000000000000004".
Definition t5 : ObjectId := "7a5c00000000000000000005".

Definition A : Task.Doc := task t1 alice_id "A" 1000.
Definition B : Task.Doc := task t2 alice_id "B" 2000.
Definition C : Task.Doc := task t3 alice_id "C" 3000.
Definition D : Task.Doc := task t4 bob_id "D" 1500.

(** A completed task of alice. *)
Definition E : Task.Doc :=
  {| Task._id := t5; Task.user := alice_id; Task.title := "E";
     Task.description := None; Task.priority := high;
     Task.dueDate := Some 1704067200000; Task.completed := true;
     Task.createdAt := 4000; Task.updatedAt := 4500 |}.

Definition alice : AuthUser.t :=
  {| AuthUser.id := alice_id; AuthUser.email := ""; AuthUser.name := None |}.

Definition bob : AuthUser.t :=
  {| AuthUser.id := bob_id; AuthUser.email := ""; AuthUser.name := None |}.

(** The [Authorization] headers of alice and bob under [Stub.crypto]. *)
Definition alice_header : option string :=
  Some "Bearer jwt:a11ce0000000000000000001".
Definition bob_header : option string :=
  Some "Bearer jwt:b0b000000000000000000002".

(** [{ completed: true }] *)
Definition completed_true : Json.Body :=
  {| Json.title := None; Json.description := None; Json.priority := None;
     Json.dueDate := None; Json.completed := Some true |}.

(** [{ title: "E" }] *)
Definition titled_E : Json.Body :=
  {| Json.title := Some "E"; Json.description := None; Json.priority := None;
     Json.dueDate := None; Json.completed := None |}.

(** [?completed=false] *)
Definition completed_false : Wire.Query :=
  {| Wire.search := None; Wire.priority := None;
     Wire.completed := Some "false"; Wire.dueBefore := None;
     Wire.dueAfter := None; Wire.page := None; Wire.limit := None;
     Wire.sort := None; Wire.order := None |}.

(** [?page=2&limit=1&sort=createdAt&order=asc] *)
Definition second_of_three : Wire.Query :=
  {| Wire.search := None; Wire.priority := None; Wire.completed := None;
     Wire.dueBefore := None; Wire.dueAfter := None; Wire.page := Some "2";
     Wire.limit := Some "1"; Wire.sort := Some "createdAt";
     Wire.order := Some "asc" |}.

Definition account (id email : string) (reset : option string)
  (expires : option Instant) : User.Doc :=
  {| User._id := id; User.email := email; User.passwordHash := "salt$secret";
     User.name := None; User.themeBackgroundUrl := None;
     User.passwordResetTokenHash := reset;
     User.passwordResetExpires := expires;
     User.createdAt := 0; User.updatedAt := 0 |}.

(** carol and dave with no reset pending. *)
Definition carol_id : ObjectId := "ca701000000000000000000a".
Definition dave_id : ObjectId := "da7e0000000000000000000b".
Definition carol : User.Doc := account carol_id "carol@example.com" None None.
Definition dave : User.Doc := account dave_id "dave@example.com" None None.

(** carol after a reset request with the raw token ["tok1"] at instant
    1000, under [Stub.crypto]. *)
Definition carol_requested : User.Doc :=
  account carol_id "carol@example.com" (Some "sha256:tok1") (Some 3601000).

End Sample.

(** ** JavaScript string methods *)

Module Str.

(** [s.split(sep)] for a separator of one character. *)
Fixpoint split (sep : ascii) (s : string) : list string :=
  match s with
  | EmptyString => [EmptyString]
  | String c r =>
      if Ascii.eqb c sep then EmptyString :: split sep r
      else
        match split sep r with
        | h :: t => String c h :: t
        | [] => [String c EmptyString]
        end
  end.

(** [s.replace(/a/g, b)] for characters [a] and [b]. *)
Fixpoint replaceAll (a b : ascii) (s : string) : string :=
  match s with
  | EmptyString => EmptyString
  | String c r => String (if Ascii.eqb c a then b else c) (replaceAll a b r)
  end.

(** [c.repeat(n)] *)
Fixpoint repeat (c : ascii) (n : nat) : string :=
  match n with
  | O => EmptyString
  | S m => String c (repeat c m)
  end.

(** [s.replace(/suf$/, '')] for a literal [suf]: the string without
    that ending, or the string itself when it ends otherwise. *)
Fixpoint dropSuffix (suf s : string) : string :=
  if String.eqb s suf then EmptyString
  else
    match s with
    | EmptyString => EmptyString
    | String c r => String c (dropSuffix suf r)
    end.

(** The value of a string of one to fifteen decimal digits, which is
    what [Number] makes of it, exactly. *)
Definition digit (c : ascii) : option Z :=
  if ((48 <=? Js.code c) && (Js.code c <=? 57))%N
  then Some (Z.of_N (Js.code c) - 48)
  else None.

Fixpoint digits (acc : Z) (s : string) : option Z :=
  match s with
  | EmptyString => Some acc
  | String c r =>
      match digit c with
      | Some d => digits (10 * acc + d) r
      | None => None
      end
  end.

Definition numeral (s : string) : option Z :=
  if ((1 <=? String.length s) && (String.length s <=? 15))%nat
  then digits 0 s
  else None.

(** Whether every character is white space. *)
Definition blank (s : string) : bool :=
  match Js.trimStart s with
  | EmptyString => true
  | String _ _ => false
  end.

End Str.

(** ** controllers/user.controller.ts and routes/user.routes.ts *)

Module UserController.

(** [{ id, email, name, themeBackgroundUrl }] *)
Record Profile := {
  id : string;
  email : string;
  name : option string;
  themeBackgroundUrl : option string
}.

Inductive Body :=
| ErrorBody (error : string) (message : option string)
| ProfileBody (p : Profile)
| ThemeBody (themeBackgroundUrl : string).

Record Response := {
  status : Z;
  body : Body
}.

Section Controller.
Context {RT : Runtime}.

Definition byId (userId : ObjectId) (u : User.Doc) : bool :=
  String.eqb (User._id u) userId.

(** [User.findById(userId).lean()]: the id is cast to an ObjectId. *)
Definition findById (userId : ObjectId) (db : Users) : result (option User.Doc) :=
  if isObjectId userId then Ok (List.find (byId userId) db)
  else Throw (PlainError "CastError").

Definition set_themeBackgroundUrl (now : Instant) (url : string) (u : User.Doc)
  : User.Doc :=
  {| User._id := User._id u; User.email := User.email u;
     User.passwordHash := User.passwordHash u; User.name := User.name u;
     User.themeBackgroundUrl := Some (Js.trim url);
     User.passwordResetTokenHash := User.passwordResetTokenHash u;
     User.passwordResetExpires := User.passwordResetExpires u;
     User.createdAt := User.createdAt u; User.updatedAt := now |}.

(** The collection with the first document of an id updated, and the
    updated document. *)
Fixpoint updateById (userId : ObjectId) (upd : User.Doc -> User.Doc) (db : Users)
  : option User.Doc * Users :=
  match db with
  | [] => (None, [])
  | u :: r =>
      if byId userId u then (Some (upd u), upd u :: r)
      else let (o, r') := updateById userId upd r in (o, u :: r')
  end.

(** [User.findByIdAndUpdate(userId, { themeBackgroundUrl }, { new: true })]:
    the path is trimmed as its schema asks, and [updatedAt] is stamped. *)
Definition findByIdAndUpdate (now : Instant) (userId : ObjectId) (url : string)
  (db : Users) : result (option User.Doc) * Users :=
  if isObjectId userId
  then let (o, db') := updateById userId (set_themeBackgroundUrl now url) db in
       (Ok o, db')
  else (Throw (PlainError "CastError"), db).

Definition notFound : Response :=
  {| status := 404; body := ErrorBody "NotFound" None |}.

(** [me] *)
Definition me (userId : ObjectId) (db : Users) : result Response :=
  match findById userId db with
  | Throw e => Throw e
  | Ok None => Ok notFound
  | Ok (Some user) =>
      Ok {| status := 200;
            body := ProfileBody
                      {| id := User._id user; email := User.email user;
                         name := User.name user;
                         themeBackgroundUrl := User.themeBackgroundUrl user |} |}
  end.

(** [setTheme]; [file] is the name multer stored the upload under, when
    the request carried one. *)
Definition setTheme (now : Instant) (userId : ObjectId) (file : option string)
  (db : Users) : result Response * Users :=
  match file with
  | None =>
      (Ok {| status := 400;
             body := ErrorBody "ValidationError" (Some "image file is required") |},
       db)
  | Some filename =>
      let publicUrl := ("/uploads/themes/" ++ filename)%string in
      match findByIdAndUpdate now userId publicUrl db with
      | (Throw e, db') => (Throw e, db')
      | (Ok None, db') => (Ok notFound, db')
      | (Ok (Some _), db') =>
          (Ok {| status := 200; body := ThemeBody publicUrl |}, db')
      end
  end.

End Controller.
End UserController.

(** ** app.ts *)

Module App.

(** The [origin] option given to [cors]. *)
Inductive CorsOrigin :=
| AllowAll
| AllowList (origins : list string).

(** [env.CORS_ORIGIN ? env.CORS_ORIGIN.split(',').map((o) => o.trim())
    .filter(Boolean) : undefined] *)
Definition origins (CORS_ORIGIN : option string) : option (list string) :=
  match CORS_ORIGIN with
  | Some s =>
      if Js.truthy s
      then Some (filter Js.truthy (map Js.trim (Str.split "," s)))
      else None
  | None => None
  end.

(** [origins && origins.length > 0 ? origins : true] *)
Definition corsOrigin (CORS_ORIGIN : option string) : CorsOrigin :=
  match origins CORS_ORIGIN with
  | Some (o :: r) => AllowList (o :: r)
  | _ => AllowAll
  end.

End App.

(** ** scripts/seed.ts and scripts/clear.ts *)

Module Scripts.

(** A document given to [Task.insertMany]; the scripts run outside any
    request, so [user] is whatever the literal carries. *)
Record NewTask := {
  user : option ObjectId;
  title : string;
  description : option string;
  priority : Priority;
  completed : bool
}.

Section Scripts.
Context {RT : Runtime}.

(** The validation of [models/Task.ts]: [user] and [title] are
    required. *)
Definition valid (d : NewTask) : bool :=
  match user d with
  | Some u => isObjectId u
  | None => false
  end
  && Js.truthy (Js.trim (title d)).

Definition toDoc (now : Instant) (oid : ObjectId) (d : NewTask) : Task.Doc :=
  {| Task._id := oid;
     Task.user := match user d with Some u => u | None => EmptyString end;
     Task.title := Js.trim (title d);
     Task.description := option_map Js.trim (description d);
     Task.priority := priority d;
     Task.dueDate := None;
     Task.completed := completed d;
     Task.createdAt := now;
     Task.updatedAt := now |}.

(** [Task.insertMany(docs)]: every document is validated before any is
    sent to the server, and one failure rejects the call with nothing
    inserted.  [oids] are the fresh ids, one per document. *)
Definition insertMany (now : Instant) (oids : list ObjectId)
  (docs : list NewTask) (db : Tasks) : result unit * Tasks :=
  if forallb valid docs
  then (Ok tt, db ++ map (fun p => toDoc now (fst p) (snd p)) (combine oids docs))
  else (Throw (PlainError "ValidationError"), db).

(** The three documents of [seed.ts]. *)
Definition samples : list NewTask :=
  [ {| user := None; title := "Read docs";
       description := Some "Read backend guide"; priority := low;
       completed := false |};
    {| user := None; title := "Plan UI";
       description := Some "Design TaskList and TaskForm";
       priority := medium; completed := false |};
    {| user := None; title := "Implement API";
       description := Some "Wire routes and controllers"; priority := high;
       completed := true |} ].

(** [run] of [seed.ts]: the exit code and the collection it leaves. *)
Definition seed (now : Instant) (oids : list ObjectId) (db : Tasks)
  : Z * Tasks :=
  let count := Z.of_nat (List.length db) in
  if count =? 0
  then
    match insertMany now oids samples db with
    | (Ok _, db') => (0, db')
    | (Throw _, db') => (1, db')
    end
  else (0, db).

(** [run] of [clear.ts]: [Task.deleteMany({})] and its [deletedCount]. *)
Definition clear (db : Tasks) : Z * Tasks :=
  (Z.of_nat (List.length db), []).

End Scripts.
End Scripts.

(** ** The web client: api/axios.ts, hooks/useTasks.ts, App.tsx,
    components/TaskForm.tsx *)

Module Client.

(** [Task] of [types/task.ts]; dates are ISO strings. *)
Record Task := {
  _id : string;
  title : string;
  description : option string;
  priority : Priority;
  dueDate : option string;
  completed : bool;
  createdAt : option string;
  updatedAt : option string
}.

(** [setAuthToken(token)]: the [Authorization] header the client sends
    from then on. *)
Definition setAuthToken (token : option string) : option string :=
  match token with
  | Some t => if Js.truthy t then Some ("Bearer " ++ t)%string else None
  | None => None
  end.

(** The state updates of [useTasks]: [add], [update] (and
    [setCompleted]) with the task the server answered, and [remove]. *)
Definition add (newTask : Task) (prev : list Task) : list Task :=
  newTask :: prev.

Definition update (id : string) (updated : Task) (prev : list Task)
  : list Task :=
  map (fun t => if String.eqb (_id t) id then updated else t) prev.

Definition remove (id : string) (prev : list Task) : list Task :=
  filter (fun t => negb (String.eqb (_id t) id)) prev.

(** [VITE_API_URL || 'http://localhost:4000/api'] *)
Definition apiUrl (VITE_API_URL : option string) : string :=
  match VITE_API_URL with
  | Some s => if Js.truthy s then s else "http://localhost:4000/api"
  | None => "http://localhost:4000/api"
  end.

(** [String(apiUrl).replace(/\/$/, '').replace(/\/api$/, '')] *)
Definition uploadsOrigin (apiUrl : string) : string :=
  Str.dropSuffix "/api" (Str.dropSuffix "/" apiUrl).

(** The url [applyBackground] puts in the style of the body. *)
Definition absolute (uploadsOrigin url : string) : string :=
  if Js.startsWith "http" url then url
  else (uploadsOrigin ++ (if Js.startsWith "/" url then "" else "/") ++ url)%string.

(** [const [, payloadB64] = token.split('.')], kept when truthy. *)
Definition payloadB64 (token : string) : option string :=
  match Str.split "." token with
  | _ :: p :: _ => if Js.truthy p then Some p else None
  | _ => None
  end.

(** The argument given to [atob]. *)
Definition padded (payloadB64 : string) : string :=
  let normalized := Str.replaceAll "_" "/" (Str.replaceAll "-" "+" payloadB64) in
  (normalized
   ++ Str.repeat "=" ((4 - (String.length normalized mod 4)) mod 4))%string.

(** The state of [TaskForm] when it is submitted. *)
Record Form := {
  f_title : string;
  f_description : string;
  f_priority : Priority;
  f_dueDate : string
}.

(** What a submit does: nothing, [onCreate(payload)] or
    [onUpdate(id, payload)] ([App] always passes [onUpdate]).  The
    payload is its JSON, which leaves the undefined keys out. *)
Inductive Submit :=
| Nothing
| OnCreate (payload : Json.Body)
| OnUpdate (id : string) (payload : Json.Body).

Section TaskForm.

(** [new Date(d).toISOString()] in the browser *)
Variable toISOString : string -> string.

Definition submit (editingTask : option Task) (f : Form) : Submit :=
  let payload :=
    {| Json.title := Some (Js.trim (f_title f));
       Json.description :=
         if Js.truthy (Js.trim (f_description f))
         then Some (Js.trim (f_description f))
         else None;
       Json.priority := Some (Priority_str (f_priority f));
       Json.dueDate :=
         if Js.truthy (f_dueDate f) then Some (toISOString (f_dueDate f))
         else None;
       Json.completed :=
         match editingTask with
         | Some _ => None
         | None => Some false
         end |} in
  if negb (Js.truthy (Js.trim (f_title f))) then Nothing
  else
    match editingTask with
    | Some t => OnUpdate (_id t) payload
    | None => OnCreate payload
    end.

End TaskForm.

End Client.

(** ** Paging through a list *)

Module Paging.

(** The query with its [page] parameter replaced. *)
Definition withPage (q : Query.t) (page : Z) : Query.t :=
  {| Query.search := Query.search q; Query.priority := Query.priority q;
     Query.completed := Query.completed q;
     Query.dueBefore := Query.dueBefore q; Query.dueAfter := Query.dueAfter q;
     Query.page := Some page; Query.limit := Query.limit q;
     Query.sort := Query.sort q; Query.order := Query.order q |}.

(** The items of an answer, none when the call threw. *)
Definition itemsOf (r : result TaskService.Page) : list Task.Doc :=
  match r with
  | Ok p => TaskService.items p
  | Throw _ => []
  end.

(** The items of the pages 1 to [n] of a query, one call of [listTasks]
    per page on the same collection, in the order of the pages. *)
Definition firstPages {RT : Runtime} (userId : ObjectId) (q : Query.t)
  (db : Tasks) (n : nat) : list Task.Doc :=
  List.concat
    (map (fun k => itemsOf (TaskService.listTasks userId (withPage q (Z.of_nat k)) db))
       (seq 1 n)).

End Paging.

(** ** Further sample data *)

Module Cases.

(** The payloads of the sample accounts. *)
Definition directory : list AuthUser.t :=
  [ {| AuthUser.id := Sample.carol_id; AuthUser.email := "carol@example.com";
       AuthUser.name := None |};
    {| AuthUser.id := Sample.dave_id; AuthUser.email := "dave@example.com";
       AuthUser.name := None |} ].

(** [Stub.crypto] with a verification that gives back the payload of a
    sample account. *)
Definition crypto : Crypto :=
  {| sha256_hex := sha256_hex (Crypto := Stub.crypto);
     bcrypt_hash := bcrypt_hash (Crypto := Stub.crypto);
     bcrypt_compare := bcrypt_compare (Crypto := Stub.crypto);
     jwt_sign := jwt_sign (Crypto := Stub.crypto);
     jwt_verify := fun token _ =>
       List.find
         (fun p => String.eqb token ("jwt:" ++ AuthUser.id p)%string)
         directory |}.

(** White space of more than one byte: the no-break space U+00A0, the
    line separator U+2028 and the byte order mark U+FEFF. *)
Definition nbsp : string := String "194" (String "160" "").
Definition line_separator : string :=
  String "226" (String "128" (String "168" "")).
Definition bom : string := String "239" (String "187" (String "191" "")).

End Cases.

(** * Properties *)

Unset Implicit Arguments.

(** The ids of a sample collection are pairwise distinct. *)
Ltac distinct_ids := repeat constructor; simpl; intuition discriminate.

(** A non-empty [:id] passes [idSchema]. *)
Ltac pass_idSchema id :=
  unfold Middleware.validate, Zod.idSchema, Zod.string_min1;
  destruct id; [congruence|]; simpl.

(** ** Lists *)

Lemma find_none_iff {A} (f : A -> bool) (l : list A) :
  List.find f l = None <-> (forall x, In x l -> f x = false).
Proof.
  split.
  - intros H x Hx. exact (find_none f l H x Hx).
  - induction l as [|a l IH]; intros H; simpl; [reflexivity|].
    rewrite (H a (or_introl eq_refl)). apply IH.
    intros x Hx. apply H. right. exact Hx.
Qed.

Lemma In_firstn {A} (n : nat) (l : list A) (x : A) :
  In x (firstn n l) -> In x l.
Proof.
  revert l; induction n as [|n IH]; intros [|a l]; simpl; try tauto.
  intros [->|H]; [left; reflexivity | right; apply IH; exact H].
Qed.

Lemma In_skipn {A} (n : nat) (l : list A) (x : A) :
  In x (skipn n l) -> In x l.
Proof.
  revert l; induction n as [|n IH]; intros [|a l]; simpl; try tauto.
  intros H. right. apply IH. exact H.
Qed.

(** ** Filters and sorting *)

Section MongoFacts.
Context {RT : Runtime}.

Lemma matches_user (f : Mongo.Filter) (t : Task.Doc) (u : ObjectId) :
  Mongo.user f = Some u -> Mongo.matches f t = true -> Task.user t = u.
Proof.
  unfold Mongo.matches. intros Hu H. rewrite !andb_true_iff in H.
  destruct H as [[[[[_ H] _] _] _] _]. rewrite Hu in H. simpl in H.
  apply String.eqb_eq in H. exact H.
Qed.

Lemma matches_id (f : Mongo.Filter) (t : Task.Doc) (i : ObjectId) :
  Mongo._id f = Some i -> Mongo.matches f t = true -> Task._id t = i.
Proof.
  unfold Mongo.matches. intros Hi H. rewrite !andb_true_iff in H.
  destruct H as [[[[[H _] _] _] _] _]. rewrite Hi in H. simpl in H.
  apply String.eqb_eq in H. exact H.
Qed.

Lemma matching_In (f : Mongo.Filter) (db : Tasks) (t : Task.Doc) :
  In t (Mongo.matching f db) <-> In t db /\ Mongo.matches f t = true.
Proof. unfold Mongo.matching. apply filter_In. Qed.

Lemma Bson_leb_total (a b : Mongo.Bson) :
  Mongo.Bson_leb a b = false -> Mongo.Bson_leb b a = true.
Proof.
  destruct a as [|x|x], b as [|y|y]; simpl; try congruence.
  - intros H. destruct (String.leb_total x y) as [E|E]; congruence.
  - intros H. apply Z.leb_le. apply Z.leb_gt in H. lia.
Qed.

Lemma before_total (s : Mongo.SortSpec) (a b : Task.Doc) :
  Mongo.before s a b = false -> Mongo.before s b a = true.
Proof.
  unfold Mongo.before. destruct (0 <? snd s); apply Bson_leb_total.
Qed.

Lemma insert_perm (s : Mongo.SortSpec) (x : Task.Doc) (l : list Task.Doc) :
  Permutation (x :: l) (Mongo.insert s x l).
Proof.
  induction l as [|y r IH]; simpl; [apply Permutation_refl|].
  destruct (Mongo.before s x y); [apply Permutation_refl|].
  eapply perm_trans; [apply perm_swap|]. apply perm_skip. exact IH.
Qed.

Lemma sort_perm (s : Mongo.SortSpec) (l : list Task.Doc) :
  Permutation l (Mongo.sort s l).
Proof.
  induction l as [|x l IH]; simpl; [constructor|].
  eapply perm_trans; [apply perm_skip; exact IH|]. apply insert_perm.
Qed.

Lemma insert_hd (s : Mongo.SortSpec) (a x : Task.Doc) (l : list Task.Doc) :
  Mongo.ordered s a x -> HdRel (Mongo.ordered s) a l -> HdRel (Mongo.ordered s) a (Mongo.insert s x l).
Proof.
  intros Hax Hl. destruct l as [|y r]; simpl.
  - constructor. exact Hax.
  - destruct (Mongo.before s x y); constructor.
    + exact Hax.
    + inversion Hl; assumption.
Qed.

Lemma insert_sorted (s : Mongo.SortSpec) (x : Task.Doc) (l : list Task.Doc) :
  Sorted (Mongo.ordered s) l -> Sorted (Mongo.ordered s) (Mongo.insert s x l).
Proof.
  induction l as [|y r IH]; intros Hs; simpl.
  - repeat constructor.
  - destruct (Mongo.before s x y) eqn:E.
    + constructor; [exact Hs | constructor; exact E].
    + inversion Hs as [|? ? Hr Hhd]; subst.
      constructor; [apply IH; exact Hr|].
      apply insert_hd; [apply before_total; exact E | exact Hhd].
Qed.

Lemma sort_sorted (s : Mongo.SortSpec) (l : list Task.Doc) :
  Sorted (Mongo.ordered s) (Mongo.sort s l).
Proof.
  induction l as [|x l IH]; simpl; [constructor|].
  apply insert_sorted. exact IH.
Qed.

Lemma limit_In (n : Z) (l : list Task.Doc) (t : Task.Doc) :
  In t (Mongo.limit n l) -> In t l.
Proof.
  unfold Mongo.limit. destruct (n =? 0); [tauto | apply In_firstn].
Qed.

Lemma skip_In (n : Z) (l r : list Task.Doc) (t : Task.Doc) :
  Mongo.skip n l = Ok r -> In t r -> In t l.
Proof.
  unfold Mongo.skip. destruct (n <? 0); [discriminate|].
  intros E; injection E as <-. apply In_skipn.
Qed.

Lemma findOne_In (f : Mongo.Filter) (db : Tasks) (t : Task.Doc) :
  Mongo.findOne f db = Ok (Some t) ->
  Mongo.castable f = true
  /\ List.find (Mongo.matches f) db = Some t
  /\ In t db /\ Mongo.matches f t = true.
Proof.
  unfold Mongo.findOne. destruct (Mongo.castable f); [|discriminate].
  intros H; injection H as H. split; [reflexivity|]. split; [exact H|].
  apply (find_some _ _ H).
Qed.

Lemma removeFirst_none (f : Mongo.Filter) (db : Tasks) :
  (forall t, In t db -> Mongo.matches f t = false) ->
  Mongo.removeFirst f db = db.
Proof.
  induction db as [|t r IH]; intros H; simpl; [reflexivity|].
  rewrite (H t (or_introl eq_refl)). f_equal. apply IH.
  intros x Hx. apply H. right. exact Hx.
Qed.

Lemma updateFirst_spec (f : Mongo.Filter) (upd : Task.Doc -> Task.Doc)
  (db : Tasks) (t : Task.Doc) :
  List.find (Mongo.matches f) db = Some t ->
  exists l1 l2,
    db = l1 ++ t :: l2 /\
    (forall x, In x l1 -> Mongo.matches f x = false) /\
    Mongo.updateFirst f upd db = (Some (upd t), l1 ++ upd t :: l2).
Proof.
  induction db as [|a r IH]; simpl; [discriminate|].
  destruct (Mongo.matches f a) eqn:E.
  - intros H; injection H as <-. exists [], r. simpl. repeat split.
    intros x [].
  - intros H. destruct (IH H) as (l1 & l2 & -> & Hl1 & Hu).
    exists (a :: l1), l2. simpl. rewrite Hu. repeat split.
    intros x [<-|Hx]; [exact E | apply Hl1; exact Hx].
Qed.

Lemma updateFirst_none (f : Mongo.Filter) (upd : Task.Doc -> Task.Doc)
  (db : Tasks) :
  List.find (Mongo.matches f) db = None -> Mongo.updateFirst f upd db = (None, db).
Proof.
  induction db as [|a r IH]; simpl; [reflexivity|].
  destruct (Mongo.matches f a); [discriminate|].
  intros H. rewrite (IH H). reflexivity.
Qed.

Lemma removeFirst_sub (f : Mongo.Filter) (db : Tasks) (t : Task.Doc) :
  In t (Mongo.removeFirst f db) -> In t db.
Proof.
  induction db as [|a r IH]; simpl; [tauto|].
  destruct (Mongo.matches f a); simpl; [tauto|].
  intros [H|H]; [left; exact H | right; apply IH; exact H].
Qed.

End MongoFacts.

(** ** The task service *)

Section TaskServiceFacts.
Context {RT : Runtime}.

Lemma createTask_owner now oid userId data db doc db' :
  TaskService.createTask now oid userId data db = (Ok doc, db') ->
  Task.user doc = userId /\ Task._id doc = oid /\ db' = db ++ [doc].
Proof.
  unfold TaskService.createTask.
  destruct (Js.truthy _ && isObjectId userId); [|discriminate].
  intros H; injection H as <- <-. simpl. auto.
Qed.

Lemma listFilter_user userId query :
  Mongo.user (TaskService.listFilter userId query) = Some userId.
Proof. reflexivity. Qed.

Lemma getTask_owner caller id db t :
  TaskService.getTask caller id db = Ok (Some t) ->
  In t db /\ Task.user t = caller /\ Task._id t = id.
Proof.
  unfold TaskService.getTask. intros H.
  apply findOne_In in H. destruct H as (_ & _ & Hin & Hm). split; [exact Hin|].
  split.
  - eapply matches_user; [|exact Hm]. reflexivity.
  - eapply matches_id; [|exact Hm]. reflexivity.
Qed.

Lemma listTasks_items caller query db p t :
  TaskService.listTasks caller query db = Ok p ->
  In t (TaskService.items p) ->
  In t db /\ Mongo.matches (TaskService.listFilter caller query) t = true.
Proof.
  unfold TaskService.listTasks, Mongo.find, Mongo.countDocuments.
  destruct (Mongo.castable _); [|discriminate].
  destruct (Mongo.skip _ _) as [rest|e] eqn:Hs; [|discriminate].
  intros H; injection H as <-. simpl. intros Hin.
  apply limit_In in Hin. apply (skip_In _ _ _ _ Hs) in Hin.
  apply (Permutation_in _ (Permutation_sym (sort_perm _ _))) in Hin.
  apply matching_In in Hin. exact Hin.
Qed.

Lemma listTasks_owner caller query db p t :
  TaskService.listTasks caller query db = Ok p ->
  In t (TaskService.items p) ->
  In t db /\ Task.user t = caller.
Proof.
  intros H Hin. destruct (listTasks_items _ _ _ _ _ H Hin) as [Hdb Hm].
  split; [exact Hdb|]. eapply matches_user; [|exact Hm]. reflexivity.
Qed.

Lemma ownedById_foreign caller id db :
  (forall t, In t db -> Task._id t = id -> Task.user t <> caller) ->
  forall t, In t db -> Mongo.matches (TaskService.ownedById caller id) t = false.
Proof.
  intros H t Hin.
  destruct (Mongo.matches (TaskService.ownedById caller id) t) eqn:E;
    [|reflexivity].
  exfalso. apply (H t Hin).
  - eapply matches_id; [|exact E]. reflexivity.
  - eapply matches_user; [|exact E]. reflexivity.
Qed.

End TaskServiceFacts.

(** ** The task routes *)

Section TaskRouteFacts.
Context {RT : Runtime} {CR : Crypto}.

(** C1.  Owner scope.  For a caller that [requireAuth] lets through: a
    task created by [POST /tasks] carries the caller's id in its [user]
    field; a task sent back by [GET /tasks/:id] or listed by
    [GET /tasks] is a stored task whose [user] field is the caller's
    id; so a stored task of another owner is in no response to this
    caller. *)
Theorem owner_scope (now : Instant) (authorization : option string)
  (caller : AuthUser.t) :
  Middleware.requireAuth now authorization = inr caller ->
  (forall oid body db r db',
      TaskRoutes.post_task now oid authorization body db = (Ok r, db') ->
      Http.status r = 201 ->
      exists doc,
        Http.body r = Http.TaskBody doc /\
        Task.user doc = AuthUser.id caller /\
        db' = db ++ [doc])
  /\ (forall id db r t,
      TaskRoutes.get_task now authorization id db = Ok r ->
      Http.body r = Http.TaskBody t ->
      In t db /\ Task.user t = AuthUser.id caller)
  /\ (forall query db r p t,
      TaskRoutes.get_tasks now authorization query db = Ok r ->
      Http.body r = Http.PageBody p ->
      In t (TaskService.items p) ->
      In t db /\ Task.user t = AuthUser.id caller)
  /\ (forall id query db r t,
      Task.user t <> AuthUser.id caller ->
      (TaskRoutes.get_task now authorization id db = Ok r ->
       Http.body r <> Http.TaskBody t)
      /\ (forall p,
          TaskRoutes.get_tasks now authorization query db = Ok r ->
          Http.body r = Http.PageBody p ->
          ~ In t (TaskService.items p))).
Proof.
  intros Hauth.
  assert (Hget : forall id db r t,
      TaskRoutes.get_task now authorization id db = Ok r ->
      Http.body r = Http.TaskBody t ->
      In t db /\ Task.user t = AuthUser.id caller).
  { intros id db r t. unfold TaskRoutes.get_task. rewrite Hauth.
    destruct (Middleware.validate Zod.idSchema id) as [r0|id'] eqn:Hv.
    - unfold Middleware.validate in Hv.
      destruct (Zod.idSchema id); [discriminate|].
      injection Hv as <-. intros H; injection H as <-. discriminate.
    - unfold TaskController.get.
      destruct (TaskService.getTask (AuthUser.id caller) id' db)
        as [[t'|]|e] eqn:Hg; [| |discriminate].
      + intros H; injection H as <-. simpl. intros Hb; injection Hb as <-.
        destruct (getTask_owner _ _ _ _ Hg) as (Hin & Hu & _). auto.
      + intros H; injection H as <-. discriminate. }
  assert (Hlist : forall query db r p t,
      TaskRoutes.get_tasks now authorization query db = Ok r ->
      Http.body r = Http.PageBody p ->
      In t (TaskService.items p) ->
      In t db /\ Task.user t = AuthUser.id caller).
  { intros query db r p t. unfold TaskRoutes.get_tasks. rewrite Hauth.
    destruct (Middleware.validate Zod.listQuerySchema query) as [r0|q] eqn:Hv.
    - unfold Middleware.validate in Hv.
      destruct (Zod.listQuerySchema query); [discriminate|].
      injection Hv as <-. intros H; injection H as <-. discriminate.
    - unfold TaskController.list.
      destruct (TaskService.listTasks (AuthUser.id caller) q db) as [p'|e] eqn:Hl;
        [|discriminate].
      intros H; injection H as <-. simpl. intros Hb; injection Hb as <-.
      apply (listTasks_owner _ _ _ _ _ Hl). }
  split; [|split; [exact Hget|split; [exact Hlist|]]].
  - intros oid body db r db'. unfold TaskRoutes.post_task. rewrite Hauth.
    destruct (Middleware.validate Zod.createTaskSchema body) as [r0|b] eqn:Hv.
    + unfold Middleware.validate in Hv.
      destruct (Zod.createTaskSchema body); [discriminate|].
      injection Hv as <-. unfold TaskRoutes.sent.
      intros H; injection H as <- <-. discriminate.
    + unfold TaskController.create.
      destruct (TaskService.createTask now oid (AuthUser.id caller) b db)
        as [[doc|e] db1] eqn:Hc; [|discriminate].
      intros H; injection H as <- <-. intros _.
      destruct (createTask_owner _ _ _ _ _ _ _ Hc) as (Hu & _ & Hdb).
      exists doc. auto.
  - intros id query db r t Hne. split.
    + intros H Hb. destruct (Hget _ _ _ _ H Hb) as [_ Hu]. contradiction.
    + intros p H Hb Hin. destruct (Hlist _ _ _ _ _ H Hb Hin) as [_ Hu].
      contradiction.
Qed.

End TaskRouteFacts.

(** The witness of [owner_scope]: alice creates a task into a
    collection that holds a task of bob, and the task comes back as
    hers. *)
Lemma owner_scope_witness :
  Middleware.requireAuth (CR := Stub.crypto) 0 Sample.alice_header
    = inr Sample.alice
  /\ exists doc,
      Http.body
        {| Http.status := 201;
           Http.body :=
             Http.TaskBody (Sample.task Sample.t5 Sample.alice_id "E" 0) |}
        = Http.TaskBody doc
      /\ Task.user doc = Sample.alice_id
      /\ [Sample.D; Sample.task Sample.t5 Sample.alice_id "E" 0]
         = [Sample.D] ++ [doc].
Proof.
  split; [reflexivity|].
  destruct (owner_scope (RT := Stub.runtime) (CR := Stub.crypto)
              0 Sample.alice_header Sample.alice eq_refl) as [Hpost _].
  exact (Hpost Sample.t5 Sample.titled_E [Sample.D] _ _ eq_refl eq_refl).
Defined.

(** ** Deleting *)

Lemma unique_id (db : Tasks) (t t' : Task.Doc) :
  NoDup (map Task._id db) -> In t db -> In t' db ->
  Task._id t = Task._id t' -> t = t'.
Proof.
  induction db as [|a r IH]; simpl; [tauto|].
  intros Hnd Ht Ht' Hid. inversion Hnd as [|? ? Hnotin Hr]; subst.
  destruct Ht as [<-|Ht], Ht' as [<-|Ht'].
  - reflexivity.
  - exfalso. apply Hnotin. rewrite Hid. apply in_map. exact Ht'.
  - exfalso. apply Hnotin. rewrite <- Hid. apply in_map. exact Ht.
  - apply IH; assumption.
Qed.

Section DeleteFacts.
Context {RT : Runtime} {CR : Crypto}.

Lemma deleteTask_foreign caller id db :
  isObjectId caller = true ->
  isObjectId id = true ->
  (forall t, In t db -> Task._id t = id -> Task.user t <> caller) ->
  TaskService.deleteTask caller id db = (Ok tt, db).
Proof.
  intros Hc Hi H. unfold TaskService.deleteTask, Mongo.findOneAndDelete.
  unfold Mongo.castable. simpl. rewrite Hc, Hi. simpl.
  rewrite removeFirst_none; [reflexivity|]. apply ownedById_foreign. exact H.
Qed.

(** C6, as the code has it.  [DELETE /tasks/:id] by an authenticated
    caller, [id] being the id of a stored task of another owner (ids
    are unique in the collection, and the caller's id and [id] are
    ObjectIds): the response is 204 with no body, and the collection is
    left as it was. *)
Theorem delete_foreign_task (now : Instant) (authorization : option string)
  (caller : AuthUser.t) (id : string) (db : Tasks) (t : Task.Doc) :
  Middleware.requireAuth now authorization = inr caller ->
  isObjectId (AuthUser.id caller) = true ->
  NoDup (map Task._id db) ->
  In t db ->
  Task._id t = id ->
  isObjectId id = true ->
  id <> "" ->
  Task.user t <> AuthUser.id caller ->
  TaskRoutes.delete_task now authorization id db
  = (Ok {| Http.status := 204; Http.body := Http.Empty |}, db).
Proof.
  intros Hauth Hcaller Hnd Hin Hid Hoid Hne Howner.
  unfold TaskRoutes.delete_task. rewrite Hauth.
  pass_idSchema id.
  unfold TaskController.remove.
  rewrite deleteTask_foreign; [reflexivity | exact Hcaller | exact Hoid |].
  intros t' Hin' Hid'.
  assert (t = t') by (apply (unique_id db); congruence).
  subst t'. exact Howner.
Qed.

End DeleteFacts.

(** The witness of [delete_foreign_task]: bob deletes alice's task
    [t1]. *)
Lemma delete_foreign_task_witness :
  TaskRoutes.delete_task (RT := Stub.runtime) (CR := Stub.crypto)
    0 Sample.bob_header Sample.t1 [Sample.A; Sample.D]
  = (Ok {| Http.status := 204; Http.body := Http.Empty |}, [Sample.A; Sample.D]).
Proof.
  apply (delete_foreign_task (RT := Stub.runtime) (CR := Stub.crypto)
           0 Sample.bob_header Sample.bob Sample.t1 [Sample.A; Sample.D]
           Sample.A).
  - reflexivity.
  - reflexivity.
  - distinct_ids.
  - left. reflexivity.
  - reflexivity.
  - reflexivity.
  - discriminate.
  - discriminate.
Defined.

(** C6, as the spec has it, fails: bob is authenticated, the task [t1]
    is alice's, and the status of the response to his [DELETE] of
    [/tasks/t1] is neither 401 nor 404. *)
Lemma delete_foreign_task_not_404 :
  Middleware.requireAuth (CR := Stub.crypto) 0 Sample.bob_header
    = inr Sample.bob
  /\ In Sample.A [Sample.A; Sample.D]
  /\ Task._id Sample.A = Sample.t1
  /\ Task.user Sample.A <> AuthUser.id Sample.bob
  /\ exists r db',
      TaskRoutes.delete_task (RT := Stub.runtime) (CR := Stub.crypto)
        0 Sample.bob_header Sample.t1 [Sample.A; Sample.D] = (Ok r, db')
      /\ ~ (Http.status r = 401 \/ Http.status r = 404).
Proof.
  split; [reflexivity|]. split; [left; reflexivity|].
  split; [reflexivity|]. split; [discriminate|].
  eexists. eexists. split; [reflexivity|].
  simpl. intros [H|H]; discriminate.
Qed.

(** ** Listing *)

Section ListFacts.
Context {RT : Runtime}.

Lemma length_firstn_le {A} (n : nat) (l : list A) :
  (List.length (firstn n l) <= n)%nat.
Proof. rewrite length_firstn. apply Nat.le_min_l. Qed.

Lemma matching_owner_only (owner : ObjectId) (query : Query.t) (db : Tasks) :
  Query.search query = None ->
  Query.priority query = None ->
  Query.completed query = None ->
  Query.dueBefore query = None ->
  Query.dueAfter query = None ->
  Mongo.matching (TaskService.listFilter owner query) db
  = filter (fun t => String.eqb (Task.user t) owner) db.
Proof.
  intros Hs Hp Hc Hb Ha. unfold Mongo.matching. apply filter_ext. intros t.
  unfold Mongo.matches, TaskService.listFilter.
  rewrite Hs, Hp, Hc, Hb, Ha. simpl.
  rewrite !andb_true_r. reflexivity.
Qed.

Lemma listFilter_castable (userId : ObjectId) (query : Query.t) :
  isObjectId userId = true ->
  Mongo.castable (TaskService.listFilter userId query) = true.
Proof. intros H. unfold Mongo.castable. simpl. exact H. Qed.

(** C7.  Pagination.  For a caller whose id is an ObjectId, a page of
    at least one and a limit of at least one, [listTasks] answers; its
    items are the matching tasks in
    the requested order, without the first (page - 1) * limit of them
    and cut after limit of them; its total is the number of all
    matching tasks.  In particular, when the owner's tasks are A, B, C
    with creation instants in that order, page 2 with limit 1 by
    createdAt ascending is exactly [B] with total 3. *)
Theorem pagination :
  (forall (userId : ObjectId) (query : Query.t) (db : Tasks) (page limit : Z),
      isObjectId userId = true ->
      Query.page query = Some page ->
      Query.limit query = Some limit ->
      1 <= page ->
      1 <= limit ->
      let matching := Mongo.matching (TaskService.listFilter userId query) db in
      let spec : Mongo.SortSpec :=
        (TaskService.or_default (Query.sort query) Sort.createdAt,
         match TaskService.or_default (Query.order query) Sort.desc with
         | Sort.asc => 1
         | Sort.desc => -1
         end) in
      exists sorted,
        Permutation matching sorted
        /\ Sorted (Mongo.ordered spec) sorted
        /\ TaskService.listTasks userId query db
           = Ok {| TaskService.items :=
                     firstn (Z.to_nat limit)
                       (skipn (Z.to_nat ((page - 1) * limit)) sorted);
                   TaskService.page := page;
                   TaskService.limit := limit;
                   TaskService.total := Z.of_nat (List.length matching) |}
        /\ (List.length
              (firstn (Z.to_nat limit)
                 (skipn (Z.to_nat ((page - 1) * limit)) sorted))
            <= Z.to_nat limit)%nat)
  /\ (forall (owner : ObjectId) (db : Tasks) (A B C : Task.Doc),
      isObjectId owner = true ->
      filter (fun t => String.eqb (Task.user t) owner) db = [A; B; C] ->
      Task.createdAt A < Task.createdAt B ->
      Task.createdAt B < Task.createdAt C ->
      TaskService.listTasks owner
        {| Query.search := None; Query.priority := None;
           Query.completed := None; Query.dueBefore := None;
           Query.dueAfter := None; Query.page := Some 2;
           Query.limit := Some 1; Query.sort := Some Sort.createdAt;
           Query.order := Some Sort.asc |} db
      = Ok {| TaskService.items := [B]; TaskService.page := 2;
              TaskService.limit := 1; TaskService.total := 3 |}).
Proof.
  split.
  - intros userId query db page limit Hoid Hp Hl Hpage Hlimit matching spec.
    exists (Mongo.sort spec matching).
    split; [apply sort_perm|]. split; [apply sort_sorted|].
    split; [|apply length_firstn_le].
    unfold TaskService.listTasks, Mongo.find, Mongo.countDocuments.
    rewrite (listFilter_castable userId query Hoid).
    rewrite Hp, Hl. simpl.
    fold matching. fold spec. unfold Mongo.skip.
    assert (0 <= (page - 1) * limit) by nia.
    destruct ((page - 1) * limit <? 0) eqn:E; [apply Z.ltb_lt in E; lia|].
    unfold Mongo.limit.
    destruct (limit =? 0) eqn:E0; [apply Z.eqb_eq in E0; lia|].
    rewrite Zabs2Nat.abs_nat_nonneg by lia. reflexivity.
  - intros owner db A B C Hoid Hdb HAB HBC.
    unfold TaskService.listTasks, Mongo.find, Mongo.countDocuments.
    rewrite (listFilter_castable owner _ Hoid).
    simpl TaskService.or_default.
    rewrite matching_owner_only by reflexivity.
    rewrite Hdb. simpl.
    unfold Mongo.before. simpl.
    replace (Task.createdAt B <=? Task.createdAt C) with true
      by (symmetry; apply Z.leb_le; lia).
    simpl. unfold Mongo.before. simpl.
    replace (Task.createdAt A <=? Task.createdAt B) with true
      by (symmetry; apply Z.leb_le; lia).
    reflexivity.
Qed.

End ListFacts.

(** The witness of [pagination]: alice's tasks A, B, C and bob's D, in
    the order D, A, B, C of the collection. *)
Lemma pagination_witness :
  TaskService.listTasks (RT := Stub.runtime) Sample.alice_id
    {| Query.search := None; Query.priority := None;
       Query.completed := None; Query.dueBefore := None;
       Query.dueAfter := None; Query.page := Some 2;
       Query.limit := Some 1; Query.sort := Some Sort.createdAt;
       Query.order := Some Sort.asc |}
    [Sample.D; Sample.A; Sample.B; Sample.C]
  = Ok {| TaskService.items := [Sample.B]; TaskService.page := 2;
          TaskService.limit := 1; TaskService.total := 3 |}
  /\ exists sorted,
      (List.length (firstn 1 (skipn 1 sorted)) <= 1)%nat
      /\ TaskService.listTasks (RT := Stub.runtime) Sample.alice_id
           {| Query.search := None; Query.priority := None;
              Query.completed := None; Query.dueBefore := None;
              Query.dueAfter := None; Query.page := Some 2;
              Query.limit := Some 1; Query.sort := None;
              Query.order := None |}
           [Sample.D; Sample.A; Sample.B; Sample.C]
         = Ok {| TaskService.items := firstn 1 (skipn 1 sorted);
                 TaskService.page := 2; TaskService.limit := 1;
                 TaskService.total := 3 |}.
Proof.
  destruct (pagination (RT := Stub.runtime)) as [Hgen Hex]. split.
  - apply (Hex Sample.alice_id [Sample.D; Sample.A; Sample.B; Sample.C]
             Sample.A Sample.B Sample.C); reflexivity.
  - destruct (Hgen Sample.alice_id
                {| Query.search := None; Query.priority := None;
                   Query.completed := None; Query.dueBefore := None;
                   Query.dueAfter := None; Query.page := Some 2;
                   Query.limit := Some 1; Query.sort := None;
                   Query.order := None |}
                [Sample.D; Sample.A; Sample.B; Sample.C] 2 1
                eq_refl eq_refl eq_refl ltac:(lia) ltac:(lia))
      as (sorted & _ & _ & Hl & Hlen).
    exists sorted. split; [exact Hlen | exact Hl].
Defined.

(** ** The list filter *)

Section FilterFacts.
Context {RT : Runtime}.

Lemma truthy_true (s : string) : s <> "" -> Js.truthy s = true.
Proof.
  intros H. unfold Js.truthy. destruct (String.eqb_spec s ""); [contradiction|].
  reflexivity.
Qed.

Lemma optional_inv {A B} (s : A -> option B) (x : option A) (y : option B) :
  Zod.optional s x = Some y ->
  match x with
  | None => y = None
  | Some a => exists b, s a = Some b /\ y = Some b
  end.
Proof.
  unfold Zod.optional. destruct x as [a|].
  - destruct (s a) as [b|]; [|discriminate].
    intros H; injection H as <-. exists b. auto.
  - intros H; injection H as <-. reflexivity.
Qed.

(** What the schema and the service make of each filter parameter of a
    query string that passes [listQuerySchema]. *)
Lemma filter_construction (userId : ObjectId) (w : Wire.Query) (q : Query.t) :
  Zod.listQuerySchema w = Some q ->
  let f := TaskService.listFilter userId q in
  Mongo._id f = None
  /\ Mongo.user f = Some userId
  /\ match Wire.priority w with
     | Some s => exists p, Priority_of_string s = Some p /\ Mongo.priority f = Some p
     | None => Mongo.priority f = None
     end
  /\ Mongo.completed f = option_map Js.Boolean (Wire.completed w)
  /\ match Wire.search w with
     | Some s => Mongo.text f = if Js.truthy s then Some s else None
     | None => Mongo.text f = None
     end.
Proof.
  unfold Zod.listQuerySchema.
  destruct (Zod.optional Zod.string_ (Wire.search w)) as [s|] eqn:Hs; [|discriminate].
  destruct (Zod.optional Zod.priority_enum (Wire.priority w)) as [p|] eqn:Hp;
    [|discriminate].
  destruct (Zod.optional Zod.coerce_boolean (Wire.completed w)) as [c|] eqn:Hc;
    [|discriminate].
  destruct (Zod.optional Zod.datetime (Wire.dueBefore w)); [|discriminate].
  destruct (Zod.optional Zod.datetime (Wire.dueAfter w)); [|discriminate].
  destruct (Zod.default _ _ (Wire.page w)); [|discriminate].
  destruct (Zod.default _ _ (Wire.limit w)); [|discriminate].
  destruct (Zod.default _ _ (Wire.sort w)); [|discriminate].
  destruct (Zod.default _ _ (Wire.order w)); [|discriminate].
  intros H; injection H as <-. simpl.
  apply optional_inv in Hs, Hp, Hc.
  split; [reflexivity|]. split; [reflexivity|]. split; [|split].
  - destruct (Wire.priority w); [|exact Hp].
    destruct Hp as (b & Hb & ->). exists b. auto.
  - destruct (Wire.completed w); [|subst; reflexivity].
    destruct Hc as (b & Hb & ->). unfold Zod.coerce_boolean in Hb.
    injection Hb as <-. reflexivity.
  - destruct (Wire.search w); [|subst; reflexivity].
    destruct Hs as (b & Hb & ->). unfold Zod.string_ in Hb.
    injection Hb as <-. reflexivity.
Qed.

(** C8 at [?completed=false].  The query string passes the schema, and
    the filter [listTasks] builds from the parsed query constrains
    [completed] to true: [z.coerce.boolean()] is [Boolean("false")]. *)
Theorem completed_false_filters_completed (userId : ObjectId) :
  exists q,
    Zod.listQuerySchema Sample.completed_false = Some q
    /\ Query.completed q = Some true
    /\ Mongo.completed (TaskService.listFilter userId q) = Some true.
Proof.
  eexists. split; [reflexivity|]. split; reflexivity.
Qed.

Lemma truthy_false (s : string) : Js.truthy s = false -> s = "".
Proof.
  unfold Js.truthy. destruct (String.eqb_spec s ""); [auto|discriminate].
Qed.

(** The [dueDate] operand of the filter, read on a task: the task has a
    due date, at most the [dueBefore] given and at least the [dueAfter]
    given; a parameter that is absent or empty asks for nothing. *)
Lemma listFilter_dueDate (userId : ObjectId) (query : Query.t) (t : Task.Doc) :
  Mongo.when (Mongo.dueDate (TaskService.listFilter userId query))
    (fun r => Mongo.in_range r (Task.dueDate t)) = true
  <-> (forall b, Query.dueBefore query = Some b -> b <> "" ->
       exists d, Task.dueDate t = Some d /\ d <= Date_parse b)
      /\ (forall a, Query.dueAfter query = Some a -> a <> "" ->
          exists d, Task.dueDate t = Some d /\ Date_parse a <= d).
Proof.
  unfold TaskService.listFilter. cbn [Mongo.dueDate].
  destruct (Query.dueBefore query) as [b|];
    try (destruct (Js.truthy b) eqn:Tb);
    destruct (Query.dueAfter query) as [a|];
    try (destruct (Js.truthy a) eqn:Ta);
    try apply truthy_false in Tb; try apply truthy_false in Ta;
    destruct (Task.dueDate t) as [d|];
    cbn [Mongo.when Mongo.in_range Mongo.lte Mongo.gte];
    rewrite ?andb_true_iff, ?andb_true_r, ?Z.leb_le;
    (split;
     [ intros H; split; intros x Hx Hne; try discriminate;
       injection Hx as <-; try contradiction;
       (exists d; split; [reflexivity | tauto])
     | intros [Hb Ha];
       try (destruct (Hb _ eq_refl) as (d1 & Hd1 & Hle1);
            [intros E; subst; discriminate
            | try discriminate; injection Hd1 as <-]);
       try (destruct (Ha _ eq_refl) as (d2 & Hd2 & Hle2);
            [intros E; subst; discriminate
            | try discriminate; injection Hd2 as <-]);
       auto ]).
Qed.

(** C10.  The bounds on [dueDate] are inclusive.  A supplied
    [dueBefore] is the [$lte] bound and a supplied [dueAfter] is the
    [$gte] bound of the filter; a due date satisfies the filter exactly
    when it is at most the first and at least the second, whichever are
    present; so a task due exactly at a bound satisfies that bound.  A
    parameter that is absent or empty sets no bound.  On a task the
    filter is what it is without the two parameters, together with: the
    task has a due date, at most [dueBefore] when that is supplied and
    at least [dueAfter] when that is supplied. *)
Theorem dueDate_bounds_inclusive (userId : ObjectId) (query : Query.t) :
  let f := TaskService.listFilter userId query in
  (forall b, Query.dueBefore query = Some b -> b <> "" ->
     exists r, Mongo.dueDate f = Some r /\ Mongo.lte r = Some (Date_parse b))
  /\ (forall a, Query.dueAfter query = Some a -> a <> "" ->
     exists r, Mongo.dueDate f = Some r /\ Mongo.gte r = Some (Date_parse a))
  /\ (forall r d, Mongo.dueDate f = Some r ->
     (Mongo.in_range r (Some d) = true <->
      (forall b, Mongo.lte r = Some b -> d <= b)
      /\ (forall a, Mongo.gte r = Some a -> a <= d)))
  /\ (forall r b, Mongo.dueDate f = Some r -> Mongo.lte r = Some b ->
     (forall a, Mongo.gte r = Some a -> a <= b) ->
     Mongo.in_range r (Some b) = true)
  /\ (forall r a, Mongo.dueDate f = Some r -> Mongo.gte r = Some a ->
     (forall b, Mongo.lte r = Some b -> a <= b) ->
     Mongo.in_range r (Some a) = true)
  /\ (forall t r, Mongo.dueDate f = Some r ->
     Mongo.matches f t = true ->
     exists d, Task.dueDate t = Some d
       /\ (forall b, Mongo.lte r = Some b -> d <= b)
       /\ (forall a, Mongo.gte r = Some a -> a <= d))
  /\ (forall t b,
     Query.search query = None -> Query.priority query = None ->
     Query.completed query = None -> Query.dueAfter query = None ->
     Query.dueBefore query = Some b -> b <> "" ->
     Task.user t = userId -> Task.dueDate t = Some (Date_parse b) ->
     Mongo.matches f t = true)
  /\ (forall t a,
     Query.search query = None -> Query.priority query = None ->
     Query.completed query = None -> Query.dueBefore query = None ->
     Query.dueAfter query = Some a -> a <> "" ->
     Task.user t = userId -> Task.dueDate t = Some (Date_parse a) ->
     Mongo.matches f t = true)
  /\ (forall r, Mongo.dueDate f = Some r ->
     (Query.dueBefore query = None \/ Query.dueBefore query = Some "" ->
      Mongo.lte r = None)
     /\ (Query.dueAfter query = None \/ Query.dueAfter query = Some "" ->
         Mongo.gte r = None))
  /\ (forall t,
     Mongo.matches f t = true <->
     Mongo.matches
       (TaskService.listFilter userId
          {| Query.search := Query.search query;
             Query.priority := Query.priority query;
             Query.completed := Query.completed query;
             Query.dueBefore := None; Query.dueAfter := None;
             Query.page := Query.page query; Query.limit := Query.limit query;
             Query.sort := Query.sort query;
             Query.order := Query.order query |}) t = true
     /\ (forall b, Query.dueBefore query = Some b -> b <> "" ->
         exists d, Task.dueDate t = Some d /\ d <= Date_parse b)
     /\ (forall a, Query.dueAfter query = Some a -> a <> "" ->
         exists d, Task.dueDate t = Some d /\ Date_parse a <= d))
  /\ (forall t,
     Query.search query = None -> Query.priority query = None ->
     Query.completed query = None ->
     (Mongo.matches f t = true <->
      Task.user t = userId
      /\ (forall b, Query.dueBefore query = Some b -> b <> "" ->
          exists d, Task.dueDate t = Some d /\ d <= Date_parse b)
      /\ (forall a, Query.dueAfter query = Some a -> a <> "" ->
          exists d, Task.dueDate t = Some d /\ Date_parse a <= d))).
Proof.
  intros f.
  assert (Hiff : forall r d, Mongo.dueDate f = Some r ->
     (Mongo.in_range r (Some d) = true <->
      (forall b, Mongo.lte r = Some b -> d <= b)
      /\ (forall a, Mongo.gte r = Some a -> a <= d))).
  { intros r d Hr. unfold f, TaskService.listFilter in Hr. simpl in Hr.
    unfold Mongo.in_range, Mongo.when.
    destruct (Mongo.lte r) as [b|] eqn:Eb, (Mongo.gte r) as [a|] eqn:Ea.
    - rewrite andb_true_iff, !Z.leb_le. split.
      + intros [H1 H2]. split; intros x Hx; injection Hx as <-; assumption.
      + intros [H1 H2]. split; [apply H1 | apply H2]; reflexivity.
    - rewrite andb_true_r, Z.leb_le. split.
      + intros H1. split; intros x Hx; [injection Hx as <-; exact H1 | discriminate].
      + intros [H1 _]. apply H1. reflexivity.
    - simpl. rewrite Z.leb_le. split.
      + intros H1. split; intros x Hx; [discriminate | injection Hx as <-; exact H1].
      + intros [_ H2]. apply H2. reflexivity.
    - exfalso.
      destruct (match Query.dueBefore query with
                | Some s => if Js.truthy s then Some (Date_parse s) else None
                | None => None
                end) as [x|] eqn:E1;
        destruct (match Query.dueAfter query with
                  | Some s => if Js.truthy s then Some (Date_parse s) else None
                  | None => None
                  end) as [y|] eqn:E2;
        try discriminate; injection Hr as <-; simpl in *; discriminate. }
  split; [|split; [|split; [exact Hiff|split; [|split; [|split; [|split;
    [|split; [|split; [|split]]]]]]]]].
  - intros b Hb Hne. unfold f, TaskService.listFilter. simpl.
    rewrite Hb, (truthy_true b Hne).
    eexists. split; [reflexivity|]. reflexivity.
  - intros a Ha Hne. unfold f, TaskService.listFilter. simpl.
    rewrite Ha, (truthy_true a Hne).
    destruct (match Query.dueBefore query with
              | Some s => if Js.truthy s then Some (Date_parse s) else None
              | None => None
              end); eexists; split; reflexivity.
  - intros r b Hr Hb Hge. apply (Hiff r b Hr). split.
    + intros x Hx. rewrite Hb in Hx. injection Hx as <-. lia.
    + exact Hge.
  - intros r a Hr Ha Hle. apply (Hiff r a Hr). split.
    + exact Hle.
    + intros x Hx. rewrite Ha in Hx. injection Hx as <-. lia.
  - intros t r Hr Hm. unfold Mongo.matches in Hm.
    rewrite !andb_true_iff in Hm. destruct Hm as [[_ Hd] _].
    rewrite Hr in Hd. simpl in Hd.
    destruct (Task.dueDate t) as [d|] eqn:Ed; [|discriminate].
    exists d. split; [reflexivity|]. apply (Hiff r d Hr). exact Hd.
  - intros t b Hs Hp Hc Ha Hb Hne Hu Hd.
    unfold f, Mongo.matches, TaskService.listFilter.
    rewrite Hs, Hp, Hc, Ha, Hb, Hd, Hu, (truthy_true b Hne). simpl.
    rewrite String.eqb_refl, Z.leb_refl. reflexivity.
  - intros t a Hs Hp Hc Hb Ha Hne Hu Hd.
    unfold f, Mongo.matches, TaskService.listFilter.
    rewrite Hs, Hp, Hc, Ha, Hb, Hd, Hu, (truthy_true a Hne). simpl.
    rewrite String.eqb_refl, Z.leb_refl. reflexivity.
  - intros r Hr. unfold f, TaskService.listFilter in Hr. cbn [Mongo.dueDate] in Hr.
    split; intros [E|E]; rewrite E in Hr; cbn in Hr;
      destruct (match Query.dueAfter query with
                | Some s => if Js.truthy s then Some (Date_parse s) else None
                | None => None
                end);
      destruct (match Query.dueBefore query with
                | Some s => if Js.truthy s then Some (Date_parse s) else None
                | None => None
                end);
      try discriminate; injection Hr as <-; reflexivity.
  - intros t. rewrite <- (listFilter_dueDate userId query t).
    unfold f, Mongo.matches, TaskService.listFilter.
    cbn [Mongo._id Mongo.user Mongo.priority Mongo.completed Mongo.dueDate
         Mongo.text Query.search Query.priority Query.completed
         Query.dueBefore Query.dueAfter].
    rewrite !andb_true_iff. cbn [Mongo.when]. intuition reflexivity.
  - intros t Hs Hp Hc. rewrite <- (listFilter_dueDate userId query t).
    unfold f, Mongo.matches, TaskService.listFilter.
    cbn [Mongo._id Mongo.user Mongo.priority Mongo.completed Mongo.dueDate
         Mongo.text].
    rewrite Hs, Hp, Hc. cbn [Mongo.when].
    rewrite !andb_true_iff, String.eqb_eq. intuition reflexivity.
Qed.

End FilterFacts.

(** The witness of [dueDate_bounds_inclusive], at
    [?dueBefore=2024-01-01T00:00:00Z]: a task of alice due at that
    midnight matches, one due a day earlier matches, and one due a
    millisecond later does not. *)
Lemma dueDate_bounds_inclusive_witness :
  let f :=
    TaskService.listFilter (RT := Stub.runtime) Sample.alice_id
      {| Query.search := None; Query.priority := None;
         Query.completed := None;
         Query.dueBefore := Some "2024-01-01T00:00:00Z";
         Query.dueAfter := None; Query.page := None; Query.limit := None;
         Query.sort := None; Query.order := None |} in
  let due d :=
    {| Task._id := Sample.t1; Task.user := Sample.alice_id; Task.title := "A";
       Task.description := None; Task.priority := medium;
       Task.dueDate := Some d; Task.completed := false;
       Task.createdAt := 1000; Task.updatedAt := 1000 |} in
  Mongo.matches (RT := Stub.runtime) f (due 1704067200000) = true
  /\ Mongo.matches (RT := Stub.runtime) f (due 1703980800000) = true
  /\ Mongo.matches (RT := Stub.runtime) f (due 1704067200001) <> true.
Proof.
  intros f due.
  destruct (dueDate_bounds_inclusive (RT := Stub.runtime) Sample.alice_id
              {| Query.search := None; Query.priority := None;
                 Query.completed := None;
                 Query.dueBefore := Some "2024-01-01T00:00:00Z";
                 Query.dueAfter := None; Query.page := None;
                 Query.limit := None; Query.sort := None;
                 Query.order := None |})
    as (_ & _ & _ & _ & _ & _ & Hbefore & _ & _ & _ & Hiff).
  split; [|split].
  - apply (Hbefore _ "2024-01-01T00:00:00Z");
      try reflexivity. discriminate.
  - apply (Hiff (due 1703980800000)); try reflexivity.
    split; [reflexivity|]. split.
    + intros b Hb _. injection Hb as <-. eexists. split; [reflexivity|].
      vm_compute. discriminate.
    + intros a Ha. discriminate Ha.
  - intros Hm. apply (Hiff (due 1704067200001)) in Hm; try reflexivity.
    destruct Hm as (_ & Hb & _).
    destruct (Hb _ eq_refl) as (d & Hd & Hle); [discriminate|].
    injection Hd as <-. vm_compute in Hle. apply Hle. reflexivity.
Defined.

(** ** Patching *)

Section PatchFacts.
Context {RT : Runtime} {CR : Crypto}.

Lemma updateTask_found now caller id patch db t :
  TaskService.getTask caller id db = Ok (Some t) ->
  exists l1 l2,
    db = l1 ++ t :: l2
    /\ TaskService.updateTask now caller id patch db
       = (Ok (Some (TaskService.applyPatch now patch t)),
          l1 ++ TaskService.applyPatch now patch t :: l2).
Proof.
  unfold TaskService.getTask, TaskService.updateTask. intros H.
  apply findOne_In in H. destruct H as (Hc & Hf & _).
  destruct (updateFirst_spec _ (TaskService.applyPatch now patch) _ _ Hf)
    as (l1 & l2 & Hdb & _ & Hu).
  exists l1, l2. split; [exact Hdb|].
  unfold Mongo.findOneAndUpdate. rewrite Hc, Hu. reflexivity.
Qed.

(** C9.  The frame of a patch.  For a task [t] that [getTask] finds for
    the caller: [PATCH /tasks/:id] with the body [{ completed: true }]
    answers the task with [completed] true and [updatedAt] the instant
    of the request, every other field as in [t], and puts it in the
    place of [t], the other documents untouched; and [updateTask] with
    any patch leaves each field that the patch does not supply, and
    [_id], [user] and [createdAt], as they were. *)
Theorem patch_frame (now : Instant) (authorization : option string)
  (caller : AuthUser.t) (id : string) (db : Tasks) (t : Task.Doc) :
  Middleware.requireAuth now authorization = inr caller ->
  id <> "" ->
  TaskService.getTask (AuthUser.id caller) id db = Ok (Some t) ->
  (exists t' l1 l2,
      db = l1 ++ t :: l2
      /\ TaskRoutes.patch_task now authorization id Sample.completed_true db
         = (Ok (Http.json (Http.TaskBody t')), l1 ++ t' :: l2)
      /\ t' = {| Task._id := Task._id t;
                 Task.user := Task.user t;
                 Task.title := Task.title t;
                 Task.description := Task.description t;
                 Task.priority := Task.priority t;
                 Task.dueDate := Task.dueDate t;
                 Task.completed := true;
                 Task.createdAt := Task.createdAt t;
                 Task.updatedAt := now |})
  /\ (forall patch, exists t' l1 l2,
      db = l1 ++ t :: l2
      /\ TaskService.updateTask now (AuthUser.id caller) id patch db
         = (Ok (Some t'), l1 ++ t' :: l2)
      /\ Task._id t' = Task._id t
      /\ Task.user t' = Task.user t
      /\ Task.createdAt t' = Task.createdAt t
      /\ (Patch.title patch = None -> Task.title t' = Task.title t)
      /\ (Patch.description patch = None ->
          Task.description t' = Task.description t)
      /\ (Patch.priority patch = None -> Task.priority t' = Task.priority t)
      /\ (Patch.dueDate patch = None -> Task.dueDate t' = Task.dueDate t)
      /\ (Patch.completed patch = None ->
          Task.completed t' = Task.completed t)).
Proof.
  intros Hauth Hne Hget. split.
  - destruct (updateTask_found now _ _
                {| Patch.title := None; Patch.description := None;
                   Patch.priority := None; Patch.dueDate := None;
                   Patch.completed := Some true |} _ _ Hget)
      as (l1 & l2 & Hdb & Hu).
    eexists. exists l1, l2. split; [exact Hdb|]. split.
    + unfold TaskRoutes.patch_task. rewrite Hauth.
      pass_idSchema id.
      unfold TaskController.patch. rewrite Hu. reflexivity.
    + reflexivity.
  - intros patch.
    destruct (updateTask_found now _ _ patch _ _ Hget) as (l1 & l2 & Hdb & Hu).
    exists (TaskService.applyPatch now patch t), l1, l2.
    split; [exact Hdb|]. split; [exact Hu|].
    unfold TaskService.applyPatch. simpl.
    repeat split; intros ->; reflexivity.
Qed.

End PatchFacts.

(** The witness of [patch_frame]: alice completes her task [t2]. *)
Lemma patch_frame_witness :
  exists t' l1 l2,
    [Sample.D; Sample.A; Sample.B; Sample.C] = l1 ++ Sample.B :: l2
    /\ TaskRoutes.patch_task (RT := Stub.runtime) (CR := Stub.crypto)
         5000 Sample.alice_header Sample.t2 Sample.completed_true
         [Sample.D; Sample.A; Sample.B; Sample.C]
       = (Ok (Http.json (Http.TaskBody t')), l1 ++ t' :: l2)
    /\ t' = {| Task._id := Sample.t2; Task.user := Sample.alice_id;
               Task.title := "B";
               Task.description := None; Task.priority := medium;
               Task.dueDate := None; Task.completed := true;
               Task.createdAt := 2000; Task.updatedAt := 5000 |}.
Proof.
  destruct (patch_frame (RT := Stub.runtime) (CR := Stub.crypto)
              5000 Sample.alice_header Sample.alice Sample.t2
              [Sample.D; Sample.A; Sample.B; Sample.C] Sample.B
              eq_refl ltac:(discriminate) eq_refl) as [H _].
  exact H.
Defined.

(** ** The users collection *)

Lemma find_unique {A} (f : A -> bool) (l : list A) (x : A) :
  In x l -> f x = true ->
  (forall y, In y l -> f y = true -> y = x) ->
  List.find f l = Some x.
Proof.
  intros Hin Hfx Huniq.
  destruct (List.find f l) as [y|] eqn:E.
  - apply find_some in E. destruct E as [Hy Hfy].
    f_equal. apply Huniq; assumption.
  - rewrite (find_none f l E x Hin) in Hfx. discriminate.
Qed.

Section UserStoreFacts.
Context {RT : Runtime}.

Lemma save_ids now u db :
  map User._id (UserStore.save now u db) = map User._id db.
Proof.
  induction db as [|v r IH]; simpl; [reflexivity|].
  destruct (String.eqb_spec (User._id v) (User._id u)) as [E|E]; simpl.
  - rewrite E. reflexivity.
  - rewrite IH. reflexivity.
Qed.

Lemma save_In now u' db :
  NoDup (map User._id db) ->
  In (User._id u') (map User._id db) ->
  forall v,
    In v (UserStore.save now u' db)
    <-> v = User.set_updatedAt now u' \/ (In v db /\ User._id v <> User._id u').
Proof.
  induction db as [|a r IH]; simpl; [tauto|].
  intros Hnd Hin. inversion Hnd as [|? ? Hnotin Hr]; subst.
  destruct (String.eqb_spec (User._id a) (User._id u')) as [E|E]; intros v.
  - simpl. split.
    + intros [<-|Hv]; [left; reflexivity|].
      right. split; [right; exact Hv|].
      intros Hv'. apply Hnotin. rewrite E, <- Hv'. apply in_map. exact Hv.
    + intros [->|[[->|Hv] Hne]]; [left; reflexivity | contradiction |].
      right. exact Hv.
  - destruct Hin as [Hin|Hin]; [contradiction|].
    simpl. rewrite (IH Hr Hin v). split.
    + intros [<-|[->|[Hv Hne]]]; auto.
    + intros [->|[[<-|Hv] Hne]]; auto.
Qed.

Lemma save_find now u' db (f : User.Doc -> bool) u :
  NoDup (map User._id db) ->
  List.find f db = Some u ->
  User._id u' = User._id u ->
  f (User.set_updatedAt now u') = true ->
  List.find f (UserStore.save now u' db) = Some (User.set_updatedAt now u').
Proof.
  intros Hnd Hfind Hid Hf. induction db as [|a r IH]; simpl in *; [discriminate|].
  inversion Hnd as [|? ? Hnotin Hr]; subst.
  destruct (f a) eqn:Efa.
  - injection Hfind as ->. rewrite Hid, String.eqb_refl. simpl.
    rewrite Hf. reflexivity.
  - destruct (String.eqb_spec (User._id a) (User._id u')) as [E|E].
    + exfalso. apply Hnotin. rewrite E, Hid. apply in_map.
      apply find_some in Hfind. tauto.
    + simpl. rewrite Efa. apply IH; assumption.
Qed.

End UserStoreFacts.

(** ** The password-reset flow *)

Section ResetFacts.
Context {RT : Runtime} {CR : Crypto}.

Lemma byResetToken_true h now v :
  UserStore.byResetToken h now v = true <->
  User.passwordResetTokenHash v = Some h
  /\ exists e, User.passwordResetExpires v = Some e /\ now < e.
Proof.
  unfold UserStore.byResetToken.
  destruct (User.passwordResetTokenHash v) as [h'|],
           (User.passwordResetExpires v) as [e|]; simpl.
  - rewrite andb_true_iff, String.eqb_eq, Z.ltb_lt. split.
    + intros [-> H]. split; [reflexivity|]. exists e. auto.
    + intros [H (e' & He & Hlt)]. injection H as ->. injection He as ->. auto.
  - rewrite andb_false_r. split; [discriminate|].
    intros [_ (e & He & _)]. discriminate.
  - split; [discriminate|]. intros [H _]. discriminate.
  - split; [discriminate|]. intros [H _]. discriminate.
Qed.

Lemma resetPassword_fails now salt raw pw name db :
  (forall v, In v db -> UserStore.byResetToken (sha256_hex raw) now v = false) ->
  AuthService.resetPassword now salt raw pw name db
  = (Throw (HttpError "InvalidOrExpiredResetToken" 400), db).
Proof.
  intros H. unfold AuthService.resetPassword, UserStore.findOne.
  apply find_none_iff in H. rewrite H. reflexivity.
Qed.

Lemma resetPassword_finds now salt raw pw name db u :
  UserStore.findOne (UserStore.byResetToken (sha256_hex raw) now) db = Some u ->
  exists u',
    AuthService.resetPassword now salt raw pw name db
    = (Ok (AuthService.session now u'), UserStore.save now u' db)
    /\ User._id u' = User._id u
    /\ User.email u' = User.email u
    /\ User.passwordHash u' = bcrypt_hash pw salt
    /\ User.passwordResetTokenHash u' = None
    /\ User.passwordResetExpires u' = None.
Proof.
  intros H. unfold AuthService.resetPassword. rewrite H.
  eexists. split; [reflexivity|].
  destruct name as [n|]; [destruct (0 <? String.length (Js.trim n))%nat|];
    simpl; auto.
Qed.

Lemma resetPassword_only_unexpired now salt raw pw name db s db' :
  AuthService.resetPassword now salt raw pw name db = (Ok s, db') ->
  exists v e,
    In v db
    /\ User.passwordResetTokenHash v = Some (sha256_hex raw)
    /\ User.passwordResetExpires v = Some e
    /\ now < e.
Proof.
  unfold AuthService.resetPassword, UserStore.findOne.
  destruct (List.find _ db) as [u|] eqn:E; [|discriminate].
  intros _. apply find_some in E. destruct E as [Hin Hb].
  apply byResetToken_true in Hb. destruct Hb as [Hh (e & He & Hlt)].
  exists u, e. auto.
Qed.

Lemma requestPasswordReset_found t0 raw production email db u :
  UserStore.findOne (UserStore.byEmail email) db = Some u ->
  AuthService.requestPasswordReset t0 raw production email db
  = (if negb production
     then {| AuthService.ok := true; AuthService.rawToken := Some raw |}
     else {| AuthService.ok := true; AuthService.rawToken := None |},
     UserStore.save t0
       (User.set_passwordResetExpires (Some (t0 + 60 * 60 * 1000))
          (User.set_passwordResetTokenHash (Some (sha256_hex raw)) u)) db).
Proof.
  intros H. unfold AuthService.requestPasswordReset. rewrite H. reflexivity.
Qed.

(** The document a reset request leaves under the id of [u]. *)
Lemma requestPasswordReset_stores t0 raw production email db u :
  NoDup (map User._id db) ->
  UserStore.findOne (UserStore.byEmail email) db = Some u ->
  let db1 := snd (AuthService.requestPasswordReset t0 raw production email db) in
  exists u1,
    In u1 db1
    /\ User._id u1 = User._id u
    /\ User.email u1 = User.email u
    /\ User.passwordResetTokenHash u1 = Some (sha256_hex raw)
    /\ User.passwordResetExpires u1 = Some (t0 + 3600000)
    /\ NoDup (map User._id db1)
    /\ UserStore.findOne (UserStore.byEmail email) db1 = Some u1
    /\ (forall v, In v db1 <-> v = u1 \/ (In v db /\ User._id v <> User._id u)).
Proof.
  intros Hnd Hfind db1. unfold db1.
  rewrite (requestPasswordReset_found _ _ _ _ _ _ Hfind). simpl.
  set (u' := User.set_passwordResetExpires _ _).
  assert (Hin : In u db) by (apply find_some in Hfind; tauto).
  assert (Hid : In (User._id u') (map User._id db))
    by exact (in_map User._id db u Hin).
  exists (User.set_updatedAt t0 u').
  split; [apply (save_In t0 u' db Hnd Hid); left; reflexivity|].
  split; [reflexivity|]. split; [reflexivity|]. split; [reflexivity|].
  split; [reflexivity|].
  split; [rewrite save_ids; exact Hnd|].
  split.
  - apply (save_find t0 u' db _ u Hnd Hfind eq_refl).
    apply find_some in Hfind. destruct Hfind as [_ Hb]. exact Hb.
  - intros v. apply (save_In t0 u' db Hnd Hid).
Qed.

End ResetFacts.

Section ResetFlow.
Context {RT : Runtime} {CR : Crypto}.

(** C2.  A reset token is used once.  Let [u] be a stored user whose
    reset fields hold the hash of [raw] and an expiry after [now], no
    other stored user holding that hash, ids being unique.  Then
    [resetPassword] with [raw] at [now] succeeds for [u], the document
    it leaves under the id of [u] has the new password hash and neither
    reset field, and every later [resetPassword] with [raw] throws
    InvalidOrExpiredResetToken (400) and leaves the collection as it
    is. *)
Theorem reset_token_single_use (now : Instant) (salt raw pw : string)
  (name : option string) (db : Users) (u : User.Doc) (e : Instant) :
  NoDup (map User._id db) ->
  In u db ->
  User.passwordResetTokenHash u = Some (sha256_hex raw) ->
  User.passwordResetExpires u = Some e ->
  now < e ->
  (forall v, In v db ->
     User.passwordResetTokenHash v = Some (sha256_hex raw) -> v = u) ->
  exists s db1 u1,
    AuthService.resetPassword now salt raw pw name db = (Ok s, db1)
    /\ AuthUser.id (AuthService.user s) = User._id u
    /\ (forall v, In v db1 <-> v = u1 \/ (In v db /\ User._id v <> User._id u))
    /\ User._id u1 = User._id u
    /\ User.passwordHash u1 = bcrypt_hash pw salt
    /\ User.passwordResetTokenHash u1 = None
    /\ User.passwordResetExpires u1 = None
    /\ (forall now2 salt2 pw2 name2,
        AuthService.resetPassword now2 salt2 raw pw2 name2 db1
        = (Throw (HttpError "InvalidOrExpiredResetToken" 400), db1)).
Proof.
  intros Hnd Hin Hh He Hlt Huniq.
  assert (Hfind : UserStore.findOne
                    (UserStore.byResetToken (sha256_hex raw) now) db = Some u).
  { apply find_unique; [exact Hin | |].
    - apply byResetToken_true. split; [exact Hh|]. exists e. auto.
    - intros y Hy Hb. apply byResetToken_true in Hb. apply Huniq; tauto. }
  destruct (resetPassword_finds now salt raw pw name db u Hfind)
    as (u' & Hrun & Hid & _ & Hpw & Hh' & He').
  assert (Hmem : In (User._id u') (map User._id db))
    by (rewrite Hid; exact (in_map User._id db u Hin)).
  exists (AuthService.session now u'), (UserStore.save now u' db),
    (User.set_updatedAt now u').
  split; [exact Hrun|]. split; [exact Hid|].
  split; [rewrite <- Hid; apply (save_In now u' db Hnd Hmem)|].
  split; [exact Hid|]. split; [exact Hpw|]. split; [exact Hh'|].
  split; [exact He'|].
  intros now2 salt2 pw2 name2. apply resetPassword_fails.
  intros v Hv. apply (save_In now u' db Hnd Hmem) in Hv.
  destruct (UserStore.byResetToken (sha256_hex raw) now2 v) eqn:Hb;
    [|reflexivity].
  apply byResetToken_true in Hb. destruct Hb as [Hvh _].
  destruct Hv as [->|[Hv Hne]].
  - simpl in Hvh. rewrite Hh' in Hvh. discriminate.
  - exfalso. apply Hne. rewrite (Huniq v Hv Hvh). symmetry. exact Hid.
Qed.

(** C3.  A reset token expires after one hour.  A reset request at
    [t0] for the email of a stored user [u] stores the hash of the raw
    token and the expiry [t0 + 3600000] under the id of [u].  No other
    user holding that hash: [resetPassword] with the raw token throws
    InvalidOrExpiredResetToken (400) at every instant from the expiry
    on, and succeeds for [u] at every instant before it.  In any
    collection, [resetPassword] succeeds only if some user holds the
    hash of the token with an expiry strictly after the instant of the
    call. *)
Theorem reset_token_expiry (t0 : Instant) (raw : string) (production : bool)
  (email : string) (db : Users) (u : User.Doc) :
  NoDup (map User._id db) ->
  UserStore.findOne (UserStore.byEmail email) db = Some u ->
  (forall v, In v db ->
     User.passwordResetTokenHash v = Some (sha256_hex raw) ->
     User._id v = User._id u) ->
  let db1 := snd (AuthService.requestPasswordReset t0 raw production email db) in
  (exists u1,
      In u1 db1
      /\ User._id u1 = User._id u
      /\ User.passwordResetTokenHash u1 = Some (sha256_hex raw)
      /\ User.passwordResetExpires u1 = Some (t0 + 3600000))
  /\ (forall now salt pw name,
      t0 + 3600000 <= now ->
      AuthService.resetPassword now salt raw pw name db1
      = (Throw (HttpError "InvalidOrExpiredResetToken" 400), db1))
  /\ (forall now salt pw name,
      now < t0 + 3600000 ->
      exists s db2,
        AuthService.resetPassword now salt raw pw name db1 = (Ok s, db2)
        /\ AuthUser.id (AuthService.user s) = User._id u)
  /\ (forall store now salt token pw name s db2,
      AuthService.resetPassword now salt token pw name store = (Ok s, db2) ->
      exists v e,
        In v store
        /\ User.passwordResetTokenHash v = Some (sha256_hex token)
        /\ User.passwordResetExpires v = Some e
        /\ now < e).
Proof.
  intros Hnd Hfind Huniq db1.
  destruct (requestPasswordReset_stores t0 raw production email db u Hnd Hfind)
    as (u1 & Hin1 & Hid1 & _ & Hh1 & He1 & _ & _ & Hdb1).
  fold db1 in Hin1, Hdb1.
  assert (Hothers : forall now v, In v db1 ->
            UserStore.byResetToken (sha256_hex raw) now v = true -> v = u1).
  { intros now v Hv Hb. apply Hdb1 in Hv. destruct Hv as [->|[Hv Hne]];
      [reflexivity|].
    apply byResetToken_true in Hb. destruct Hb as [Hvh _].
    exfalso. apply Hne. apply Huniq; assumption. }
  split; [exists u1; auto|]. split; [|split].
  - intros now salt pw name Hlate. apply resetPassword_fails.
    intros v Hv.
    destruct (UserStore.byResetToken (sha256_hex raw) now v) eqn:Hb;
      [|reflexivity].
    rewrite (Hothers now v Hv Hb) in Hb.
    apply byResetToken_true in Hb. destruct Hb as [_ (e & He & Hlt)].
    rewrite He1 in He. injection He as <-. lia.
  - intros now salt pw name Hearly.
    assert (Hf : UserStore.findOne
                   (UserStore.byResetToken (sha256_hex raw) now) db1 = Some u1).
    { apply find_unique; [exact Hin1 | | apply Hothers].
      apply byResetToken_true. split; [exact Hh1|].
      exists (t0 + 3600000). auto. }
    destruct (resetPassword_finds now salt raw pw name db1 u1 Hf)
      as (u' & Hrun & Hid & _).
    eexists. eexists. split; [exact Hrun|]. simpl. congruence.
  - intros store now salt token pw name s db2.
    apply resetPassword_only_unexpired.
Qed.

(** C4.  Only the latest reset token is valid.  After two reset
    requests for the email of a stored user [u], with raw tokens of
    different hashes that no other user holds: the reset fields of the
    user are those of the second request; [resetPassword] with the
    first raw token throws InvalidOrExpiredResetToken (400) at every
    instant; [resetPassword] with the second succeeds for [u] at every
    instant before the second expiry. *)
Theorem latest_reset_token_only (t1 t2 : Instant) (raw1 raw2 : string)
  (production : bool) (email : string) (db : Users) (u : User.Doc) :
  NoDup (map User._id db) ->
  UserStore.findOne (UserStore.byEmail email) db = Some u ->
  sha256_hex raw1 <> sha256_hex raw2 ->
  (forall v, In v db ->
     User.passwordResetTokenHash v = Some (sha256_hex raw1)
     \/ User.passwordResetTokenHash v = Some (sha256_hex raw2) ->
     User._id v = User._id u) ->
  let db1 := snd (AuthService.requestPasswordReset t1 raw1 production email db) in
  let db2 := snd (AuthService.requestPasswordReset t2 raw2 production email db1) in
  (exists u2,
      In u2 db2
      /\ User._id u2 = User._id u
      /\ User.passwordResetTokenHash u2 = Some (sha256_hex raw2)
      /\ User.passwordResetExpires u2 = Some (t2 + 3600000)
      /\ (forall v, In v db2 -> User._id v = User._id u -> v = u2))
  /\ (forall now salt pw name,
      AuthService.resetPassword now salt raw1 pw name db2
      = (Throw (HttpError "InvalidOrExpiredResetToken" 400), db2))
  /\ (forall now salt pw name,
      now < t2 + 3600000 ->
      exists s db3,
        AuthService.resetPassword now salt raw2 pw name db2 = (Ok s, db3)
        /\ AuthUser.id (AuthService.user s) = User._id u).
Proof.
  intros Hnd Hfind Hdiff Huniq db1 db2.
  destruct (requestPasswordReset_stores t1 raw1 production email db u Hnd Hfind)
    as (u1 & Hin1 & Hid1 & _ & _ & _ & Hnd1 & Hfind1 & Hdb1).
  fold db1 in Hin1, Hnd1, Hfind1, Hdb1.
  destruct (requestPasswordReset_stores t2 raw2 production email db1 u1
              Hnd1 Hfind1)
    as (u2 & Hin2 & Hid2 & _ & Hh2 & He2 & _ & _ & Hdb2).
  fold db2 in Hin2, Hdb2.
  assert (Hothers : forall raw now v, In v db2 ->
            raw = raw1 \/ raw = raw2 ->
            UserStore.byResetToken (sha256_hex raw) now v = true -> v = u2).
  { intros raw now v Hv Hraw Hb.
    destruct (Hdb2 v) as [Hd _]. destruct (Hd Hv) as [->|[Hv1 Hne1]];
      [reflexivity|].
    exfalso. apply byResetToken_true in Hb. destruct Hb as [Hvh _].
    destruct (Hdb1 v) as [Hd1 _]. destruct (Hd1 Hv1) as [->|[Hv0 Hne0]];
      [contradiction|].
    apply Hne0. apply Huniq; [exact Hv0|].
    destruct Hraw as [->| ->]; auto. }
  split; [|split].
  - exists u2. split; [exact Hin2|]. split; [congruence|].
    split; [exact Hh2|]. split; [exact He2|].
    intros v Hv Hidv. destruct (Hdb2 v) as [Hd _].
    destruct (Hd Hv) as [->|[_ Hne1]]; [reflexivity|].
    exfalso. apply Hne1. congruence.
  - intros now salt pw name. apply resetPassword_fails. intros v Hv.
    destruct (UserStore.byResetToken (sha256_hex raw1) now v) eqn:Hb;
      [|reflexivity].
    rewrite (Hothers raw1 now v Hv (or_introl eq_refl) Hb) in Hb.
    apply byResetToken_true in Hb. destruct Hb as [Hvh _].
    rewrite Hh2 in Hvh. injection Hvh as Hvh. exfalso. apply Hdiff.
    symmetry. exact Hvh.
  - intros now salt pw name Hearly.
    assert (Hf : UserStore.findOne
                   (UserStore.byResetToken (sha256_hex raw2) now) db2 = Some u2).
    { apply find_unique; [exact Hin2 | |].
      - apply byResetToken_true. split; [exact Hh2|].
        exists (t2 + 3600000). auto.
      - intros y Hy Hb. apply (Hothers raw2 now y Hy (or_intror eq_refl) Hb). }
    destruct (resetPassword_finds now salt raw2 pw name db2 u2 Hf)
      as (u' & Hrun & Hid & _).
    eexists. eexists. split; [exact Hrun|]. simpl. congruence.
Qed.

End ResetFlow.

(** The witness of [reset_token_single_use]: carol's pending token is
    used at 2000 and presented again at 2500. *)
Lemma reset_token_single_use_witness :
  exists s db1,
    AuthService.resetPassword (CR := Stub.crypto) 2000 "salt" "tok1" "new" None
      [Sample.carol_requested; Sample.dave] = (Ok s, db1)
    /\ AuthService.resetPassword (CR := Stub.crypto) 2500 "salt" "tok1" "newer"
         None db1
       = (Throw (HttpError "InvalidOrExpiredResetToken" 400), db1).
Proof.
  destruct (reset_token_single_use (CR := Stub.crypto)
              2000 "salt" "tok1" "new" None
              [Sample.carol_requested; Sample.dave]
              Sample.carol_requested 3601000)
    as (s & db1 & u1 & Hrun & _ & _ & _ & _ & _ & _ & Hagain).
  - distinct_ids.
  - left. reflexivity.
  - reflexivity.
  - reflexivity.
  - reflexivity.
  - intros v [<-|[<-|[]]] H; [reflexivity | discriminate H].
  - exists s, db1. split; [exact Hrun | apply Hagain].
Defined.

(** The witness of [reset_token_expiry]: carol asks for a reset at
    1000; the token is refused at 3601000 and accepted at 3600999. *)
Lemma reset_token_expiry_witness :
  AuthService.resetPassword (CR := Stub.crypto) 3601000 "salt" "tok1" "new" None
    (snd (AuthService.requestPasswordReset (RT := Stub.runtime)
            (CR := Stub.crypto) 1000 "tok1" false "carol@example.com"
            [Sample.carol; Sample.dave]))
  = (Throw (HttpError "InvalidOrExpiredResetToken" 400),
     snd (AuthService.requestPasswordReset (RT := Stub.runtime)
            (CR := Stub.crypto) 1000 "tok1" false "carol@example.com"
            [Sample.carol; Sample.dave]))
  /\ exists s db2,
      AuthService.resetPassword (CR := Stub.crypto) 3600999 "salt" "tok1" "new"
        None
        (snd (AuthService.requestPasswordReset (RT := Stub.runtime)
                (CR := Stub.crypto) 1000 "tok1" false "carol@example.com"
                [Sample.carol; Sample.dave]))
      = (Ok s, db2)
      /\ AuthUser.id (AuthService.user s) = Sample.carol_id.
Proof.
  destruct (reset_token_expiry (RT := Stub.runtime) (CR := Stub.crypto)
              1000 "tok1" false "carol@example.com"
              [Sample.carol; Sample.dave] Sample.carol)
    as (_ & Hlate & Hearly & _).
  - distinct_ids.
  - reflexivity.
  - intros v [<-|[<-|[]]] H; [reflexivity | discriminate H].
  - split.
    + apply Hlate. apply Z.le_refl.
    + apply Hearly. reflexivity.
Defined.

(** The witness of [latest_reset_token_only]: carol asks twice, at 1000
    with ["tok1"] and at 2000 with ["tok2"]. *)
Lemma latest_reset_token_only_witness :
  let db2 :=
    snd (AuthService.requestPasswordReset (RT := Stub.runtime)
           (CR := Stub.crypto) 2000 "tok2" false "carol@example.com"
           (snd (AuthService.requestPasswordReset (RT := Stub.runtime)
                   (CR := Stub.crypto) 1000 "tok1" false "carol@example.com"
                   [Sample.carol; Sample.dave]))) in
  AuthService.resetPassword (CR := Stub.crypto) 3000 "salt" "tok1" "new" None db2
  = (Throw (HttpError "InvalidOrExpiredResetToken" 400), db2)
  /\ exists s db3,
      AuthService.resetPassword (CR := Stub.crypto) 3000 "salt" "tok2" "new"
        None db2 = (Ok s, db3)
      /\ AuthUser.id (AuthService.user s) = Sample.carol_id.
Proof.
  destruct (latest_reset_token_only (RT := Stub.runtime) (CR := Stub.crypto)
              1000 2000 "tok1" "tok2" false "carol@example.com"
              [Sample.carol; Sample.dave] Sample.carol)
    as (_ & Hfirst & Hsecond).
  - distinct_ids.
  - reflexivity.
  - discriminate.
  - intros v [<-|[<-|[]]] [H|H]; try reflexivity; discriminate H.
  - split.
    + apply Hfirst.
    + apply Hsecond. reflexivity.
Defined.

(** ** Enumeration *)

Section EnumerationFacts.
Context {RT : Runtime} {CR : Crypto}.

(** C5, as the code has it.  [login] throws one and the same error,
    InvalidCredentials with status 401, when no user has the email and
    when the password does not match, and it throws no other.  In
    production, [requestPasswordReset] answers [{ ok: true }] whether
    or not a user has the email, and so does [POST /auth/forgot] for
    any two bodies that carry an email.  Outside production the answer
    carries the raw token exactly when a user has the email. *)
Theorem anti_enumeration :
  (forall now email password db,
      UserStore.findOne (UserStore.byEmail email) db = None ->
      AuthService.login now email password db
      = Throw (HttpError "InvalidCredentials" 401))
  /\ (forall now email password db u,
      UserStore.findOne (UserStore.byEmail email) db = Some u ->
      bcrypt_compare password (User.passwordHash u) = false ->
      AuthService.login now email password db
      = Throw (HttpError "InvalidCredentials" 401))
  /\ (forall now email password db e,
      AuthService.login now email password db = Throw e ->
      e = HttpError "InvalidCredentials" 401)
  /\ (forall now raw email db,
      fst (AuthService.requestPasswordReset now raw true email db)
      = {| AuthService.ok := true; AuthService.rawToken := None |})
  /\ (forall now1 now2 raw1 raw2 body1 body2 db1 db2,
      AuthController.missing (AuthController.email body1) = false ->
      AuthController.missing (AuthController.email body2) = false ->
      fst (AuthController.forgot now1 raw1 true body1 db1)
      = fst (AuthController.forgot now2 raw2 true body2 db2))
  /\ (forall now raw email db,
      fst (AuthService.requestPasswordReset now raw false email db)
      = {| AuthService.ok := true;
           AuthService.rawToken :=
             match UserStore.findOne (UserStore.byEmail email) db with
             | Some _ => Some raw
             | None => None
             end |}).
Proof.
  assert (Hprod : forall now raw email db,
      fst (AuthService.requestPasswordReset now raw true email db)
      = {| AuthService.ok := true; AuthService.rawToken := None |}).
  { intros now raw email db. unfold AuthService.requestPasswordReset.
    destruct (UserStore.findOne _ db); reflexivity. }
  split; [|split; [|split; [|split; [exact Hprod|split]]]].
  - intros now email password db H. unfold AuthService.login.
    rewrite H. reflexivity.
  - intros now email password db u H Hc. unfold AuthService.login.
    rewrite H, Hc. reflexivity.
  - intros now email password db e. unfold AuthService.login.
    destruct (UserStore.findOne _ db) as [u|].
    + destruct (bcrypt_compare password (User.passwordHash u)); simpl.
      * discriminate.
      * intros H; injection H as <-. reflexivity.
    + intros H; injection H as <-. reflexivity.
  - intros now1 now2 raw1 raw2 body1 body2 db1 db2 H1 H2.
    unfold AuthController.forgot.
    destruct (AuthController.email body1) as [e1|]; [|discriminate].
    destruct (AuthController.email body2) as [e2|]; [|discriminate].
    rewrite H1, H2.
    pose proof (Hprod now1 raw1 e1 db1) as P1.
    pose proof (Hprod now2 raw2 e2 db2) as P2.
    destruct (AuthService.requestPasswordReset now1 raw1 true e1 db1) as [f1 d1].
    destruct (AuthService.requestPasswordReset now2 raw2 true e2 db2) as [f2 d2].
    simpl in *. congruence.
  - intros now raw email db. unfold AuthService.requestPasswordReset.
    destruct (UserStore.findOne _ db); reflexivity.
Qed.

End EnumerationFacts.

(** The witness of [anti_enumeration]: in production, the answers to
    carol's email and to an email nobody has are the same; and a wrong
    password for carol and a login of nobody throw the same. *)
Lemma anti_enumeration_witness :
  fst (AuthController.forgot (RT := Stub.runtime) (CR := Stub.crypto)
         1000 "tok1" true
         {| AuthController.email := Some "carol@example.com";
            AuthController.password := None; AuthController.name := None;
            AuthController.token := None |}
         [Sample.carol; Sample.dave])
  = fst (AuthController.forgot (RT := Stub.runtime) (CR := Stub.crypto)
           1000 "tok1" true
           {| AuthController.email := Some "nobody@example.com";
              AuthController.password := None; AuthController.name := None;
              AuthController.token := None |}
           [Sample.carol; Sample.dave])
  /\ AuthService.login (RT := Stub.runtime) (CR := Stub.crypto)
       1000 "carol@example.com" "wrong" [Sample.carol; Sample.dave]
     = AuthService.login (RT := Stub.runtime) (CR := Stub.crypto)
         1000 "nobody@example.com" "secret" [Sample.carol; Sample.dave].
Proof.
  destruct (anti_enumeration (RT := Stub.runtime) (CR := Stub.crypto))
    as (Hnone & Hwrong & _ & _ & Hforgot & _).
  split.
  - apply Hforgot; reflexivity.
  - rewrite (Hwrong 1000 "carol@example.com" "wrong"
               [Sample.carol; Sample.dave] Sample.carol eq_refl eq_refl).
    rewrite (Hnone 1000 "nobody@example.com" "secret"
               [Sample.carol; Sample.dave] eq_refl).
    reflexivity.
Defined.

(** C5, as the spec has it, fails outside production: the answer of
    [POST /auth/forgot] to carol's email carries the raw token, and the
    answer to an email nobody has does not. *)
Lemma forgot_tells_outside_production :
  fst (AuthController.forgot (RT := Stub.runtime) (CR := Stub.crypto)
         1000 "tok1" false
         {| AuthController.email := Some "carol@example.com";
            AuthController.password := None; AuthController.name := None;
            AuthController.token := None |}
         [Sample.carol; Sample.dave])
  <> fst (AuthController.forgot (RT := Stub.runtime) (CR := Stub.crypto)
            1000 "tok1" false
            {| AuthController.email := Some "nobody@example.com";
               AuthController.password := None; AuthController.name := None;
               AuthController.token := None |}
            [Sample.carol; Sample.dave]).
Proof.
  vm_compute. discriminate.
Qed.

(** ** Runs *)

Section CompletedFacts.
Context {RT : Runtime} {CR : Crypto}.

(** What [?completed=false] lists: completed tasks only. *)
Lemma completed_false_lists_completed now authorization caller db r p t :
  Middleware.requireAuth now authorization = inr caller ->
  TaskRoutes.get_tasks now authorization Sample.completed_false db = Ok r ->
  Http.body r = Http.PageBody p ->
  In t (TaskService.items p) ->
  Task.completed t = true.
Proof.
  intros Hauth. unfold TaskRoutes.get_tasks. rewrite Hauth.
  unfold Middleware.validate. simpl. unfold TaskController.list.
  destruct (TaskService.listTasks _ _ db) as [p'|e] eqn:Hl; [|discriminate].
  intros H; injection H as <-. simpl. intros Hb; injection Hb as <-.
  intros Hin. destruct (listTasks_items _ _ _ _ _ Hl Hin) as [_ Hm].
  unfold Mongo.matches in Hm. rewrite !andb_true_iff in Hm.
  destruct Hm as [[[_ Hc] _] _]. simpl in Hc.
  destruct (Task.completed t); [reflexivity | discriminate].
Qed.

End CompletedFacts.

(** alice asks for her tasks that are not completed and gets the one
    that is. *)
Example get_tasks_completed_false :
  TaskRoutes.get_tasks (RT := Stub.runtime) (CR := Stub.crypto)
    9000 Sample.alice_header Sample.completed_false
    [Sample.D; Sample.A; Sample.B; Sample.E]
  = Ok (Http.json (Http.PageBody
          {| TaskService.items := [Sample.E]; TaskService.page := 1;
             TaskService.limit := 20; TaskService.total := 1 |})).
Proof. reflexivity. Qed.

(** [GET /tasks?page=2&limit=1&sort=createdAt&order=asc] by alice. *)
Example get_tasks_second_of_three :
  TaskRoutes.get_tasks (RT := Stub.runtime) (CR := Stub.crypto)
    9000 Sample.alice_header Sample.second_of_three
    [Sample.D; Sample.A; Sample.B; Sample.C]
  = Ok (Http.json (Http.PageBody
          {| TaskService.items := [Sample.B]; TaskService.page := 2;
             TaskService.limit := 1; TaskService.total := 3 |})).
Proof. reflexivity. Qed.

(** An id that is no ObjectId makes the query throw. *)
Example get_task_cast_error :
  TaskRoutes.get_task (RT := Stub.runtime) (CR := Stub.crypto)
    9000 Sample.alice_header "42" [Sample.A]
  = Throw Mongo.CastError.
Proof. reflexivity. Qed.

(** bob reads alice's task: not found. *)
Example get_task_foreign :
  TaskRoutes.get_task (RT := Stub.runtime) (CR := Stub.crypto)
    9000 Sample.bob_header Sample.t1 [Sample.A; Sample.D]
  = Ok TaskController.notFound.
Proof. reflexivity. Qed.

(** A request without a token is answered 401 and reaches no handler. *)
Example delete_task_unauthorized :
  TaskRoutes.delete_task (RT := Stub.runtime) (CR := Stub.crypto)
    9000 None Sample.t1 [Sample.A]
  = (Ok Middleware.unauthorized, [Sample.A]).
Proof. reflexivity. Qed.

(** Sorting by priority compares the stored strings. *)
Example sort_by_priority :
  map Task.title
    (Mongo.sort (Sort.priority, 1) [Sample.A; Sample.E; Sample.D])
  = ["E"; "A"; "D"].
Proof. reflexivity. Qed.

(** * Further properties *)

(** ** Task routes: round trips, refusals and invariants *)

Lemma find_app_last {A} (f : A -> bool) (l : list A) (x : A) :
  (forall y, In y l -> f y = false) -> f x = true ->
  List.find f (l ++ [x]) = Some x.
Proof.
  intros Hl Hx. induction l as [|a l IH]; simpl.
  - rewrite Hx. reflexivity.
  - rewrite (Hl a (or_introl eq_refl)). apply IH.
    intros y Hy. apply Hl. right. exact Hy.
Qed.

Lemma Sorted_skipn {A} (R : A -> A -> Prop) (n : nat) (l : list A) :
  Sorted R l -> Sorted R (skipn n l).
Proof.
  revert l. induction n as [|n IH]; intros l Hs; [exact Hs|].
  destruct l as [|a l]; simpl; [constructor|].
  apply IH. inversion Hs; assumption.
Qed.

Lemma Sorted_firstn {A} (R : A -> A -> Prop) (n : nat) (l : list A) :
  Sorted R l -> Sorted R (firstn n l).
Proof.
  revert l. induction n as [|n IH]; intros l Hs; simpl; [constructor|].
  destruct l as [|a l]; [constructor|].
  inversion Hs as [|? ? Hl Hhd]; subst. constructor; [apply IH; exact Hl|].
  destruct n; simpl; [constructor|].
  destruct l as [|b l]; [constructor|].
  inversion Hhd; subst. constructor. assumption.
Qed.

Lemma validate_id (id : string) :
  id <> "" -> Middleware.validate Zod.idSchema id = inr id.
Proof.
  intros H. unfold Middleware.validate, Zod.idSchema, Zod.string_min1.
  destruct id; [congruence | reflexivity].
Qed.

Section TaskExtras.
Context {RT : Runtime} {CR : Crypto}.

Lemma ownedById_matches caller id t :
  Task._id t = id -> Task.user t = caller ->
  Mongo.matches (TaskService.ownedById caller id) t = true.
Proof.
  intros <- <-. unfold Mongo.matches. simpl. rewrite !String.eqb_refl.
  reflexivity.
Qed.

Lemma ownedById_other_id caller id t :
  Task._id t <> id ->
  Mongo.matches (TaskService.ownedById caller id) t = false.
Proof.
  intros H. unfold Mongo.matches. simpl.
  destruct (String.eqb_spec (Task._id t) id); [contradiction|]. reflexivity.
Qed.

Lemma removeFirst_spec (f : Mongo.Filter) (db : Tasks) (t : Task.Doc) :
  List.find (Mongo.matches f) db = Some t ->
  exists l1 l2,
    db = l1 ++ t :: l2
    /\ (forall x, In x l1 -> Mongo.matches f x = false)
    /\ Mongo.removeFirst f db = l1 ++ l2.
Proof.
  induction db as [|a r IH]; simpl; [discriminate|].
  destruct (Mongo.matches f a) eqn:E.
  - intros H; injection H as <-. exists [], r. simpl. repeat split.
    intros x [].
  - intros H. destruct (IH H) as (l1 & l2 & -> & Hl1 & Hr).
    exists (a :: l1), l2. simpl. rewrite Hr. repeat split.
    intros x [<-|Hx]; [exact E | apply Hl1; exact Hx].
Qed.

Lemma updateFirst_ids (f : Mongo.Filter) (upd : Task.Doc -> Task.Doc)
  (db : Tasks) :
  (forall t, Task._id (upd t) = Task._id t) ->
  (forall t, Task.user (upd t) = Task.user t) ->
  map Task._id (snd (Mongo.updateFirst f upd db)) = map Task._id db
  /\ map Task.user (snd (Mongo.updateFirst f upd db)) = map Task.user db.
Proof.
  intros Hid Hu. induction db as [|a r [IH1 IH2]]; simpl; [auto|].
  destruct (Mongo.matches f a); simpl.
  - rewrite Hid, Hu. auto.
  - destruct (Mongo.updateFirst f upd r) as [o r']. simpl in *.
    rewrite IH1, IH2. auto.
Qed.

Lemma removeFirst_NoDup (f : Mongo.Filter) (db : Tasks) :
  NoDup (map Task._id db) -> NoDup (map Task._id (Mongo.removeFirst f db)).
Proof.
  induction db as [|a r IH]; simpl; intros H; [exact H|].
  inversion H as [|? ? Hn Hr]; subst.
  destruct (Mongo.matches f a); [exact Hr|]. simpl. constructor.
  - intros Hin. apply Hn. apply in_map_iff in Hin.
    destruct Hin as (x & Hx & Hin). rewrite <- Hx. apply in_map.
    apply (removeFirst_sub f r x Hin).
  - apply IH. exact Hr.
Qed.

(** X1.  A created task can be read back.  When [POST /tasks] answers
    201 with a task, the id given to it being a fresh ObjectId, the
    same caller's [GET /tasks/:id] with the id of that task answers 200
    with that very task. *)
Theorem post_then_get (now now' : Instant) (oid : ObjectId)
  (authorization : option string) (caller : AuthUser.t) (body : Json.Body)
  (db db' : Tasks) (doc : Task.Doc) :
  Middleware.requireAuth now authorization = inr caller ->
  Middleware.requireAuth now' authorization = inr caller ->
  TaskRoutes.post_task now oid authorization body db
  = (Ok {| Http.status := 201; Http.body := Http.TaskBody doc |}, db') ->
  isObjectId oid = true ->
  oid <> "" ->
  ~ In oid (map Task._id db) ->
  TaskRoutes.get_task now' authorization (Task._id doc) db'
  = Ok (Http.json (Http.TaskBody doc)).
Proof.
  intros Hauth Hauth' Hpost Hoid Hne Hfresh.
  unfold TaskRoutes.post_task in Hpost. rewrite Hauth in Hpost.
  destruct (Middleware.validate Zod.createTaskSchema body) as [r0|b] eqn:Hv.
  { unfold Middleware.validate in Hv.
    destruct (Zod.createTaskSchema body); [discriminate|].
    injection Hv as <-. discriminate Hpost. }
  unfold TaskController.create in Hpost.
  destruct (TaskService.createTask now oid (AuthUser.id caller) b db)
    as [[d|e] db1] eqn:Hc; [|discriminate].
  injection Hpost as -> ->.
  assert (Hvalid : isObjectId (AuthUser.id caller) = true).
  { unfold TaskService.createTask in Hc.
    destruct (Js.truthy _) in Hc; simpl in Hc;
      [destruct (isObjectId (AuthUser.id caller)); [reflexivity|discriminate]
      | discriminate]. }
  destruct (createTask_owner _ _ _ _ _ _ _ Hc) as (Hu & Hid & ->).
  unfold TaskRoutes.get_task. rewrite Hauth', Hid, (validate_id oid Hne).
  unfold TaskController.get, TaskService.getTask, Mongo.findOne, Mongo.castable.
  simpl. rewrite Hoid, Hvalid. simpl.
  rewrite find_app_last; [reflexivity | |].
  - intros y Hy. apply ownedById_other_id. intros E. apply Hfresh.
    rewrite <- E. apply in_map. exact Hy.
  - apply ownedById_matches; assumption.
Qed.

(** X2.  Deleting one's own task removes that task and nothing else.
    For a task [t] that [getTask] finds for the caller, ids being
    unique: [DELETE /tasks/:id] answers 204, the collection afterwards
    holds exactly the other documents, in their order, and the caller's
    [GET /tasks/:id] answers 404. *)
Theorem delete_own_task (now : Instant) (authorization : option string)
  (caller : AuthUser.t) (id : string) (db : Tasks) (t : Task.Doc) :
  Middleware.requireAuth now authorization = inr caller ->
  NoDup (map Task._id db) ->
  id <> "" ->
  TaskService.getTask (AuthUser.id caller) id db = Ok (Some t) ->
  exists l1 l2,
    db = l1 ++ t :: l2
    /\ TaskRoutes.delete_task now authorization id db
       = (Ok {| Http.status := 204; Http.body := Http.Empty |}, l1 ++ l2)
    /\ ~ In id (map Task._id (l1 ++ l2))
    /\ TaskRoutes.get_task now authorization id (l1 ++ l2)
       = Ok TaskController.notFound.
Proof.
  intros Hauth Hnd Hne Hget.
  unfold TaskService.getTask in Hget. apply findOne_In in Hget.
  destruct Hget as (Hc & Hf & Hin & Hm).
  destruct (removeFirst_spec _ _ _ Hf) as (l1 & l2 & Hdb & Hl1 & Hr).
  assert (Hid : Task._id t = id) by (eapply matches_id; [|exact Hm]; reflexivity).
  assert (Hgone : ~ In id (map Task._id (l1 ++ l2))).
  { rewrite Hdb, map_app in Hnd. simpl in Hnd.
    apply NoDup_remove_2 in Hnd. rewrite Hid in Hnd. rewrite map_app. exact Hnd. }
  exists l1, l2. split; [exact Hdb|]. split; [|split; [exact Hgone|]].
  - unfold TaskRoutes.delete_task. rewrite Hauth, (validate_id id Hne).
    unfold TaskController.remove, TaskService.deleteTask, Mongo.findOneAndDelete.
    rewrite Hc, Hr. reflexivity.
  - unfold TaskRoutes.get_task. rewrite Hauth, (validate_id id Hne).
    unfold TaskController.get, TaskService.getTask, Mongo.findOne.
    rewrite Hc.
    assert (Hnone : List.find
              (Mongo.matches (TaskService.ownedById (AuthUser.id caller) id))
              (l1 ++ l2) = None).
    { apply find_none_iff. intros x Hx. apply ownedById_other_id.
      intros E. apply Hgone. rewrite <- E. apply in_map. exact Hx. }
    rewrite Hnone. reflexivity.
Qed.

(** X3.  Another user's task, or no task, is not found.  The id of the
    request and the id of the caller are hex strings as [toHexString]
    gives them, so that comparing them with stored ids is comparing
    ObjectIds.  When no stored task with the id is the caller's,
    [GET /tasks/:id] answers 404, and [PATCH /tasks/:id] with a body
    that passes its schema answers 404 and leaves the collection as it
    was. *)
Theorem foreign_task_not_found (now : Instant) (authorization : option string)
  (caller : AuthUser.t) (id : string) (db : Tasks) :
  Middleware.requireAuth now authorization = inr caller ->
  isObjectId (AuthUser.id caller) = true ->
  isObjectId id = true ->
  Mongo.canonical (AuthUser.id caller) = true ->
  Mongo.canonical id = true ->
  (forall t, In t db -> Task._id t = id -> Task.user t <> AuthUser.id caller) ->
  TaskRoutes.get_task now authorization id db = Ok TaskController.notFound
  /\ (forall body patch,
      Zod.updateTaskSchema body = Some patch ->
      TaskRoutes.patch_task now authorization id body db
      = (Ok TaskController.notFound, db)).
Proof.
  intros Hauth Hc Hi _ Hcanon Hforeign.
  assert (Hne : id <> "") by (intros ->; discriminate Hcanon).
  assert (Hnone : List.find
            (Mongo.matches (TaskService.ownedById (AuthUser.id caller) id)) db
          = None).
  { apply find_none_iff. apply ownedById_foreign. exact Hforeign. }
  split.
  - unfold TaskRoutes.get_task. rewrite Hauth, (validate_id id Hne).
    unfold TaskController.get, TaskService.getTask, Mongo.findOne,
      Mongo.castable. simpl. rewrite Hc, Hi. simpl. rewrite Hnone. reflexivity.
  - intros body patch Hb. unfold TaskRoutes.patch_task.
    rewrite Hauth, (validate_id id Hne). unfold Middleware.validate.
    rewrite Hb.
    unfold TaskController.patch, TaskService.updateTask,
      Mongo.findOneAndUpdate, Mongo.castable. simpl. rewrite Hc, Hi. simpl.
    rewrite (updateFirst_none _ _ _ Hnone). reflexivity.
Qed.

End TaskExtras.

Section TaskRefusals.
Context {RT : Runtime} {CR : Crypto}.

(** X4.  No handler runs without a valid bearer token.  [requireAuth]
    answers 401 when the header is absent, when it does not start with
    ["Bearer "], and when the token does not verify; whenever it
    refuses, each of the five task routes answers that 401 and leaves
    the collection as it was. *)
Theorem unauthorized_requests :
  (forall now, Middleware.requireAuth now None = inl Middleware.unauthorized)
  /\ (forall now h,
      Js.startsWith "Bearer " h = false ->
      Middleware.requireAuth now (Some h) = inl Middleware.unauthorized)
  /\ (forall now h,
      jwt_verify (Js.slice 7 h) now = None ->
      Middleware.requireAuth now (Some h) = inl Middleware.unauthorized)
  /\ (forall now authorization r,
      Middleware.requireAuth now authorization = inl r ->
      r = Middleware.unauthorized
      /\ (forall query db,
          TaskRoutes.get_tasks now authorization query db = Ok r)
      /\ (forall id db, TaskRoutes.get_task now authorization id db = Ok r)
      /\ (forall oid body db,
          TaskRoutes.post_task now oid authorization body db = (Ok r, db))
      /\ (forall id body db,
          TaskRoutes.patch_task now authorization id body db = (Ok r, db))
      /\ (forall id db,
          TaskRoutes.delete_task now authorization id db = (Ok r, db))).
Proof.
  split; [reflexivity|]. split; [|split].
  - intros now h H. unfold Middleware.requireAuth. rewrite H.
    rewrite orb_true_r. reflexivity.
  - intros now h H. unfold Middleware.requireAuth.
    destruct (negb (Js.truthy h) || negb (Js.startsWith "Bearer " h));
      [reflexivity|].
    change (String.length "Bearer ") with 7%nat. rewrite H. reflexivity.
  - intros now authorization r H. split.
    + unfold Middleware.requireAuth in H.
      destruct authorization as [h|]; [|congruence].
      destruct (negb (Js.truthy h) || negb (Js.startsWith "Bearer " h));
        [congruence|].
      destruct (jwt_verify _ now); [discriminate | congruence].
    + unfold TaskRoutes.get_tasks, TaskRoutes.get_task, TaskRoutes.post_task,
        TaskRoutes.patch_task, TaskRoutes.delete_task, TaskRoutes.sent.
      rewrite H. repeat split.
Qed.

(** X5.  A malformed body is refused before the service.  For an
    authenticated caller, [POST /tasks] answers 400 and stores nothing
    when the title is absent or empty, when the priority is none of
    low, medium and high, or when the due date is no ISO date-time;
    [PATCH /tasks/:id] answers 400 and changes nothing for an empty
    title, such a priority or such a due date. *)
Theorem malformed_body_refused (now : Instant) (authorization : option string)
  (caller : AuthUser.t) (body : Json.Body) :
  Middleware.requireAuth now authorization = inr caller ->
  (forall oid db,
      (Json.title body = None
       \/ Json.title body = Some ""
       \/ (exists p, Json.priority body = Some p /\ Priority_of_string p = None)
       \/ (exists d, Json.dueDate body = Some d /\ isDatetime d = false)) ->
      TaskRoutes.post_task now oid authorization body db
      = (Ok {| Http.status := 400; Http.body := Http.ErrorBody "ValidationError" |},
         db))
  /\ (forall id db,
      (Json.title body = Some ""
       \/ (exists p, Json.priority body = Some p /\ Priority_of_string p = None)
       \/ (exists d, Json.dueDate body = Some d /\ isDatetime d = false)) ->
      TaskRoutes.patch_task now authorization id body db
      = (Ok {| Http.status := 400; Http.body := Http.ErrorBody "ValidationError" |},
         db)).
Proof.
  intros Hauth. split.
  - intros oid db Hbad.
    assert (Hc : Zod.createTaskSchema body = None).
    { unfold Zod.createTaskSchema.
      destruct Hbad as [Ht|[Ht|[(p & Hp & Hn)|(d & Hd & Hn)]]].
      - rewrite Ht. reflexivity.
      - rewrite Ht. reflexivity.
      - rewrite Hp. unfold Zod.default, Zod.priority_enum. rewrite Hn.
        destruct (match Json.title body with
                  | Some s => Zod.string_min1 s
                  | None => None
                  end); [|reflexivity].
        destruct (Zod.optional Zod.string_ (Json.description body)); reflexivity.
      - rewrite Hd. unfold Zod.optional at 2. unfold Zod.datetime. rewrite Hn.
        destruct (match Json.title body with
                  | Some s => Zod.string_min1 s
                  | None => None
                  end); [|reflexivity].
        destruct (Zod.optional Zod.string_ (Json.description body));
          [|reflexivity].
        destruct (Zod.default Zod.priority_enum medium (Json.priority body))
          as [[?|]|]; reflexivity. }
    unfold TaskRoutes.post_task, Middleware.validate.
    rewrite Hauth, Hc. reflexivity.
  - intros id db Hbad.
    assert (Hu : Zod.updateTaskSchema body = None).
    { unfold Zod.updateTaskSchema.
      destruct Hbad as [Ht|[(p & Hp & Hn)|(d & Hd & Hn)]].
      - rewrite Ht. reflexivity.
      - rewrite Hp. unfold Zod.optional at 3. unfold Zod.priority_enum.
        rewrite Hn.
        destruct (Zod.optional Zod.string_min1 (Json.title body));
          [|reflexivity].
        destruct (Zod.optional Zod.string_ (Json.description body));
          reflexivity.
      - rewrite Hd. unfold Zod.optional at 4. unfold Zod.datetime. rewrite Hn.
        destruct (Zod.optional Zod.string_min1 (Json.title body));
          [|reflexivity].
        destruct (Zod.optional Zod.string_ (Json.description body));
          [|reflexivity].
        destruct (Zod.optional Zod.priority_enum (Json.priority body));
          reflexivity. }
    unfold TaskRoutes.patch_task, Middleware.validate.
    rewrite Hauth, Hu.
    destruct (Zod.idSchema id); reflexivity.
Qed.

End TaskRefusals.

Section TaskPages.
Context {RT : Runtime}.

Lemma trimStart_blank (s : string) :
  Str.blank s = true -> Js.trimStart s = "".
Proof.
  unfold Str.blank. destruct (Js.trimStart s); [reflexivity|discriminate].
Qed.

Lemma trim_blank (s : string) : Str.blank s = true -> Js.trim s = "".
Proof.
  intros H. unfold Js.trim. rewrite (trimStart_blank s H). reflexivity.
Qed.

Lemma trimStart_nil_blank (s : string) :
  Js.trimStart s = "" -> Str.blank s = true.
Proof. unfold Str.blank. intros ->. reflexivity. Qed.

(** [trimStart] either leaves its argument alone or goes on with a
    shorter one. *)
Lemma trimStart_cases (s : string) :
  Js.trimStart s = s
  \/ exists r,
      (String.length r < String.length s)%nat
      /\ Js.trimStart s = Js.trimStart r.
Proof.
  destruct s as [|a r]; [left; reflexivity|].
  cbn [Js.trimStart]. destruct (Js.is_space a).
  { right. exists r. split; [simpl; lia | reflexivity]. }
  destruct r as [|b r2]; [left; reflexivity|].
  destruct (Js.is_space2 a b).
  { right. exists r2. split; [simpl; lia | reflexivity]. }
  destruct r2 as [|c r3]; [left; reflexivity|].
  destruct (Js.is_space3 a b c).
  { right. exists r3. split; [simpl; lia | reflexivity]. }
  left. reflexivity.
Qed.

Lemma trimStart_idem (s : string) :
  Js.trimStart (Js.trimStart s) = Js.trimStart s.
Proof.
  assert (H : forall n s, (String.length s <= n)%nat ->
                          Js.trimStart (Js.trimStart s) = Js.trimStart s).
  { clear s. induction n as [|n IH]; intros s Hn.
    - destruct s; [reflexivity | simpl in Hn; lia].
    - destruct (trimStart_cases s) as [E | (r & Hr & E)].
      + rewrite E. exact E.
      + rewrite E. apply IH. lia. }
  apply (H (String.length s)). lia.
Qed.

Lemma trimEnd_cons (c : ascii) (r : string) :
  Js.trimEnd (String c r)
  = match Js.trimStart (String c r) with
    | EmptyString => EmptyString
    | String _ _ => String c (Js.trimEnd r)
    end.
Proof. reflexivity. Qed.

Lemma trimEnd_nil_blank (s : string) :
  Js.trimEnd s = "" -> Str.blank s = true.
Proof.
  destruct s as [|c r]; [reflexivity|].
  rewrite trimEnd_cons. unfold Str.blank.
  destruct (Js.trimStart (String c r)); [reflexivity | discriminate].
Qed.

Lemma blank_trimStart (s : string) :
  Str.blank (Js.trimStart s) = true -> Str.blank s = true.
Proof. unfold Str.blank. rewrite trimStart_idem. auto. Qed.

Lemma trim_length_blank (s : string) :
  (0 <? String.length (Js.trim s))%nat = negb (Str.blank s).
Proof.
  destruct (Str.blank s) eqn:E.
  - rewrite (trim_blank s E). reflexivity.
  - destruct (Js.trim s) eqn:T; [|reflexivity].
    unfold Js.trim in T. apply trimEnd_nil_blank, blank_trimStart in T.
    congruence.
Qed.

Lemma trim_not_blank (s : string) :
  Str.blank s = false -> Js.trim s <> "" /\ Js.truthy (Js.trim s) = true.
Proof.
  intros H. pose proof (trim_length_blank s) as L. rewrite H in L.
  destruct (Js.trim s); [discriminate L|]. split; [discriminate | reflexivity].
Qed.

Lemma listTasks_shape (userId : ObjectId) (query : Query.t) (db : Tasks)
  (p : TaskService.Page) :
  TaskService.listTasks userId query db = Ok p ->
  let page := TaskService.or_default (Query.page query) 1 in
  let limit := TaskService.or_default (Query.limit query) 20 in
  let spec : Mongo.SortSpec :=
    (TaskService.or_default (Query.sort query) Sort.createdAt,
     match TaskService.or_default (Query.order query) Sort.desc with
     | Sort.asc => 1
     | Sort.desc => -1
     end) in
  let sorted :=
    Mongo.sort spec (Mongo.matching (TaskService.listFilter userId query) db) in
  0 <= (page - 1) * limit
  /\ TaskService.items p
     = Mongo.limit limit (skipn (Z.to_nat ((page - 1) * limit)) sorted)
  /\ TaskService.total p = Z.of_nat (List.length sorted).
Proof.
  unfold TaskService.listTasks, Mongo.find, Mongo.countDocuments, Mongo.skip.
  destruct (Mongo.castable _); [|discriminate].
  destruct (_ <? 0) eqn:E; [discriminate|].
  intros H; injection H as <-. simpl.
  apply Z.ltb_ge in E. split; [exact E|]. split; [reflexivity|].
  rewrite <- (Permutation_length (sort_perm _ _)). reflexivity.
Qed.

(** X6.  The size of a page.  When [listTasks] answers for a limit of
    at least one, the number of its items is the limit, or what is left
    of the matching tasks after the skipped ones when that is less; a
    page that starts at or after the total is empty. *)
Theorem page_size (userId : ObjectId) (query : Query.t) (db : Tasks)
  (p : TaskService.Page) :
  TaskService.listTasks userId query db = Ok p ->
  1 <= TaskService.limit p ->
  let skipped := (TaskService.page p - 1) * TaskService.limit p in
  Z.of_nat (List.length (TaskService.items p))
  = Z.max 0 (Z.min (TaskService.limit p) (TaskService.total p - skipped))
  /\ (TaskService.total p <= skipped -> TaskService.items p = []).
Proof.
  intros H Hlimit skipped.
  destruct (listTasks_shape _ _ _ _ H) as (Hskip & Hitems & Htotal).
  assert (Hpage : TaskService.page p
                  = TaskService.or_default (Query.page query) 1).
  { unfold TaskService.listTasks in H.
    destruct (Mongo.find _ db); [|discriminate].
    destruct (Mongo.countDocuments _ db); [|discriminate].
    destruct (Mongo.skip _ _); [|discriminate].
    injection H as <-. reflexivity. }
  assert (Hlim : TaskService.limit p
                 = TaskService.or_default (Query.limit query) 20).
  { unfold TaskService.listTasks in H.
    destruct (Mongo.find _ db); [|discriminate].
    destruct (Mongo.countDocuments _ db); [|discriminate].
    destruct (Mongo.skip _ _); [|discriminate].
    injection H as <-. reflexivity. }
  rewrite <- Hpage, <- Hlim in Hskip, Hitems. fold skipped in Hskip, Hitems.
  assert (Hlen : Z.of_nat (List.length (TaskService.items p))
                 = Z.max 0 (Z.min (TaskService.limit p)
                              (TaskService.total p - skipped))).
  { rewrite Hitems, Htotal. unfold Mongo.limit.
    destruct (TaskService.limit p =? 0) eqn:E0;
      [apply Z.eqb_eq in E0; lia|].
    rewrite length_firstn, length_skipn. lia. }
  split; [exact Hlen|].
  intros Hpast. destruct (TaskService.items p) as [|a l]; [reflexivity|].
  simpl List.length in Hlen. lia.
Qed.

(** X10.  The order of a page.  The items [listTasks] answers are in
    the requested order from first to last; with no [sort] and no
    [order] in the query, the creation instants never increase along
    the items (newest first). *)
Theorem page_order (userId : ObjectId) (query : Query.t) (db : Tasks)
  (p : TaskService.Page) :
  TaskService.listTasks userId query db = Ok p ->
  Sorted
    (Mongo.ordered
       (TaskService.or_default (Query.sort query) Sort.createdAt,
        match TaskService.or_default (Query.order query) Sort.desc with
        | Sort.asc => 1
        | Sort.desc => -1
        end))
    (TaskService.items p)
  /\ (Query.sort query = None -> Query.order query = None ->
      Sorted (fun a b => Task.createdAt b <= Task.createdAt a)
        (TaskService.items p)).
Proof.
  intros H. destruct (listTasks_shape _ _ _ _ H) as (_ & Hitems & _).
  assert (Hs : Sorted
    (Mongo.ordered
       (TaskService.or_default (Query.sort query) Sort.createdAt,
        match TaskService.or_default (Query.order query) Sort.desc with
        | Sort.asc => 1
        | Sort.desc => -1
        end))
    (TaskService.items p)).
  { rewrite Hitems. unfold Mongo.limit.
    destruct (_ =? 0); [|apply Sorted_firstn];
      apply Sorted_skipn; apply sort_sorted. }
  split; [exact Hs|].
  intros Hsort Horder. rewrite Hsort, Horder in Hs. simpl in Hs.
  revert Hs. generalize (TaskService.items p). intros l Hs.
  induction Hs as [|a l Hl IH Hhd]; constructor; [exact IH|].
  destruct Hhd as [|b l' Hab]; constructor.
  unfold Mongo.ordered, Mongo.before in Hab. simpl in Hab.
  apply Z.leb_le in Hab. exact Hab.
Qed.

End TaskPages.

Section TaskWriters.
Context {RT : Runtime} {CR : Crypto}.

(** X7.  The writers keep the ids unique and the owners fixed.  In a
    collection with unique ids: [createTask] under an id that is not
    stored leaves the ids unique; [updateTask] with any patch leaves the
    list of ids and the list of owners exactly as they were; [deleteTask]
    leaves the ids unique and adds no document. *)
Theorem writers_keep_ids (db : Tasks) :
  NoDup (map Task._id db) ->
  (forall now oid userId data r db',
      ~ In oid (map Task._id db) ->
      TaskService.createTask now oid userId data db = (r, db') ->
      NoDup (map Task._id db'))
  /\ (forall now userId id patch r db',
      TaskService.updateTask now userId id patch db = (r, db') ->
      map Task._id db' = map Task._id db
      /\ map Task.user db' = map Task.user db)
  /\ (forall userId id r db',
      TaskService.deleteTask userId id db = (r, db') ->
      NoDup (map Task._id db') /\ incl db' db).
Proof.
  intros Hnd. split; [|split].
  - intros now oid userId data r db' Hfresh.
    unfold TaskService.createTask.
    destruct (Js.truthy _ && isObjectId userId);
      intros H; injection H as <- <-; [|exact Hnd].
    rewrite map_app. simpl.
    apply NoDup_app_remove_l with (l := []). simpl.
    apply Permutation_NoDup with (l := oid :: map Task._id db).
    + apply Permutation_cons_append.
    + constructor; assumption.
  - intros now userId id patch r db'.
    unfold TaskService.updateTask, Mongo.findOneAndUpdate.
    destruct (Mongo.castable _).
    + pose proof (updateFirst_ids (TaskService.ownedById userId id)
                    (TaskService.applyPatch now patch) db
                    (fun _ => eq_refl) (fun _ => eq_refl)) as Hids.
      destruct (Mongo.updateFirst _ _ db) as [o d]. simpl in Hids.
      intros H; injection H as <- <-. exact Hids.
    + intros H; injection H as <- <-. auto.
  - intros userId id r db'.
    unfold TaskService.deleteTask, Mongo.findOneAndDelete.
    destruct (Mongo.castable _); intros H; injection H as <- <-.
    + split; [apply removeFirst_NoDup; exact Hnd|].
      intros x Hx. apply (removeFirst_sub _ _ _ Hx).
    + split; [exact Hnd | apply incl_refl].
Qed.

(** X8.  A title of white space only passes the schema and is refused
    by the model.  For an authenticated caller and a body that passes
    [createTaskSchema] with such a title, [POST /tasks] answers no
    400: the handler rejects with Mongoose's ValidationError, which
    carries no status, and nothing is stored. *)
Theorem blank_title_rejected (now : Instant) (oid : ObjectId)
  (authorization : option string) (caller : AuthUser.t) (body : Json.Body)
  (data : Create.Body) (db : Tasks) :
  Middleware.requireAuth now authorization = inr caller ->
  Zod.createTaskSchema body = Some data ->
  Str.blank (Create.title data) = true ->
  TaskRoutes.post_task now oid authorization body db
  = (Throw (PlainError "ValidationError"), db).
Proof.
  intros Hauth Hbody Hblank.
  unfold TaskRoutes.post_task, Middleware.validate. rewrite Hauth, Hbody.
  unfold TaskController.create, TaskService.createTask. simpl.
  rewrite (trim_blank _ Hblank). reflexivity.
Qed.

(** X9.  What a body with a title alone creates.  For an authenticated
    caller whose id is an ObjectId and a title that is not blank,
    [POST /tasks] with [{ title }] answers 201 with a task of the
    caller under the fresh id, with the trimmed title, priority medium,
    not completed, no description, no due date, created and updated at
    the instant of the request, and appends it to the collection. *)
Theorem post_title_only (now : Instant) (oid : ObjectId)
  (authorization : option string) (caller : AuthUser.t) (title : string)
  (db : Tasks) :
  Middleware.requireAuth now authorization = inr caller ->
  isObjectId (AuthUser.id caller) = true ->
  Js.trim title <> "" ->
  let doc :=
    {| Task._id := oid; Task.user := AuthUser.id caller;
       Task.title := Js.trim title; Task.description := None;
       Task.priority := medium; Task.dueDate := None;
       Task.completed := false; Task.createdAt := now;
       Task.updatedAt := now |} in
  TaskRoutes.post_task now oid authorization
    {| Json.title := Some title; Json.description := None;
       Json.priority := None; Json.dueDate := None;
       Json.completed := None |} db
  = (Ok {| Http.status := 201; Http.body := Http.TaskBody doc |}, db ++ [doc]).
Proof.
  intros Hauth Hid Htitle doc.
  assert (Hne : title <> "") by (intros ->; apply Htitle; reflexivity).
  assert (Hmin : Zod.string_min1 title = Some title).
  { unfold Zod.string_min1. destruct title; [congruence | reflexivity]. }
  unfold TaskRoutes.post_task, Middleware.validate, Zod.createTaskSchema.
  rewrite Hauth. cbn [Json.title Json.description Json.priority Json.dueDate
                      Json.completed Zod.optional Zod.default].
  rewrite Hmin.
  unfold TaskController.create, TaskService.createTask.
  cbn [Create.title Create.description Create.priority Create.dueDate
       Create.completed option_map Task.title].
  rewrite (truthy_true _ Htitle), Hid. reflexivity.
Qed.

End TaskWriters.

(** Witnesses, on the sample collection. *)

Lemma post_then_get_witness :
  TaskRoutes.get_task (RT := Stub.runtime) (CR := Stub.crypto)
    7000 Sample.alice_header Sample.t5
    [Sample.D; Sample.task Sample.t5 Sample.alice_id "E" 6000]
  = Ok (Http.json (Http.TaskBody (Sample.task Sample.t5 Sample.alice_id "E" 6000))).
Proof.
  exact (post_then_get (RT := Stub.runtime) (CR := Stub.crypto)
           6000 7000 Sample.t5 Sample.alice_header Sample.alice
           Sample.titled_E [Sample.D]
           [Sample.D; Sample.task Sample.t5 Sample.alice_id "E" 6000]
           (Sample.task Sample.t5 Sample.alice_id "E" 6000)
           eq_refl eq_refl eq_refl eq_refl
           ltac:(discriminate) ltac:(simpl; intuition discriminate)).
Defined.

Lemma delete_own_task_witness :
  exists l1 l2,
    [Sample.D; Sample.A; Sample.B] = l1 ++ Sample.A :: l2
    /\ TaskRoutes.delete_task (RT := Stub.runtime) (CR := Stub.crypto)
         7000 Sample.alice_header Sample.t1 [Sample.D; Sample.A; Sample.B]
       = (Ok {| Http.status := 204; Http.body := Http.Empty |}, l1 ++ l2)
    /\ ~ In Sample.t1 (map Task._id (l1 ++ l2))
    /\ TaskRoutes.get_task (RT := Stub.runtime) (CR := Stub.crypto)
         7000 Sample.alice_header Sample.t1 (l1 ++ l2)
       = Ok TaskController.notFound.
Proof.
  apply (delete_own_task (RT := Stub.runtime) (CR := Stub.crypto)
           7000 Sample.alice_header Sample.alice Sample.t1
           [Sample.D; Sample.A; Sample.B] Sample.A).
  - reflexivity.
  - distinct_ids.
  - discriminate.
  - reflexivity.
Defined.

Lemma foreign_task_not_found_witness :
  TaskRoutes.get_task (RT := Stub.runtime) (CR := Stub.crypto)
    7000 Sample.bob_header Sample.t1 [Sample.D; Sample.A]
  = Ok TaskController.notFound
  /\ TaskRoutes.patch_task (RT := Stub.runtime) (CR := Stub.crypto)
       7000 Sample.bob_header Sample.t1 Sample.completed_true
       [Sample.D; Sample.A]
     = (Ok TaskController.notFound, [Sample.D; Sample.A]).
Proof.
  destruct (foreign_task_not_found (RT := Stub.runtime) (CR := Stub.crypto)
              7000 Sample.bob_header Sample.bob Sample.t1 [Sample.D; Sample.A])
    as [Hget Hpatch].
  - reflexivity.
  - reflexivity.
  - reflexivity.
  - reflexivity.
  - reflexivity.
  - intros t [<-|[<-|[]]] H; discriminate.
  - split; [exact Hget|]. apply (Hpatch Sample.completed_true _ eq_refl).
Defined.

Lemma unauthorized_requests_witness :
  TaskRoutes.delete_task (RT := Stub.runtime) (CR := Stub.crypto)
    7000 (Some "Basic YWxpY2U6c2VjcmV0") Sample.t1 [Sample.A]
  = (Ok Middleware.unauthorized, [Sample.A])
  /\ TaskRoutes.get_tasks (RT := Stub.runtime) (CR := Stub.crypto)
       7000 (Some "Bearer forged") Sample.second_of_three [Sample.A]
     = Ok Middleware.unauthorized.
Proof.
  destruct (unauthorized_requests (RT := Stub.runtime) (CR := Stub.crypto))
    as (_ & Hscheme & Htoken & Hroutes).
  split.
  - apply (Hroutes 7000 (Some "Basic YWxpY2U6c2VjcmV0") _
             (Hscheme 7000 "Basic YWxpY2U6c2VjcmV0" eq_refl)).
  - apply (Hroutes 7000 (Some "Bearer forged") _
             (Htoken 7000 "Bearer forged" eq_refl)).
Defined.

Lemma malformed_body_refused_witness :
  TaskRoutes.post_task (RT := Stub.runtime) (CR := Stub.crypto)
    7000 Sample.t5 Sample.alice_header Sample.completed_true [Sample.A]
  = (Ok {| Http.status := 400; Http.body := Http.ErrorBody "ValidationError" |},
     [Sample.A])
  /\ TaskRoutes.patch_task (RT := Stub.runtime) (CR := Stub.crypto)
       7000 Sample.alice_header Sample.t1
       {| Json.title := None; Json.description := None;
          Json.priority := Some "urgent"; Json.dueDate := None;
          Json.completed := None |} [Sample.A]
     = (Ok {| Http.status := 400; Http.body := Http.ErrorBody "ValidationError" |},
        [Sample.A]).
Proof.
  split.
  - apply (malformed_body_refused (RT := Stub.runtime) (CR := Stub.crypto)
             7000 Sample.alice_header Sample.alice Sample.completed_true
             eq_refl).
    left. reflexivity.
  - apply (malformed_body_refused (RT := Stub.runtime) (CR := Stub.crypto)
             7000 Sample.alice_header Sample.alice _ eq_refl).
    right. left. exists "urgent". split; reflexivity.
Defined.

Lemma page_size_witness :
  Z.of_nat (List.length [Sample.A]) = Z.max 0 (Z.min 2 (3 - (2 - 1) * 2))
  /\ (3 <= (2 - 1) * 2 -> [Sample.A] = []).
Proof.
  apply (page_size (RT := Stub.runtime) Sample.alice_id
           {| Query.search := None; Query.priority := None;
              Query.completed := None; Query.dueBefore := None;
              Query.dueAfter := None; Query.page := Some 2;
              Query.limit := Some 2; Query.sort := None;
              Query.order := None |}
           [Sample.D; Sample.A; Sample.B; Sample.C]
           {| TaskService.items := [Sample.A]; TaskService.page := 2;
              TaskService.limit := 2; TaskService.total := 3 |}).
  - reflexivity.
  - simpl. lia.
Defined.

Lemma page_order_witness :
  Sorted (fun a b => Task.createdAt b <= Task.createdAt a)
    [Sample.C; Sample.B; Sample.A].
Proof.
  apply (page_order (RT := Stub.runtime) Sample.alice_id
           {| Query.search := None; Query.priority := None;
              Query.completed := None; Query.dueBefore := None;
              Query.dueAfter := None; Query.page := None;
              Query.limit := None; Query.sort := None;
              Query.order := None |}
           [Sample.D; Sample.A; Sample.B; Sample.C]
           {| TaskService.items := [Sample.C; Sample.B; Sample.A];
              TaskService.page := 1; TaskService.limit := 20;
              TaskService.total := 3 |});
    reflexivity.
Defined.

Lemma writers_keep_ids_witness :
  map Task._id
    (snd (TaskService.updateTask (RT := Stub.runtime) 7000 Sample.alice_id
            Sample.t1
            {| Patch.title := Some "A2"; Patch.description := None;
               Patch.priority := Some high; Patch.dueDate := None;
               Patch.completed := None |} [Sample.D; Sample.A]))
  = [Sample.t4; Sample.t1]
  /\ NoDup
       (map Task._id
          (snd (TaskService.createTask (RT := Stub.runtime) 7000 Sample.t5
                  Sample.alice_id
                  {| Create.title := "E"; Create.description := None;
                     Create.priority := low; Create.dueDate := None;
                     Create.completed := false |} [Sample.D; Sample.A]))).
Proof.
  destruct (writers_keep_ids (RT := Stub.runtime) [Sample.D; Sample.A])
    as (Hcreate & Hupdate & _).
  - distinct_ids.
  - split.
    + eapply Hupdate. apply surjective_pairing.
    + eapply (Hcreate 7000 Sample.t5 Sample.alice_id).
      * simpl. intuition discriminate.
      * apply surjective_pairing.
Defined.

Lemma blank_title_rejected_witness :
  TaskRoutes.post_task (RT := Stub.runtime) (CR := Stub.crypto)
    7000 Sample.t5 Sample.alice_header
    {| Json.title := Some "   "; Json.description := None;
       Json.priority := None; Json.dueDate := None; Json.completed := None |}
    [Sample.A]
  = (Throw (PlainError "ValidationError"), [Sample.A]).
Proof.
  apply (blank_title_rejected (RT := Stub.runtime) (CR := Stub.crypto)
           7000 Sample.t5 Sample.alice_header Sample.alice _
           {| Create.title := "   "; Create.description := None;
              Create.priority := medium; Create.dueDate := None;
              Create.completed := false |} [Sample.A]);
    reflexivity.
Defined.

Lemma post_title_only_witness :
  TaskRoutes.post_task (RT := Stub.runtime) (CR := Stub.crypto)
    7000 Sample.t5 Sample.alice_header
    {| Json.title := Some (Cases.nbsp ++ " Buy milk " ++ Cases.bom)%string;
       Json.description := None;
       Json.priority := None; Json.dueDate := None; Json.completed := None |}
    [Sample.A]
  = (Ok {| Http.status := 201;
           Http.body :=
             Http.TaskBody (Sample.task Sample.t5 Sample.alice_id "Buy milk" 7000) |},
     [Sample.A; Sample.task Sample.t5 Sample.alice_id "Buy milk" 7000]).
Proof.
  apply (post_title_only (RT := Stub.runtime) (CR := Stub.crypto)
           7000 Sample.t5 Sample.alice_header Sample.alice
           (Cases.nbsp ++ " Buy milk " ++ Cases.bom)%string
           [Sample.A] eq_refl eq_refl).
  vm_compute. discriminate.
Defined.

(** ** Accounts: registration, login and the bearer token *)

Lemma substring_all (s : string) : String.substring 0 (String.length s) s = s.
Proof. induction s as [|c r IH]; simpl; [reflexivity | rewrite IH; reflexivity]. Qed.

Lemma prefix_nil (s : string) : String.prefix "" s = true.
Proof. destruct s; reflexivity. Qed.

Section AccountExtras.
Context {RT : Runtime} {CR : Crypto}.

Lemma register_inv now oid salt email pw name db s db' :
  AuthService.register now oid salt email pw name db = (Ok s, db') ->
  exists u,
    db' = db ++ [u]
    /\ s = AuthService.session now u
    /\ User._id u = oid
    /\ User.email u = UserStore.castEmail email
    /\ User.passwordHash u = bcrypt_hash pw salt
    /\ User.passwordResetTokenHash u = None
    /\ User.passwordResetExpires u = None
    /\ (forall v, In v db -> UserStore.byEmail email v = false).
Proof.
  unfold AuthService.register.
  destruct (UserStore.findOne (UserStore.byEmail email) db) eqn:Hf;
    [discriminate|].
  destruct (Js.truthy _); [|discriminate].
  intros H; injection H as <- <-. eexists. split; [reflexivity|].
  repeat split. apply find_none_iff. exact Hf.
Qed.

Lemma byEmail_cast email email' v :
  UserStore.castEmail email' = UserStore.castEmail email ->
  UserStore.byEmail email' v = UserStore.byEmail email v.
Proof. intros H. unfold UserStore.byEmail. rewrite H. reflexivity. Qed.

Lemma registered_found now oid salt email pw name db s db' email' :
  AuthService.register now oid salt email pw name db = (Ok s, db') ->
  UserStore.castEmail email' = UserStore.castEmail email ->
  exists u,
    UserStore.findOne (UserStore.byEmail email') db' = Some u
    /\ s = AuthService.session now u
    /\ User._id u = oid
    /\ User.passwordHash u = bcrypt_hash pw salt.
Proof.
  intros Hreg Hcast.
  destruct (register_inv _ _ _ _ _ _ _ _ _ Hreg)
    as (u & -> & Hs & Hid & Hemail & Hpw & _ & _ & Hnone).
  exists u. split; [|auto].
  apply find_app_last.
  - intros y Hy. rewrite (byEmail_cast _ _ _ Hcast). apply Hnone. exact Hy.
  - unfold UserStore.byEmail. rewrite Hemail, Hcast. apply String.eqb_refl.
Qed.

(** X11.  An email registers once.  After a successful [register], a
    second [register] with the same email, or with one that differs
    from it only in case and surrounding white space, throws
    EmailAlreadyExists (409) and stores nothing. *)
Theorem register_once (now : Instant) (oid : ObjectId) (salt email pw : string)
  (name : option string) (db : Users) (s : AuthService.Session) (db' : Users) :
  AuthService.register now oid salt email pw name db = (Ok s, db') ->
  forall now2 oid2 salt2 email2 pw2 name2,
    UserStore.castEmail email2 = UserStore.castEmail email ->
    AuthService.register now2 oid2 salt2 email2 pw2 name2 db'
    = (Throw (HttpError "EmailAlreadyExists" 409), db').
Proof.
  intros Hreg now2 oid2 salt2 email2 pw2 name2 Hcast.
  destruct (registered_found _ _ _ _ _ _ _ _ _ email2 Hreg Hcast)
    as (u & Hf & _).
  unfold AuthService.register. rewrite Hf. reflexivity.
Qed.

(** X12.  A registered account logs in.  After a successful [register],
    [login] with the same email (up to case and surrounding white
    space) and the same password answers the session of the new user,
    provided bcrypt accepts the password against the hash it made of
    it; with a password that bcrypt does not accept against that hash,
    [login] throws InvalidCredentials (401). *)
Theorem register_then_login (now : Instant) (oid : ObjectId)
  (salt email pw : string) (name : option string) (db : Users)
  (s : AuthService.Session) (db' : Users) :
  AuthService.register now oid salt email pw name db = (Ok s, db') ->
  bcrypt_compare pw (bcrypt_hash pw salt) = true ->
  forall now2 email2,
    UserStore.castEmail email2 = UserStore.castEmail email ->
    (exists s2,
        AuthService.login now2 email2 pw db' = Ok s2
        /\ AuthService.user s2 = AuthService.user s
        /\ AuthUser.id (AuthService.user s2) = oid)
    /\ (forall pw2,
        bcrypt_compare pw2 (bcrypt_hash pw salt) = false ->
        AuthService.login now2 email2 pw2 db'
        = Throw (HttpError "InvalidCredentials" 401)).
Proof.
  intros Hreg Hlaw now2 email2 Hcast.
  destruct (registered_found _ _ _ _ _ _ _ _ _ email2 Hreg Hcast)
    as (u & Hf & -> & Hid & Hpw).
  unfold AuthService.login. rewrite Hf, Hpw. split.
  - rewrite Hlaw. simpl. eexists. split; [reflexivity|]. split; [reflexivity|].
    exact Hid.
  - intros pw2 Hbad. rewrite Hbad. reflexivity.
Qed.

(** X13.  Registration keeps ids and emails unique.  In a collection
    whose ids and emails are pairwise distinct, a [register] under an
    id that is not stored leaves them pairwise distinct, whether it
    succeeds or throws. *)
Theorem register_keeps_unique (now : Instant) (oid : ObjectId)
  (salt email pw : string) (name : option string) (db : Users)
  (r : result AuthService.Session) (db' : Users) :
  NoDup (map User._id db) ->
  NoDup (map User.email db) ->
  ~ In oid (map User._id db) ->
  AuthService.register now oid salt email pw name db = (r, db') ->
  NoDup (map User._id db') /\ NoDup (map User.email db').
Proof.
  intros Hids Hemails Hfresh Hreg.
  destruct r as [s|e].
  - destruct (register_inv _ _ _ _ _ _ _ _ _ Hreg)
      as (u & -> & _ & Hid & Hemail & _ & _ & _ & Hnone).
    rewrite !map_app. simpl. split.
    + apply Permutation_NoDup with (l := User._id u :: map User._id db);
        [apply Permutation_cons_append|].
      constructor; [rewrite Hid; exact Hfresh | exact Hids].
    + apply Permutation_NoDup with (l := User.email u :: map User.email db);
        [apply Permutation_cons_append|].
      constructor; [|exact Hemails].
      intros Hin. apply in_map_iff in Hin. destruct Hin as (v & Hv & Hin).
      pose proof (Hnone v Hin) as Hb. unfold UserStore.byEmail in Hb.
      rewrite Hv, Hemail, String.eqb_refl in Hb. discriminate.
  - unfold AuthService.register in Hreg.
    destruct (UserStore.findOne _ db).
    + injection Hreg as _ <-. auto.
    + destruct (Js.truthy _); [discriminate|]. injection Hreg as _ <-. auto.
Qed.

(** X16.  The token of a login authenticates its user.  A session
    [login] answers is that of a stored user with the email; when the
    client puts its token in the [Authorization] header with
    [setAuthToken], and the token signed at the login is not empty and
    verifies at the time of the request to the payload it was signed
    from, [requireAuth] attaches that user's id, email and name to the
    request. *)
Theorem login_token_authenticates (now : Instant) (email pw : string)
  (db : Users) (s : AuthService.Session) (now' : Instant) :
  AuthService.login now email pw db = Ok s ->
  jwt_sign (AuthService.user s) now <> "" ->
  jwt_verify (jwt_sign (AuthService.user s) now) now' = Some (AuthService.user s) ->
  exists u,
    In u db
    /\ UserStore.byEmail email u = true
    /\ Middleware.requireAuth now'
         (Client.setAuthToken (Some (AuthService.token s)))
       = inr {| AuthUser.id := User._id u; AuthUser.email := User.email u;
                AuthUser.name := User.name u |}.
Proof.
  unfold AuthService.login.
  destruct (UserStore.findOne (UserStore.byEmail email) db) as [u|] eqn:Hf;
    [|discriminate].
  destruct (negb _); [discriminate|].
  intros H; injection H as <-.
  cbn [AuthService.user AuthService.token AuthService.session].
  intros Hne Hverify.
  apply find_some in Hf. destruct Hf as [Hin Hb].
  exists u. split; [exact Hin|]. split; [exact Hb|].
  unfold Client.setAuthToken, AuthService.signToken.
  set (t := jwt_sign _ now) in *.
  rewrite (truthy_true _ Hne). unfold Middleware.requireAuth.
  assert (Hstart : Js.startsWith "Bearer " ("Bearer " ++ t)%string = true).
  { unfold Js.startsWith. simpl. apply prefix_nil. }
  assert (Hslice : Js.slice (String.length "Bearer ") ("Bearer " ++ t)%string = t).
  { unfold Js.slice. simpl. rewrite Nat.sub_0_r. apply substring_all. }
  rewrite Hstart, Hslice, Hverify. reflexivity.
Qed.

End AccountExtras.

Section ResetExtras.
Context {RT : Runtime} {CR : Crypto}.

(** X14.  What a reset request touches.  For an email no user has,
    [requestPasswordReset] leaves the collection as it was.  For the
    email of a stored user (ids being unique), it replaces that user's
    document by one with the same id, email, password hash, name, theme
    and creation instant, stamped as updated at the instant of the
    request, and leaves every other document and the list of ids as
    they were. *)
Theorem request_reset_frame (t0 : Instant) (raw : string) (production : bool)
  (email : string) (db : Users) :
  NoDup (map User._id db) ->
  let db1 := snd (AuthService.requestPasswordReset t0 raw production email db) in
  (UserStore.findOne (UserStore.byEmail email) db = None -> db1 = db)
  /\ (forall u,
      UserStore.findOne (UserStore.byEmail email) db = Some u ->
      exists u1,
        (forall v, In v db1 <-> v = u1 \/ (In v db /\ User._id v <> User._id u))
        /\ map User._id db1 = map User._id db
        /\ User._id u1 = User._id u
        /\ User.email u1 = User.email u
        /\ User.passwordHash u1 = User.passwordHash u
        /\ User.name u1 = User.name u
        /\ User.themeBackgroundUrl u1 = User.themeBackgroundUrl u
        /\ User.createdAt u1 = User.createdAt u
        /\ User.updatedAt u1 = t0).
Proof.
  intros Hnd db1. split.
  - intros Hnone. unfold db1, AuthService.requestPasswordReset.
    rewrite Hnone. reflexivity.
  - intros u Hfind. unfold db1.
    rewrite (requestPasswordReset_found _ _ _ _ _ _ Hfind). simpl.
    set (u' := User.set_passwordResetExpires _ _).
    assert (Hin : In u db) by (apply find_some in Hfind; tauto).
    assert (Hid : In (User._id u') (map User._id db))
      by exact (in_map User._id db u Hin).
    exists (User.set_updatedAt t0 u').
    split; [intros v; apply (save_In t0 u' db Hnd Hid)|].
    split; [apply save_ids|]. repeat split.
Qed.

(** X15.  A reset password logs in.  When the raw token finds the user
    [u] that the email finds (ids being unique), [resetPassword]
    succeeds, and afterwards [login] with that email and the new
    password answers the session of [u], provided bcrypt accepts the
    new password against the hash it made of it; a password that bcrypt
    does not accept against that hash, the old one included, throws
    InvalidCredentials (401). *)
Theorem reset_then_login (now : Instant) (salt raw pw : string)
  (name : option string) (email : string) (db : Users) (u : User.Doc) :
  NoDup (map User._id db) ->
  UserStore.findOne (UserStore.byEmail email) db = Some u ->
  UserStore.findOne (UserStore.byResetToken (sha256_hex raw) now) db = Some u ->
  bcrypt_compare pw (bcrypt_hash pw salt) = true ->
  exists s db1,
    AuthService.resetPassword now salt raw pw name db = (Ok s, db1)
    /\ (forall now2, exists s2,
        AuthService.login now2 email pw db1 = Ok s2
        /\ AuthUser.id (AuthService.user s2) = User._id u
        /\ AuthService.user s2 = AuthService.user s)
    /\ (forall now2 pw2,
        bcrypt_compare pw2 (bcrypt_hash pw salt) = false ->
        AuthService.login now2 email pw2 db1
        = Throw (HttpError "InvalidCredentials" 401)).
Proof.
  intros Hnd Hemail Htoken Hlaw.
  destruct (resetPassword_finds now salt raw pw name db u Htoken)
    as (u' & Hrun & Hid & Hmail & Hpw & _ & _).
  assert (Hb : UserStore.byEmail email (User.set_updatedAt now u') = true).
  { pose proof (find_some _ _ Hemail) as [_ Hb].
    unfold UserStore.byEmail in *. simpl. rewrite Hmail. exact Hb. }
  pose proof (save_find now u' db _ u Hnd Hemail Hid Hb) as Hfound.
  exists (AuthService.session now u'), (UserStore.save now u' db).
  split; [exact Hrun|]. split.
  - intros now2. unfold AuthService.login, UserStore.findOne.
    rewrite Hfound. simpl. rewrite Hpw, Hlaw. simpl.
    eexists. split; [reflexivity|]. split; [exact Hid | reflexivity].
  - intros now2 pw2 Hbad. unfold AuthService.login, UserStore.findOne.
    rewrite Hfound. simpl. rewrite Hpw, Hbad. reflexivity.
Qed.

(** X17.  The auth controllers refuse a body with a missing field.
    [register] and [login] answer 400 when the email or the password is
    absent or empty, [forgot] when the email is, [reset] when the token
    or the password is; none of them reaches its service, and the
    collection is left as it was. *)
Theorem auth_missing_fields (body : AuthController.Body) (db : Users) :
  (AuthController.missing (AuthController.email body) = true
   \/ AuthController.missing (AuthController.password body) = true ->
   (forall now oid salt,
       AuthController.register now oid salt body db
       = (Ok AuthController.validationError, db))
   /\ (forall now,
       AuthController.login now body db = Ok AuthController.validationError))
  /\ (AuthController.missing (AuthController.email body) = true ->
      forall now raw production,
        AuthController.forgot now raw production body db
        = (Ok AuthController.validationError, db))
  /\ (AuthController.missing (AuthController.token body) = true
      \/ AuthController.missing (AuthController.password body) = true ->
      forall now salt,
        AuthController.reset now salt body db
        = (Ok AuthController.validationError, db)).
Proof.
  unfold AuthController.register, AuthController.login, AuthController.forgot,
    AuthController.reset.
  destruct body as [e p n t].
  cbn [AuthController.email AuthController.password AuthController.name
       AuthController.token].
  split; [|split].
  - intros H. split; intros;
      destruct e as [e|], p as [p|]; try reflexivity;
      destruct H as [H|H]; rewrite H; try reflexivity;
      rewrite orb_true_r; reflexivity.
  - intros H now raw production. destruct e as [e|]; [|reflexivity].
    rewrite H. reflexivity.
  - intros H now salt.
    destruct t as [t|], p as [p|]; try reflexivity;
      destruct H as [H|H]; rewrite H; try reflexivity;
      rewrite orb_true_r; reflexivity.
Qed.

End ResetExtras.

(** Witnesses, on the sample accounts. *)

Lemma register_once_witness :
  AuthService.register (RT := Stub.runtime) (CR := Stub.crypto)
    2000 "e0e000000000000000000002" "salt2" "  Erin@Example.com " "other"
    None
    (snd (AuthService.register (RT := Stub.runtime) (CR := Stub.crypto)
            1000 "e0e000000000000000000001" "salt" "erin@example.com"
            "secret12" None [Sample.carol]))
  = (Throw (HttpError "EmailAlreadyExists" 409),
     snd (AuthService.register (RT := Stub.runtime) (CR := Stub.crypto)
            1000 "e0e000000000000000000001" "salt" "erin@example.com"
            "secret12" None [Sample.carol])).
Proof.
  eapply (register_once (RT := Stub.runtime) (CR := Stub.crypto)
            1000 "e0e000000000000000000001" "salt" "erin@example.com"
            "secret12" None [Sample.carol]).
  - reflexivity.
  - reflexivity.
Defined.

Lemma register_then_login_witness :
  exists s2,
    AuthService.login (RT := Stub.runtime) (CR := Stub.crypto)
      2000 "ERIN@example.com" "secret12"
      (snd (AuthService.register (RT := Stub.runtime) (CR := Stub.crypto)
              1000 "e0e000000000000000000001" "salt" "erin@example.com"
              "secret12" None [Sample.carol]))
    = Ok s2
    /\ AuthUser.id (AuthService.user s2) = "e0e000000000000000000001".
Proof.
  destruct (register_then_login (RT := Stub.runtime) (CR := Stub.crypto)
              1000 "e0e000000000000000000001" "salt" "erin@example.com"
              "secret12" None [Sample.carol] _ _
              eq_refl eq_refl 2000 "ERIN@example.com" eq_refl)
    as [(s2 & Hlogin & _ & Hid) _].
  exists s2. split; [exact Hlogin | exact Hid].
Defined.

Lemma register_keeps_unique_witness :
  NoDup
    (map User.email
       (snd (AuthService.register (RT := Stub.runtime) (CR := Stub.crypto)
               1000 "e0e000000000000000000001" "salt" "erin@example.com"
               "secret12" None [Sample.carol; Sample.dave]))).
Proof.
  eapply (register_keeps_unique (RT := Stub.runtime) (CR := Stub.crypto)
            1000 "e0e000000000000000000001" "salt" "erin@example.com"
            "secret12" None [Sample.carol; Sample.dave]).
  - distinct_ids.
  - distinct_ids.
  - simpl. intuition discriminate.
  - apply surjective_pairing.
Defined.

Lemma login_token_authenticates_witness :
  exists u,
    In u [Sample.carol; Sample.dave]
    /\ UserStore.byEmail (RT := Stub.runtime) "carol@example.com" u = true
    /\ Middleware.requireAuth (CR := Cases.crypto) 9000
         (Some "Bearer jwt:ca701000000000000000000a")
       = inr {| AuthUser.id := User._id u; AuthUser.email := User.email u;
                AuthUser.name := User.name u |}.
Proof.
  exact (login_token_authenticates (RT := Stub.runtime) (CR := Cases.crypto)
           1000 "carol@example.com" "secret" [Sample.carol; Sample.dave]
           (AuthService.session (CR := Cases.crypto) 1000 Sample.carol)
           9000 eq_refl ltac:(discriminate) eq_refl).
Defined.

Lemma request_reset_frame_witness :
  snd (AuthService.requestPasswordReset (RT := Stub.runtime)
         (CR := Stub.crypto) 1000 "tok1" false "nobody@example.com"
         [Sample.carol; Sample.dave])
  = [Sample.carol; Sample.dave]
  /\ map User._id
       (snd (AuthService.requestPasswordReset (RT := Stub.runtime)
               (CR := Stub.crypto) 1000 "tok1" false "carol@example.com"
               [Sample.carol; Sample.dave]))
     = [Sample.carol_id; Sample.dave_id].
Proof.
  destruct (request_reset_frame (RT := Stub.runtime) (CR := Stub.crypto)
              1000 "tok1" false "nobody@example.com"
              [Sample.carol; Sample.dave]) as [Hnone _]; [distinct_ids|].
  destruct (request_reset_frame (RT := Stub.runtime) (CR := Stub.crypto)
              1000 "tok1" false "carol@example.com"
              [Sample.carol; Sample.dave]) as [_ Hsome]; [distinct_ids|].
  split; [apply Hnone; reflexivity|].
  destruct (Hsome Sample.carol eq_refl) as (u1 & _ & Hids & _).
  exact Hids.
Defined.

Lemma reset_then_login_witness :
  exists s db1,
    AuthService.resetPassword (CR := Stub.crypto) 2000 "salt9" "tok1"
      "brand-new" None [Sample.carol_requested; Sample.dave] = (Ok s, db1)
    /\ (exists s2,
        AuthService.login (RT := Stub.runtime) (CR := Stub.crypto)
          3000 "carol@example.com" "brand-new" db1 = Ok s2
        /\ AuthUser.id (AuthService.user s2) = Sample.carol_id)
    /\ AuthService.login (RT := Stub.runtime) (CR := Stub.crypto)
         3000 "carol@example.com" "secret" db1
       = Throw (HttpError "InvalidCredentials" 401).
Proof.
  destruct (reset_then_login (RT := Stub.runtime) (CR := Stub.crypto)
              2000 "salt9" "tok1" "brand-new" None "carol@example.com"
              [Sample.carol_requested; Sample.dave] Sample.carol_requested)
    as (s & db1 & Hrun & Hlogin & Hold).
  - distinct_ids.
  - reflexivity.
  - reflexivity.
  - reflexivity.
  - exists s, db1. split; [exact Hrun|]. split.
    + destruct (Hlogin 3000) as (s2 & H2 & Hid & _). exists s2. auto.
    + apply Hold. reflexivity.
Defined.

Lemma auth_missing_fields_witness :
  AuthController.login (RT := Stub.runtime) (CR := Stub.crypto) 1000
    {| AuthController.email := Some "carol@example.com";
       AuthController.password := Some ""; AuthController.name := None;
       AuthController.token := None |} [Sample.carol]
  = Ok AuthController.validationError
  /\ AuthController.reset (CR := Stub.crypto) 1000 "salt"
       {| AuthController.email := None;
          AuthController.password := Some "brand-new";
          AuthController.name := None; AuthController.token := None |}
       [Sample.carol_requested]
     = (Ok AuthController.validationError, [Sample.carol_requested]).
Proof.
  split.
  - destruct (auth_missing_fields (RT := Stub.runtime) (CR := Stub.crypto)
                {| AuthController.email := Some "carol@example.com";
                   AuthController.password := Some "";
                   AuthController.name := None;
                   AuthController.token := None |} [Sample.carol])
      as (H & _ & _).
    destruct (H (or_intror eq_refl)) as [_ Hlogin]. apply Hlogin.
  - destruct (auth_missing_fields (RT := Stub.runtime) (CR := Stub.crypto)
                {| AuthController.email := None;
                   AuthController.password := Some "brand-new";
                   AuthController.name := None;
                   AuthController.token := None |} [Sample.carol_requested])
      as (_ & _ & H).
    apply (H (or_introl eq_refl)).
Defined.

(** ** The profile and the theme *)

Section ThemeExtras.
Context {RT : Runtime}.

Lemma updateById_found (userId : ObjectId) (upd : User.Doc -> User.Doc)
  (db : Users) (u : User.Doc) :
  (forall v, User._id (upd v) = User._id v) ->
  List.find (UserController.byId userId) db = Some u ->
  exists db1,
    UserController.updateById userId upd db = (Some (upd u), db1)
    /\ List.find (UserController.byId userId) db1 = Some (upd u)
    /\ map User._id db1 = map User._id db.
Proof.
  intros Hid. induction db as [|a r IH]; simpl; [discriminate|].
  destruct (UserController.byId userId a) eqn:E.
  - intros H; injection H as <-. eexists. split; [reflexivity|]. simpl.
    unfold UserController.byId in *. rewrite Hid, E. auto.
  - intros H. destruct (IH H) as (db1 & Hu & Hf & Hids).
    rewrite Hu. eexists. split; [reflexivity|]. simpl.
    rewrite E, Hids. auto.
Qed.

Lemma updateById_none (userId : ObjectId) (upd : User.Doc -> User.Doc)
  (db : Users) :
  List.find (UserController.byId userId) db = None ->
  UserController.updateById userId upd db = (None, db).
Proof.
  induction db as [|a r IH]; simpl; [reflexivity|].
  destruct (UserController.byId userId a); [discriminate|].
  intros H. rewrite (IH H). reflexivity.
Qed.

(** X19.  A theme that is set is the theme that is read.  For a caller
    whose id is an ObjectId: without a file, [setTheme] answers 400 and
    changes nothing; for an id no user has, it answers 404 and changes
    nothing; for the id of a stored user, it answers 200 with the url
    [/uploads/themes/<file name>], keeps the list of ids, and [me]
    afterwards answers that user's id, email and name with the url as
    theme, trimmed as the schema of the model trims it. *)
Theorem theme_round_trip (now : Instant) (userId : ObjectId) (db : Users) :
  isObjectId userId = true ->
  UserController.setTheme now userId None db
  = (Ok {| UserController.status := 400;
           UserController.body :=
             UserController.ErrorBody "ValidationError"
               (Some "image file is required") |},
     db)
  /\ (forall filename,
      List.find (UserController.byId userId) db = None ->
      UserController.setTheme now userId (Some filename) db
      = (Ok UserController.notFound, db))
  /\ (forall filename u,
      List.find (UserController.byId userId) db = Some u ->
      exists db1,
        UserController.setTheme now userId (Some filename) db
        = (Ok {| UserController.status := 200;
                 UserController.body :=
                   UserController.ThemeBody ("/uploads/themes/" ++ filename) |},
           db1)
        /\ map User._id db1 = map User._id db
        /\ UserController.me userId db1
           = Ok {| UserController.status := 200;
                   UserController.body :=
                     UserController.ProfileBody
                       {| UserController.id := userId;
                          UserController.email := User.email u;
                          UserController.name := User.name u;
                          UserController.themeBackgroundUrl :=
                            Some (Js.trim ("/uploads/themes/" ++ filename)) |} |}).
Proof.
  intros Hoid. split; [reflexivity|]. split.
  - intros filename Hnone.
    unfold UserController.setTheme, UserController.findByIdAndUpdate.
    rewrite Hoid, (updateById_none _ _ _ Hnone). reflexivity.
  - intros filename u Hfind.
    destruct (updateById_found userId
                (UserController.set_themeBackgroundUrl now
                   ("/uploads/themes/" ++ filename)) db u
                (fun _ => eq_refl) Hfind) as (db1 & Hu & Hf & Hids).
    exists db1.
    unfold UserController.setTheme, UserController.findByIdAndUpdate.
    rewrite Hoid, Hu. split; [reflexivity|]. split; [exact Hids|].
    unfold UserController.me, UserController.findById. rewrite Hoid, Hf.
    simpl. apply find_some in Hfind. destruct Hfind as [_ Hb].
    unfold UserController.byId in Hb. apply String.eqb_eq in Hb.
    rewrite Hb. reflexivity.
Qed.

End ThemeExtras.

Lemma theme_round_trip_witness :
  exists db1,
    UserController.setTheme (RT := Stub.runtime) 5000 Sample.carol_id
      (Some "ca701000000000000000000a-5000.png") [Sample.carol; Sample.dave]
    = (Ok {| UserController.status := 200;
             UserController.body :=
               UserController.ThemeBody
                 "/uploads/themes/ca701000000000000000000a-5000.png" |}, db1)
    /\ UserController.me (RT := Stub.runtime) Sample.carol_id db1
       = Ok {| UserController.status := 200;
               UserController.body :=
                 UserController.ProfileBody
                   {| UserController.id := Sample.carol_id;
                      UserController.email := "carol@example.com";
                      UserController.name := None;
                      UserController.themeBackgroundUrl :=
                        Some "/uploads/themes/ca701000000000000000000a-5000.png" |} |}.
Proof.
  destruct (theme_round_trip (RT := Stub.runtime) 5000 Sample.carol_id
              [Sample.carol; Sample.dave] eq_refl) as (_ & _ & Hset).
  destruct (Hset "ca701000000000000000000a-5000.png" Sample.carol eq_refl)
    as (db1 & Hrun & _ & Hme).
  exists db1. split; [exact Hrun | exact Hme].
Defined.

(** ** The web client *)

Lemma length_replaceAll (a b : ascii) (s : string) :
  String.length (Str.replaceAll a b s) = String.length s.
Proof. induction s as [|c r IH]; simpl; [reflexivity | rewrite IH; reflexivity]. Qed.

Lemma length_repeat (c : ascii) (n : nat) : String.length (Str.repeat c n) = n.
Proof. induction n as [|n IH]; simpl; [reflexivity | rewrite IH; reflexivity]. Qed.

Lemma length_append (s t : string) :
  String.length (s ++ t)%string = (String.length s + String.length t)%nat.
Proof. induction s as [|c r IH]; simpl; [reflexivity | rewrite IH; reflexivity]. Qed.

Lemma get_append (s t : string) (n : nat) (c : ascii) :
  String.get n (s ++ t)%string = Some c ->
  (exists m, String.get m s = Some c) \/ (exists m, String.get m t = Some c).
Proof.
  revert n. induction s as [|a r IH]; simpl; intros n H.
  - right. exists n. exact H.
  - destruct n as [|n].
    + left. exists 0%nat. exact H.
    + destruct (IH n H) as [(m & Hm)|Ht]; [|right; exact Ht].
      left. exists (S m). exact Hm.
Qed.

Lemma get_repeat (c d : ascii) (n m : nat) :
  String.get m (Str.repeat c n) = Some d -> d = c.
Proof.
  revert m. induction n as [|n IH]; simpl; intros m H; [discriminate|].
  destruct m as [|m]; [congruence | apply (IH m H)].
Qed.

Lemma get_replaceAll (a b : ascii) (s : string) (m : nat) (d : ascii) :
  String.get m (Str.replaceAll a b s) = Some d ->
  (d = b \/ d <> a) /\ exists c, String.get m s = Some c /\ (d = c \/ (c = a /\ d = b)).
Proof.
  revert m. induction s as [|c r IH]; simpl; intros m H; [discriminate|].
  destruct m as [|m]; [|apply (IH m H)].
  injection H as <-. destruct (Ascii.eqb_spec c a) as [->|Hne].
  - split; [left; reflexivity|]. exists a. auto.
  - split; [right; exact Hne|]. exists c. auto.
Qed.

(** X22.  The argument of [atob] is padded base64.  For every payload
    part of a token, the string [App] gives to [atob] has a length that
    is a multiple of four, at most three characters longer than the
    part, and holds no ["-"] and no ["_"]. *)
Theorem padded_base64 (payloadB64 : string) :
  (String.length (Client.padded payloadB64) mod 4 = 0)%nat
  /\ (String.length payloadB64 <= String.length (Client.padded payloadB64)
      <= String.length payloadB64 + 3)%nat
  /\ (forall n c,
      String.get n (Client.padded payloadB64) = Some c ->
      c <> "-"%char /\ c <> "_"%char).
Proof.
  unfold Client.padded.
  set (normalized := Str.replaceAll "_" "/" (Str.replaceAll "-" "+" payloadB64)).
  assert (Hlen : String.length normalized = String.length payloadB64)
    by (unfold normalized; rewrite !length_replaceAll; reflexivity).
  rewrite length_append, length_repeat, Hlen.
  pose proof (Nat.mod_upper_bound (String.length payloadB64) 4 ltac:(lia)) as Hr.
  pose proof (Nat.div_mod_eq (String.length payloadB64) 4) as Hq.
  set (r := (String.length payloadB64 mod 4)%nat) in *.
  set (q := (String.length payloadB64 / 4)%nat) in *.
  assert (Hpad : ((4 - r) mod 4 = if Nat.eqb r 0 then 0 else 4 - r)%nat).
  { destruct r as [|[|[|[|r]]]]; reflexivity. }
  clearbody r q.
  split; [|split].
  - rewrite Hpad, Hq. destruct (Nat.eqb_spec r 0) as [->|Hne].
    + replace (4 * q + 0 + 0)%nat with (q * 4)%nat by lia.
      apply Nat.Div0.mod_mul.
    + replace (4 * q + r + (4 - r))%nat with ((q + 1) * 4)%nat by lia.
      apply Nat.Div0.mod_mul.
  - rewrite Hpad. destruct (Nat.eqb_spec r 0); lia.
  - intros n c H. apply get_append in H. destruct H as [(m & Hm)|(m & Hm)].
    + unfold normalized in Hm.
      apply get_replaceAll in Hm. destruct Hm as [Hc (d & Hd & Hrel)].
      apply get_replaceAll in Hd. destruct Hd as [Hd _].
      split.
      * destruct Hrel as [->|[-> ->]]; [|discriminate].
        destruct Hd as [->|Hd]; [discriminate | exact Hd].
      * destruct Hc as [->|Hc]; [discriminate | exact Hc].
    + apply get_repeat in Hm. subst c. split; discriminate.
Qed.

Lemma dropSuffix_app (suf o : string) : Str.dropSuffix suf (o ++ suf) = o.
Proof.
  induction o as [|c r IH].
  - cbn [append].
    destruct suf; cbn [Str.dropSuffix]; rewrite String.eqb_refl; reflexivity.
  - cbn [append Str.dropSuffix].
    destruct (String.eqb_spec (String c (r ++ suf)) suf) as [E|_].
    + exfalso. apply (f_equal String.length) in E. simpl in E.
      rewrite length_append in E. lia.
    + rewrite IH. reflexivity.
Qed.

Lemma dropSuffix_slash_api (o : string) :
  Str.dropSuffix "/" (o ++ "/api") = (o ++ "/api")%string.
Proof.
  induction o as [|c r IH]; [reflexivity|].
  cbn [append Str.dropSuffix].
  destruct (String.eqb_spec (String c (r ++ "/api")) "/") as [E|_].
  - exfalso. apply (f_equal String.length) in E. simpl in E.
    rewrite length_append in E. simpl in E. lia.
  - rewrite IH. reflexivity.
Qed.

Lemma append_assoc (a b c : string) :
  ((a ++ b) ++ c = a ++ (b ++ c))%string.
Proof. induction a as [|x a IH]; simpl; [reflexivity | rewrite IH; reflexivity]. Qed.

(** X23.  Where the client looks for an uploaded theme.  The origin
    [App] derives from an api url [<origin>/api], with or without a
    final slash, is [<origin>] (the default is
    [http://localhost:4000]); and the background it applies for the
    url [setTheme] answers, [/uploads/themes/<file name>], is
    [<origin>/uploads/themes/<file name>]. *)
Theorem theme_url_resolution (origin filename : string) :
  Client.uploadsOrigin (origin ++ "/api") = origin
  /\ Client.uploadsOrigin (origin ++ "/api/") = origin
  /\ Client.uploadsOrigin (Client.apiUrl None) = "http://localhost:4000"
  /\ Client.absolute (Client.uploadsOrigin (origin ++ "/api"))
       ("/uploads/themes/" ++ filename)
     = (origin ++ "/uploads/themes/" ++ filename)%string.
Proof.
  assert (H1 : Client.uploadsOrigin (origin ++ "/api") = origin).
  { unfold Client.uploadsOrigin. rewrite dropSuffix_slash_api.
    apply dropSuffix_app. }
  split; [exact H1|]. split; [|split].
  - unfold Client.uploadsOrigin.
    change (origin ++ "/api/")%string with (origin ++ ("/api" ++ "/"))%string.
    rewrite <- append_assoc, dropSuffix_app. apply dropSuffix_app.
  - reflexivity.
  - rewrite H1. reflexivity.
Qed.

(** X20.  An update keeps the list the client shows in step.  When
    [useTasks] replaces by the task the server answered, whose id is
    the id asked for, the ids of the list stay as they were, in their
    order, every entry with that id becomes the answered task, and
    every other entry is untouched. *)
Theorem client_update (id : string) (updated : Client.Task)
  (prev : list Client.Task) :
  Client._id updated = id ->
  map Client._id (Client.update id updated prev) = map Client._id prev
  /\ (forall n t,
      nth_error prev n = Some t ->
      nth_error (Client.update id updated prev) n
      = Some (if String.eqb (Client._id t) id then updated else t)).
Proof.
  intros Hid. unfold Client.update. split.
  - rewrite map_map. apply map_ext_in. intros t _.
    destruct (String.eqb_spec (Client._id t) id) as [E|_]; [|reflexivity].
    rewrite Hid, E. reflexivity.
  - intros n t H. rewrite nth_error_map, H. reflexivity.
Qed.

(** X21.  A removal takes the task out of the list the client shows,
    and only it.  After [remove] no entry has the id and the entries
    with other ids are kept in their order; adding a task and removing
    it again gives back a list that had no entry of its id. *)
Theorem client_remove (id : string) (prev : list Client.Task) :
  ~ In id (map Client._id (Client.remove id prev))
  /\ (forall t, Client._id t <> id ->
      (In t (Client.remove id prev) <-> In t prev))
  /\ (forall newTask,
      Client._id newTask = id ->
      ~ In id (map Client._id prev) ->
      Client.remove id (Client.add newTask prev) = prev).
Proof.
  split; [|split].
  - intros H. apply in_map_iff in H. destruct H as (t & Ht & Hin).
    apply filter_In in Hin. destruct Hin as [_ Hb].
    rewrite Ht, String.eqb_refl in Hb. discriminate.
  - intros t Hne. unfold Client.remove. rewrite filter_In.
    destruct (String.eqb_spec (Client._id t) id); [contradiction|].
    simpl. tauto.
  - intros newTask Hid Hfresh. unfold Client.remove, Client.add. simpl.
    rewrite Hid, String.eqb_refl. simpl.
    induction prev as [|a r IH]; [reflexivity|]. simpl in *.
    destruct (String.eqb_spec (Client._id a) id) as [E|_].
    + exfalso. apply Hfresh. left. exact E.
    + simpl. f_equal. apply IH. intros H. apply Hfresh. right. exact H.
Qed.

Lemma client_update_witness :
  map Client._id
    (Client.update "7a5c00000000000000000002"
       {| Client._id := "7a5c00000000000000000002"; Client.title := "B";
          Client.description := None; Client.priority := medium;
          Client.dueDate := None; Client.completed := true;
          Client.createdAt := None; Client.updatedAt := None |}
       [ {| Client._id := "7a5c00000000000000000001"; Client.title := "A";
            Client.description := None; Client.priority := low;
            Client.dueDate := None; Client.completed := false;
            Client.createdAt := None; Client.updatedAt := None |};
         {| Client._id := "7a5c00000000000000000002"; Client.title := "B";
            Client.description := None; Client.priority := medium;
            Client.dueDate := None; Client.completed := false;
            Client.createdAt := None; Client.updatedAt := None |} ])
  = ["7a5c00000000000000000001"; "7a5c00000000000000000002"].
Proof.
  destruct (client_update "7a5c00000000000000000002"
              {| Client._id := "7a5c00000000000000000002"; Client.title := "B";
                 Client.description := None; Client.priority := medium;
                 Client.dueDate := None; Client.completed := true;
                 Client.createdAt := None; Client.updatedAt := None |}
              [ {| Client._id := "7a5c00000000000000000001";
                   Client.title := "A"; Client.description := None;
                   Client.priority := low; Client.dueDate := None;
                   Client.completed := false; Client.createdAt := None;
                   Client.updatedAt := None |};
                {| Client._id := "7a5c00000000000000000002";
                   Client.title := "B"; Client.description := None;
                   Client.priority := medium; Client.dueDate := None;
                   Client.completed := false; Client.createdAt := None;
                   Client.updatedAt := None |} ] eq_refl) as [Hids _].
  exact Hids.
Defined.

Lemma client_remove_witness :
  Client.remove "7a5c00000000000000000002"
    (Client.add
       {| Client._id := "7a5c00000000000000000002"; Client.title := "B";
          Client.description := None; Client.priority := medium;
          Client.dueDate := None; Client.completed := false;
          Client.createdAt := None; Client.updatedAt := None |}
       [ {| Client._id := "7a5c00000000000000000001"; Client.title := "A";
            Client.description := None; Client.priority := low;
            Client.dueDate := None; Client.completed := false;
            Client.createdAt := None; Client.updatedAt := None |} ])
  = [ {| Client._id := "7a5c00000000000000000001"; Client.title := "A";
         Client.description := None; Client.priority := low;
         Client.dueDate := None; Client.completed := false;
         Client.createdAt := None; Client.updatedAt := None |} ].
Proof.
  destruct (client_remove "7a5c00000000000000000002"
              [ {| Client._id := "7a5c00000000000000000001";
                   Client.title := "A"; Client.description := None;
                   Client.priority := low; Client.dueDate := None;
                   Client.completed := false; Client.createdAt := None;
                   Client.updatedAt := None |} ]) as (_ & _ & Hround).
  apply Hround; [reflexivity|]. simpl. intuition discriminate.
Defined.

Lemma padded_base64_witness :
  Client.padded "eyJzdWIiOiJh-_8" = "eyJzdWIiOiJh+/8="
  /\ ("="%char <> "-"%char /\ "="%char <> "_"%char).
Proof.
  split; [reflexivity|].
  destruct (padded_base64 "eyJzdWIiOiJh-_8") as (_ & _ & Hchars).
  apply (Hchars 15%nat). reflexivity.
Defined.

(** ** The server's cross-origin setting *)

Lemma filter_all_false {A} (f : A -> bool) (l : list A) :
  (forall x, In x l -> f x = false) -> filter f l = [].
Proof.
  induction l as [|a l IH]; intros H; simpl; [reflexivity|].
  rewrite (H a (or_introl eq_refl)). apply IH.
  intros x Hx. apply H. right. exact Hx.
Qed.

(** X24.  The origins the server allows.  With [CORS_ORIGIN] unset or
    empty, and also when every part between its commas is white space,
    every origin is allowed.  Otherwise, that is when some part is not
    white space, the allowed origins are a list, not empty, whose
    members are exactly the trimmed parts that are not empty.  Nothing
    else is ever allowed: a list that is given is such a list. *)
Theorem cors_origins (CORS_ORIGIN : option string) :
  (CORS_ORIGIN = None \/ CORS_ORIGIN = Some "" ->
   App.corsOrigin CORS_ORIGIN = App.AllowAll)
  /\ (forall s,
      CORS_ORIGIN = Some s ->
      (forall part, In part (Str.split "," s) -> Str.blank part = true) ->
      App.corsOrigin CORS_ORIGIN = App.AllowAll)
  /\ (forall s,
      CORS_ORIGIN = Some s ->
      (exists part, In part (Str.split "," s) /\ Str.blank part = false) ->
      exists l,
        App.corsOrigin CORS_ORIGIN = App.AllowList l
        /\ l <> []
        /\ (forall o,
            In o l <->
            o <> "" /\ exists part, In part (Str.split "," s) /\ o = Js.trim part))
  /\ (forall l,
      App.corsOrigin CORS_ORIGIN = App.AllowList l ->
      l <> []
      /\ exists s,
          CORS_ORIGIN = Some s
          /\ forall o, In o l ->
               o <> ""
               /\ exists part, In part (Str.split "," s) /\ o = Js.trim part).
Proof.
  split; [|split; [|split]].
  - intros [->| ->]; reflexivity.
  - intros s -> Hblank. unfold App.corsOrigin, App.origins.
    destruct (Js.truthy s); [|reflexivity].
    rewrite filter_all_false; [reflexivity|].
    intros x Hx. apply in_map_iff in Hx. destruct Hx as (part & <- & Hp).
    rewrite (trim_blank part (Hblank part Hp)). reflexivity.
  - intros s -> (part & Hp & Hnb).
    destruct (trim_not_blank part Hnb) as [Hne Ht].
    assert (Hs : Js.truthy s = true).
    { destruct s; [|reflexivity]. destruct Hp as [<-|[]]. discriminate Hnb. }
    assert (Hin : forall o,
               In o (filter Js.truthy (map Js.trim (Str.split "," s))) <->
               o <> "" /\ exists p, In p (Str.split "," s) /\ o = Js.trim p).
    { intros o. rewrite filter_In, in_map_iff. split.
      - intros [(p & <- & Hin) Hto]. split.
        + intros E. rewrite E in Hto. discriminate Hto.
        + exists p. auto.
      - intros [Ho (p & Hin & ->)]. split; [exists p; auto|].
        apply truthy_true. exact Ho. }
    unfold App.corsOrigin, App.origins. rewrite Hs.
    destruct (filter Js.truthy (map Js.trim (Str.split "," s)))
      as [|o r] eqn:E.
    + exfalso. apply (proj2 (Hin (Js.trim part))).
      split; [exact Hne | exists part; auto].
    + exists (o :: r). split; [reflexivity|]. split; [discriminate|exact Hin].
  - intros l. unfold App.corsOrigin, App.origins.
    destruct CORS_ORIGIN as [s|]; [|discriminate].
    destruct (Js.truthy s); [|discriminate].
    destruct (filter Js.truthy (map Js.trim (Str.split "," s)))
      as [|o r] eqn:E; [discriminate|].
    intros H; injection H as <-. split; [discriminate|].
    exists s. split; [reflexivity|]. intros x Hx. rewrite <- E in Hx.
    apply filter_In in Hx. destruct Hx as [Hin Ht].
    split.
    + intros ->. discriminate Ht.
    + apply in_map_iff in Hin. destruct Hin as (part & <- & Hp).
      exists part. auto.
Qed.

Lemma cors_origins_witness :
  App.corsOrigin (Some " , ,") = App.AllowAll
  /\ exists l,
      App.corsOrigin (Some "http://localhost:5173, https://tasks.example.com ,")
      = App.AllowList l
      /\ In "https://tasks.example.com" l.
Proof.
  split.
  - destruct (cors_origins (Some " , ,")) as (_ & Hblank & _).
    apply (Hblank " , ," eq_refl).
    vm_compute. intros part [<-|[<-|[<-|[]]]]; reflexivity.
  - destruct (cors_origins
                (Some "http://localhost:5173, https://tasks.example.com ,"))
      as (_ & _ & Hlist & _).
    destruct (Hlist _ eq_refl) as (l & Hl & _ & Hin).
    + exists " https://tasks.example.com ". split; [|vm_compute; reflexivity].
      vm_compute. right. left. reflexivity.
    + exists l. split; [exact Hl|]. apply Hin. split; [discriminate|].
      exists " https://tasks.example.com ". split; [|vm_compute; reflexivity].
      vm_compute. right. left. reflexivity.
Defined.

(** ** The maintenance scripts *)

Section ScriptExtras.
Context {RT : Runtime}.

(** X26.  Seeding inserts nothing.  The documents of [seed.ts] carry no
    [user], which the model requires, so [Task.insertMany] rejects
    them: on an empty collection the script exits with code 1 and the
    collection stays empty, on any other it skips and exits with 0.  In
    particular the collection [clear.ts] leaves, which is empty
    whatever it was, is still empty after seeding. *)
Theorem seed_inserts_nothing (now : Instant) (oids : list ObjectId)
  (db : Tasks) :
  snd (Scripts.seed now oids db) = db
  /\ (fst (Scripts.seed now oids db) = 1 <-> db = [])
  /\ (fst (Scripts.seed now oids db) = 0 <-> db <> [])
  /\ snd (Scripts.clear db) = []
  /\ Scripts.seed now oids (snd (Scripts.clear db)) = (1, []).
Proof.
  unfold Scripts.seed, Scripts.clear. simpl.
  destruct db as [|t r]; simpl;
    repeat split; try discriminate; try congruence.
Qed.

End ScriptExtras.

(** ** The task form against the server *)

Lemma Priority_round_trip (p : Priority) :
  Priority_of_string (Priority_str p) = Some p.
Proof. destruct p; reflexivity. Qed.

Section FormExtras.
Context {RT : Runtime}.
Variable toISOString : string -> string.

(** X25.  What the task form sends.  The form sends nothing exactly
    when its title is blank.  Otherwise it calls [onUpdate] with the id
    of the task being edited, or [onCreate] when none is, and the
    payload of an edit passes [updateTaskSchema] when its due date, if
    any, does.  The title goes out trimmed and not empty and the
    priority as one of the enum's strings.  The payload of an edit has
    no [completed]; whenever it passes [updateTaskSchema], [updateTask]
    with it leaves the [completed] of the task it finds as it was.  The
    payload of a creation has [completed] false. *)
Theorem form_submit (editingTask : option Client.Task) (f : Client.Form) :
  (Client.submit toISOString editingTask f = Client.Nothing
   <-> Str.blank (Client.f_title f) = true)
  /\ (forall id payload,
      Client.submit toISOString editingTask f = Client.OnUpdate id payload ->
      (exists t, editingTask = Some t /\ id = Client._id t)
      /\ Json.title payload = Some (Js.trim (Client.f_title f))
      /\ Js.trim (Client.f_title f) <> ""
      /\ Zod.optional Zod.priority_enum (Json.priority payload)
         = Some (Some (Client.f_priority f))
      /\ Json.completed payload = None
      /\ (forall patch now caller db t,
          Zod.updateTaskSchema payload = Some patch ->
          TaskService.getTask caller id db = Ok (Some t) ->
          exists t' db',
            TaskService.updateTask now caller id patch db = (Ok (Some t'), db')
            /\ Task.completed t' = Task.completed t
            /\ Task.title t' = Js.trim (Js.trim (Client.f_title f))))
  /\ (forall payload,
      Client.submit toISOString editingTask f = Client.OnCreate payload ->
      editingTask = None
      /\ Json.title payload = Some (Js.trim (Client.f_title f))
      /\ Js.trim (Client.f_title f) <> ""
      /\ Json.completed payload = Some false)
  /\ (forall t,
      Str.blank (Client.f_title f) = false ->
      editingTask = Some t ->
      exists payload,
        Client.submit toISOString editingTask f
        = Client.OnUpdate (Client._id t) payload
        /\ (Client.f_dueDate f = ""
            \/ isDatetime (toISOString (Client.f_dueDate f)) = true ->
            exists patch, Zod.updateTaskSchema payload = Some patch))
  /\ (Str.blank (Client.f_title f) = false ->
      editingTask = None ->
      exists payload,
        Client.submit toISOString editingTask f = Client.OnCreate payload).
Proof.
  unfold Client.submit. split; [|split; [|split; [|split]]].
  - destruct (Str.blank (Client.f_title f)) eqn:Hblank.
    + rewrite (trim_blank _ Hblank). split; reflexivity.
    + destruct (trim_not_blank _ Hblank) as [_ ->].
      destruct editingTask; split; discriminate.
  - intros id payload.
    destruct (Js.truthy (Js.trim (Client.f_title f))) eqn:Ht; simpl;
      [|discriminate].
    assert (Hne : Js.trim (Client.f_title f) <> "")
      by (intros E; rewrite E in Ht; discriminate).
    destruct editingTask as [t0|]; [|discriminate].
    intros H; injection H as <- <-. simpl.
    split; [exists t0; auto|]. split; [reflexivity|]. split; [exact Hne|].
    split; [unfold Zod.priority_enum; rewrite Priority_round_trip; reflexivity|].
    split; [reflexivity|].
    intros patch now caller db t Hschema Hget.
    destruct (updateTask_found now caller (Client._id t0) patch db t Hget)
      as (l1 & l2 & _ & Hu).
    eexists. eexists. split; [exact Hu|].
    unfold Zod.updateTaskSchema in Hschema. simpl in Hschema.
    unfold Zod.string_min1, Zod.priority_enum in Hschema.
    rewrite Priority_round_trip in Hschema.
    destruct (1 <=? String.length (Js.trim (Client.f_title f)))%nat;
      [|discriminate].
    destruct (Zod.optional Zod.string_ _); [|discriminate].
    destruct (Zod.optional Zod.datetime _); [|discriminate].
    injection Hschema as <-. split; reflexivity.
  - intros payload.
    destruct (Js.truthy (Js.trim (Client.f_title f))) eqn:Ht; simpl;
      [|discriminate].
    assert (Hne : Js.trim (Client.f_title f) <> "")
      by (intros E; rewrite E in Ht; discriminate).
    destruct editingTask as [t0|]; [discriminate|].
    intros H; injection H as <-. simpl. auto.
  - intros t Hblank ->. destruct (trim_not_blank _ Hblank) as [Hne ->].
    eexists. split; [reflexivity|]. intros Hdue.
    unfold Zod.updateTaskSchema, Zod.optional, Zod.string_min1,
      Zod.priority_enum, Zod.string_, Zod.boolean, Zod.datetime.
    cbn [Json.title Json.description Json.priority Json.dueDate
         Json.completed negb].
    rewrite Priority_round_trip.
    replace (1 <=? String.length (Js.trim (Client.f_title f)))%nat with true
      by (destruct (Js.trim (Client.f_title f)); [contradiction|reflexivity]).
    destruct (Js.truthy (Js.trim (Client.f_description f)));
      (destruct Hdue as [->|Hd];
       [cbn [Js.truthy String.eqb negb]; eexists; reflexivity
       |destruct (Js.truthy (Client.f_dueDate f));
          [rewrite Hd|]; eexists; reflexivity]).
  - intros Hblank ->. destruct (trim_not_blank _ Hblank) as [_ ->].
    eexists. reflexivity.
Qed.

End FormExtras.

Lemma form_submit_witness :
  let iso := fun d => (d ++ "T00:00:00Z")%string in
  let editing :=
    {| Client._id := Sample.t5; Client.title := "E";
       Client.description := None; Client.priority := high;
       Client.dueDate := None; Client.completed := true;
       Client.createdAt := None; Client.updatedAt := None |} in
  let form :=
    {| Client.f_title := " E2 "; Client.f_description := " ";
       Client.f_priority := low; Client.f_dueDate := "2024-02-01" |} in
  Client.submit iso None
    {| Client.f_title := "   "; Client.f_description := "";
       Client.f_priority := medium; Client.f_dueDate := "" |}
  = Client.Nothing
  /\ (exists payload,
      Client.submit iso (Some editing) form = Client.OnUpdate Sample.t5 payload
      /\ exists patch,
          Zod.updateTaskSchema (RT := Stub.runtime) payload = Some patch)
  /\ exists t' db',
      TaskService.updateTask (RT := Stub.runtime) 7000 Sample.alice_id
        Sample.t5
        {| Patch.title := Some "E2"; Patch.description := None;
           Patch.priority := Some low;
           Patch.dueDate := Some "2024-02-01T00:00:00Z";
           Patch.completed := None |} [Sample.A; Sample.E]
      = (Ok (Some t'), db')
      /\ Task.completed t' = Task.completed Sample.E
      /\ Task.title t' = Js.trim (Js.trim " E2 ").
Proof.
  intros iso editing form. split; [|split].
  - destruct (form_submit (RT := Stub.runtime) iso None
                {| Client.f_title := "   "; Client.f_description := "";
                   Client.f_priority := medium; Client.f_dueDate := "" |})
      as [Hblank _].
    apply Hblank. reflexivity.
  - destruct (form_submit (RT := Stub.runtime) iso (Some editing) form)
      as (_ & _ & _ & Hedit & _).
    destruct (Hedit editing eq_refl eq_refl) as (payload & Hsubmit & Hschema).
    exists payload. split; [exact Hsubmit|]. apply Hschema.
    right. reflexivity.
  - destruct (form_submit (RT := Stub.runtime) iso (Some editing) form)
      as (_ & Hupdate & _).
    destruct (Hupdate _ _ eq_refl) as (_ & _ & _ & _ & _ & Hserver).
    apply (Hserver _ 7000 Sample.alice_id [Sample.A; Sample.E] Sample.E
             eq_refl eq_refl).
Defined.

Lemma seed_inserts_nothing_witness :
  Scripts.seed (RT := Stub.runtime) 1000 [Sample.t1; Sample.t2; Sample.t3]
    (snd (Scripts.clear [Sample.A; Sample.D]))
  = (1, []).
Proof.
  destruct (seed_inserts_nothing (RT := Stub.runtime) 1000
              [Sample.t1; Sample.t2; Sample.t3] [Sample.A; Sample.D])
    as (_ & _ & _ & _ & H).
  exact H.
Defined.

(** ** Listing: what it never does, and paging *)

Lemma firstn_plus {A} (a b : nat) (l : list A) :
  firstn (a + b) l = firstn a l ++ firstn b (skipn a l).
Proof.
  revert l. induction a as [|a IH]; intros l; simpl; [reflexivity|].
  destruct l as [|x l]; simpl.
  - destruct b; reflexivity.
  - rewrite IH. reflexivity.
Qed.

Lemma pages_concat {A} (L : nat) (l : list A) (n : nat) :
  List.concat (map (fun k => firstn L (skipn ((k - 1) * L) l)) (seq 1 n))
  = firstn (n * L) l.
Proof.
  induction n as [|n IH]; [reflexivity|].
  rewrite seq_S, map_app, concat_app, IH. simpl.
  rewrite app_nil_r, Nat.sub_0_r.
  replace (L + n * L)%nat with (n * L + L)%nat by lia.
  symmetry. apply firstn_plus.
Qed.

Section ListExtras.
Context {RT : Runtime} {CR : Crypto}.

Lemma listTasks_ok (userId : ObjectId) (query : Query.t) (db : Tasks)
  (page limit : Z) :
  isObjectId userId = true ->
  Query.page query = Some page ->
  Query.limit query = Some limit ->
  1 <= page ->
  1 <= limit ->
  TaskService.listTasks userId query db
  = Ok {| TaskService.items :=
            firstn (Z.to_nat limit)
              (skipn (Z.to_nat ((page - 1) * limit))
                 (Mongo.sort
                    (TaskService.or_default (Query.sort query) Sort.createdAt,
                     match TaskService.or_default (Query.order query) Sort.desc with
                     | Sort.asc => 1
                     | Sort.desc => -1
                     end)
                    (Mongo.matching (TaskService.listFilter userId query) db)));
          TaskService.page := page;
          TaskService.limit := limit;
          TaskService.total :=
            Z.of_nat
              (List.length
                 (Mongo.matching (TaskService.listFilter userId query) db)) |}.
Proof.
  intros Hoid Hp Hl Hpage Hlimit.
  unfold TaskService.listTasks, Mongo.find, Mongo.countDocuments.
  rewrite (listFilter_castable userId query Hoid), Hp, Hl. simpl.
  unfold Mongo.skip.
  assert (0 <= (page - 1) * limit) by nia.
  destruct ((page - 1) * limit <? 0) eqn:E; [apply Z.ltb_lt in E; lia|].
  unfold Mongo.limit.
  destruct (limit =? 0) eqn:E0; [apply Z.eqb_eq in E0; lia|].
  rewrite Zabs2Nat.abs_nat_nonneg by lia. reflexivity.
Qed.

Lemma optional_none {A B} (s : A -> option B) (x : option A) :
  Zod.optional s x = None <-> exists a, x = Some a /\ s a = None.
Proof.
  unfold Zod.optional. destruct x as [a|].
  - destruct (s a) eqn:E.
    + split; [discriminate|].
      intros (a' & Ha & Hs). injection Ha as <-. congruence.
    + split; [|reflexivity]. intros _. exists a. auto.
  - split; [discriminate|]. intros (a & Ha & _). discriminate.
Qed.

Lemma default_none {A B} (s : A -> option B) (d : B) (x : option A) :
  Zod.default s d x = None <-> exists a, x = Some a /\ s a = None.
Proof.
  unfold Zod.default. destruct x as [a|].
  - destruct (s a) eqn:E.
    + split; [discriminate|].
      intros (a' & Ha & Hs). injection Ha as <-. congruence.
    + split; [|reflexivity]. intros _. exists a. auto.
  - split; [discriminate|]. intros (a & Ha & _). discriminate.
Qed.

(** A query string the schema rejects: what is left is to show why. *)
Ltac rejected :=
  split; [split; [intros _ | intros _; reflexivity] | discriminate].

(** X27.  The page and the limit of a list query.  [Number] reads a
    string of decimal digits as its value.  For a query string whose
    [page] and [limit] are such strings or absent, the page being 1 and
    the limit 20 when absent: [listQuerySchema] rejects it exactly when
    the priority, a date, the sort field or the order is not one the
    schema knows, the page is below 1, or the limit is outside 1 to
    100; and what it lets through [listTasks] answers, for a caller
    whose id is an ObjectId, with that page and that limit and at most
    limit items. *)
Theorem list_query_pages (userId : ObjectId) (w : Wire.Query) (db : Tasks)
  (page limit : Z) :
  isObjectId userId = true ->
  (forall s v, Str.numeral s = Some v -> Number_of s = Some v) ->
  match Wire.page w with
  | Some s => Str.numeral s = Some page
  | None => page = 1
  end ->
  match Wire.limit w with
  | Some s => Str.numeral s = Some limit
  | None => limit = 20
  end ->
  (Zod.listQuerySchema w = None <->
   (exists p, Wire.priority w = Some p /\ Priority_of_string p = None)
   \/ (exists d, Wire.dueBefore w = Some d /\ isDatetime d = false)
   \/ (exists d, Wire.dueAfter w = Some d /\ isDatetime d = false)
   \/ page < 1
   \/ limit < 1
   \/ 100 < limit
   \/ (exists f, Wire.sort w = Some f /\ Zod.sort_enum f = None)
   \/ (exists o, Wire.order w = Some o /\ Zod.order_enum o = None))
  /\ (forall q,
      Zod.listQuerySchema w = Some q ->
      exists items total,
        TaskService.listTasks userId q db
        = Ok {| TaskService.items := items; TaskService.page := page;
                TaskService.limit := limit; TaskService.total := total |}
        /\ Z.of_nat (List.length items) <= limit).
Proof.
  intros Hoid Hnum Hp Hl.
  assert (Epg : Zod.default (Zod.coerce_number_min 1) 1 (Wire.page w)
                = if 1 <=? page then Some (Some page) else None).
  { unfold Zod.default, Zod.coerce_number_min.
    destruct (Wire.page w) as [s|].
    - rewrite (Hnum _ _ Hp). destruct (1 <=? page); reflexivity.
    - subst page. reflexivity. }
  assert (Elm : Zod.default (Zod.coerce_number_min_max 1 100) 20 (Wire.limit w)
                = if (1 <=? limit) && (limit <=? 100)
                  then Some (Some limit) else None).
  { unfold Zod.default, Zod.coerce_number_min_max.
    destruct (Wire.limit w) as [s|].
    - rewrite (Hnum _ _ Hl).
      destruct ((1 <=? limit) && (limit <=? 100)); reflexivity.
    - subst limit. reflexivity. }
  assert (Hdt : forall d, Zod.datetime d = None <-> isDatetime d = false).
  { intros d. unfold Zod.datetime. destruct (isDatetime d); split;
      (discriminate || reflexivity). }
  unfold Zod.listQuerySchema. rewrite Epg, Elm.
  destruct (Zod.optional Zod.string_ (Wire.search w)) as [se|] eqn:E1.
  2:{ destruct (proj1 (optional_none Zod.string_ (Wire.search w)) E1)
        as (a & _ & H). discriminate H. }
  destruct (Zod.optional Zod.priority_enum (Wire.priority w)) as [pr|] eqn:E2.
  2:{ rejected. left.
      exact (proj1 (optional_none Zod.priority_enum (Wire.priority w)) E2). }
  destruct (Zod.optional Zod.coerce_boolean (Wire.completed w)) as [co|] eqn:E3.
  2:{ destruct (proj1 (optional_none Zod.coerce_boolean (Wire.completed w)) E3)
        as (a & _ & H). discriminate H. }
  destruct (Zod.optional Zod.datetime (Wire.dueBefore w)) as [db'|] eqn:E4.
  2:{ destruct (proj1 (optional_none Zod.datetime (Wire.dueBefore w)) E4)
        as (d & Hd & H). apply (proj1 (Hdt d)) in H.
      rejected.
      right. left. exists d. auto. }
  destruct (Zod.optional Zod.datetime (Wire.dueAfter w)) as [da|] eqn:E5.
  2:{ destruct (proj1 (optional_none Zod.datetime (Wire.dueAfter w)) E5)
        as (d & Hd & H). apply (proj1 (Hdt d)) in H.
      rejected.
      right. right. left. exists d. auto. }
  destruct (1 <=? page) eqn:E6.
  2:{ apply Z.leb_gt in E6. rejected.
      right. right. right. left. exact E6. }
  apply Z.leb_le in E6.
  destruct ((1 <=? limit) && (limit <=? 100)) eqn:E7.
  2:{ apply andb_false_iff in E7. rejected.
      right. right. right. right.
      destruct E7 as [E7|E7]; apply Z.leb_gt in E7; [left|right; left]; lia. }
  apply andb_prop in E7. destruct E7 as [E7 E7']. apply Z.leb_le in E7, E7'.
  destruct (Zod.default Zod.sort_enum Sort.createdAt (Wire.sort w))
    as [so|] eqn:E8.
  2:{ rejected. do 6 right. left.
      exact (proj1 (default_none Zod.sort_enum Sort.createdAt (Wire.sort w)) E8). }
  destruct (Zod.default Zod.order_enum Sort.desc (Wire.order w))
    as [od|] eqn:E9.
  2:{ rejected. do 7 right.
      exact (proj1 (default_none Zod.order_enum Sort.desc (Wire.order w)) E9). }
  split.
  - split; [discriminate|].
    intros [H|[H|[H|[H|[H|[H|[H|H]]]]]]]; try lia.
    + apply (proj2 (optional_none Zod.priority_enum (Wire.priority w))) in H.
      congruence.
    + destruct H as (d & Hd & H). apply (proj2 (Hdt d)) in H.
      assert (Zod.optional Zod.datetime (Wire.dueBefore w) = None)
        by (apply (proj2 (optional_none Zod.datetime (Wire.dueBefore w)));
            exists d; auto).
      congruence.
    + destruct H as (d & Hd & H). apply (proj2 (Hdt d)) in H.
      assert (Zod.optional Zod.datetime (Wire.dueAfter w) = None)
        by (apply (proj2 (optional_none Zod.datetime (Wire.dueAfter w)));
            exists d; auto).
      congruence.
    + apply (proj2 (default_none Zod.sort_enum Sort.createdAt (Wire.sort w)))
        in H. congruence.
    + apply (proj2 (default_none Zod.order_enum Sort.desc (Wire.order w)))
        in H. congruence.
  - intros q Hq. injection Hq as <-.
    eexists. eexists.
    split.
    + apply listTasks_ok; [exact Hoid | reflexivity | reflexivity | lia | lia].
    + rewrite length_firstn. lia.
Qed.

(** The order of a sorted result is a total preorder on the keys, and
    two documents each before the other have the same key. *)
Lemma String_leb_trans (s1 s2 s3 : string) :
  String.leb s1 s2 = true -> String.leb s2 s3 = true ->
  String.leb s1 s3 = true.
Proof.
  unfold String.leb. revert s2 s3.
  induction s1 as [|c1 s1 IH]; intros [|c2 s2] [|c3 s3]; simpl;
    try congruence; try reflexivity.
  unfold Ascii.compare.
  destruct (N.compare_spec (N_of_ascii c1) (N_of_ascii c2)) as [E12|E12|E12];
    destruct (N.compare_spec (N_of_ascii c2) (N_of_ascii c3)) as [E23|E23|E23];
    try congruence; intros H12 H23.
  - rewrite E12, E23, N.compare_refl. exact (IH s2 s3 H12 H23).
  - rewrite E12. apply N.compare_lt_iff in E23. rewrite E23. reflexivity.
  - rewrite <- E23. apply N.compare_lt_iff in E12. rewrite E12. reflexivity.
  - assert (E13 : (N_of_ascii c1 < N_of_ascii c3)%N) by lia.
    apply N.compare_lt_iff in E13. rewrite E13. reflexivity.
Qed.

Lemma Bson_leb_trans (a b c : Mongo.Bson) :
  Mongo.Bson_leb a b = true -> Mongo.Bson_leb b c = true ->
  Mongo.Bson_leb a c = true.
Proof.
  destruct a as [|x|x], b as [|y|y], c as [|z|z]; simpl; try congruence.
  - apply String_leb_trans.
  - rewrite !Z.leb_le. lia.
Qed.

Lemma Bson_leb_antisym (a b : Mongo.Bson) :
  Mongo.Bson_leb a b = true -> Mongo.Bson_leb b a = true -> a = b.
Proof.
  destruct a as [|x|x], b as [|y|y]; simpl; try congruence.
  - intros H1 H2. f_equal. apply String.leb_antisym; assumption.
  - rewrite !Z.leb_le. intros H1 H2. f_equal. lia.
Qed.

Lemma ordered_trans (s : Mongo.SortSpec) (a b c : Task.Doc) :
  Mongo.ordered s a b -> Mongo.ordered s b c -> Mongo.ordered s a c.
Proof.
  unfold Mongo.ordered, Mongo.before. destruct (0 <? snd s); intros H1 H2.
  - exact (Bson_leb_trans _ _ _ H1 H2).
  - exact (Bson_leb_trans _ _ _ H2 H1).
Qed.

Lemma ordered_antisym (s : Mongo.SortSpec) (a b : Task.Doc) :
  Mongo.ordered s a b -> Mongo.ordered s b a ->
  Mongo.sortKey (fst s) a = Mongo.sortKey (fst s) b.
Proof.
  unfold Mongo.ordered, Mongo.before. destruct (0 <? snd s); intros H1 H2.
  - exact (Bson_leb_antisym _ _ H1 H2).
  - exact (Bson_leb_antisym _ _ H2 H1).
Qed.

(** With pairwise distinct sort keys there is one sorted order. *)
Lemma sorted_unique (s : Mongo.SortSpec) (l1 l2 : list Task.Doc) :
  NoDup (map (Mongo.sortKey (fst s)) l1) ->
  Permutation l1 l2 ->
  Sorted (Mongo.ordered s) l1 ->
  Sorted (Mongo.ordered s) l2 ->
  l1 = l2.
Proof.
  intros Hnd Hp H1 H2.
  apply Sorted_StronglySorted in H1; [|exact (ordered_trans s)].
  apply Sorted_StronglySorted in H2; [|exact (ordered_trans s)].
  revert l2 Hp H2. induction l1 as [|a l1 IH]; intros l2 Hp H2.
  - apply Permutation_nil in Hp. auto.
  - destruct l2 as [|b l2];
      [apply Permutation_sym, Permutation_nil in Hp; discriminate|].
    inversion H1 as [|? ? S1 F1]; subst.
    inversion H2 as [|? ? S2 F2]; subst.
    inversion Hnd as [|? ? Hnotin Hnd']; subst.
    assert (E : a = b).
    { assert (Ha : In a (b :: l2))
        by (apply (Permutation_in a Hp); left; reflexivity).
      assert (Hb : In b (a :: l1))
        by (apply (Permutation_in b (Permutation_sym Hp)); left; reflexivity).
      destruct Ha as [->|Ha]; [reflexivity|].
      destruct Hb as [->|Hb]; [reflexivity|].
      exfalso. apply Hnotin.
      rewrite (ordered_antisym s a b).
      - exact (in_map (Mongo.sortKey (fst s)) l1 b Hb).
      - exact (proj1 (Forall_forall _ _) F1 b Hb).
      - exact (proj1 (Forall_forall _ _) F2 a Ha). }
    subst b. f_equal.
    apply IH; [exact Hnd' | exact S1 | | exact S2].
    exact (Permutation_cons_inv Hp).
Qed.

(** X28.  Paging through a list meets every matching task once.  The
    matching tasks have pairwise distinct values of the sort field, so
    that their order is fixed by the sort.  For a caller whose id is an
    ObjectId and a limit of at least one, there is an ordering of the
    matching tasks by the sort field and direction asked for, and for
    every such ordering the pages 1 to [n] of the query, read from the
    same collection, are together its first [n] times limit tasks; once
    [n] times the limit reaches their number, the pages together are
    that ordering: every matching task, none twice. *)
Theorem paging_covers (userId : ObjectId) (query : Query.t) (db : Tasks)
  (limit : Z) :
  isObjectId userId = true ->
  Query.limit query = Some limit ->
  1 <= limit ->
  let matching := Mongo.matching (TaskService.listFilter userId query) db in
  let spec : Mongo.SortSpec :=
    (TaskService.or_default (Query.sort query) Sort.createdAt,
     match TaskService.or_default (Query.order query) Sort.desc with
     | Sort.asc => 1
     | Sort.desc => -1
     end) in
  NoDup (map (Mongo.sortKey (fst spec)) matching) ->
  (exists sorted,
      Permutation matching sorted /\ Sorted (Mongo.ordered spec) sorted)
  /\ (forall sorted,
      Permutation matching sorted ->
      Sorted (Mongo.ordered spec) sorted ->
      (forall n,
          Paging.firstPages userId query db n
          = firstn (n * Z.to_nat limit) sorted)
      /\ (forall n,
          (List.length matching <= n * Z.to_nat limit)%nat ->
          Paging.firstPages userId query db n = sorted
          /\ Permutation (Paging.firstPages userId query db n) matching
          /\ NoDup (Paging.firstPages userId query db n))).
Proof.
  intros Hoid Hl Hlimit matching spec Hkeys.
  assert (Hpages : forall n,
            Paging.firstPages userId query db n
            = firstn (n * Z.to_nat limit) (Mongo.sort spec matching)).
  { intros n. unfold Paging.firstPages.
    rewrite <- (pages_concat (Z.to_nat limit) (Mongo.sort spec matching) n).
    f_equal. apply map_ext_in. intros k Hk. apply in_seq in Hk.
    rewrite (listTasks_ok userId (Paging.withPage query (Z.of_nat k)) db
               (Z.of_nat k) limit Hoid eq_refl Hl) by lia.
    simpl. fold matching. fold spec.
    replace (Z.to_nat ((Z.of_nat k - 1) * limit))
      with ((k - 1) * Z.to_nat limit)%nat by nia.
    reflexivity. }
  split.
  { exists (Mongo.sort spec matching).
    split; [apply sort_perm | apply sort_sorted]. }
  intros sorted Hperm Hsorted.
  assert (E : Mongo.sort spec matching = sorted).
  { apply (sorted_unique spec).
    - apply (Permutation_NoDup (Permutation_map _ (sort_perm spec matching))).
      exact Hkeys.
    - apply (Permutation_trans (Permutation_sym (sort_perm spec matching))).
      exact Hperm.
    - apply sort_sorted.
    - exact Hsorted. }
  rewrite E in Hpages. split; [exact Hpages|].
  intros n Hn.
  assert (Hall : Paging.firstPages userId query db n = sorted).
  { rewrite Hpages. apply firstn_all2.
    rewrite <- (Permutation_length Hperm). exact Hn. }
  rewrite Hall. split; [reflexivity|]. split.
  - apply Permutation_sym. exact Hperm.
  - apply (NoDup_map_inv (Mongo.sortKey (fst spec))).
    apply (Permutation_NoDup (Permutation_map _ Hperm)). exact Hkeys.
Qed.

End ListExtras.

Lemma decimal_digits (s : string) (acc : Z) :
  Stub.decimal acc s = Str.digits acc s.
Proof.
  revert acc. induction s as [|c r IH]; intros acc; [reflexivity|].
  cbn [Stub.decimal Str.digits].
  replace (Stub.digit c) with (Str.digit c)
    by (destruct c as [[] [] [] [] [] [] [] []]; reflexivity).
  destruct (Str.digit c); [apply IH | reflexivity].
Qed.

Lemma number_numeral (s : string) (v : Z) :
  Str.numeral s = Some v -> Stub.number s = Some v.
Proof.
  unfold Str.numeral, Stub.number. destruct s; [discriminate|].
  rewrite decimal_digits.
  destruct ((1 <=? _) && _)%nat; [auto|discriminate].
Qed.

Lemma list_query_pages_witness :
  Zod.listQuerySchema (RT := Stub.runtime)
    {| Wire.search := None; Wire.priority := None; Wire.completed := None;
       Wire.dueBefore := None; Wire.dueAfter := None; Wire.page := Some "0";
       Wire.limit := None; Wire.sort := None; Wire.order := None |}
  = None
  /\ exists q items total,
      Zod.listQuerySchema (RT := Stub.runtime) Sample.second_of_three = Some q
      /\ TaskService.listTasks (RT := Stub.runtime) Sample.alice_id q
           [Sample.A; Sample.B; Sample.C]
         = Ok {| TaskService.items := items; TaskService.page := 2;
                 TaskService.limit := 1; TaskService.total := total |}
      /\ Z.of_nat (List.length items) <= 1.
Proof.
  split.
  - destruct (list_query_pages (RT := Stub.runtime) Sample.alice_id
                {| Wire.search := None; Wire.priority := None;
                   Wire.completed := None; Wire.dueBefore := None;
                   Wire.dueAfter := None; Wire.page := Some "0";
                   Wire.limit := None; Wire.sort := None;
                   Wire.order := None |} [Sample.A] 0 20
                eq_refl number_numeral eq_refl eq_refl)
      as [Hbad _].
    apply Hbad. right. right. right. left. reflexivity.
  - destruct (list_query_pages (RT := Stub.runtime) Sample.alice_id
                Sample.second_of_three [Sample.A; Sample.B; Sample.C] 2 1
                eq_refl number_numeral eq_refl eq_refl)
      as [_ Hok].
    destruct (Hok _ eq_refl) as (items & total & Hrun & Hlen).
    eexists. exists items, total. split; [reflexivity|].
    split; [exact Hrun | exact Hlen].
Defined.

Lemma paging_covers_witness :
  Paging.firstPages (RT := Stub.runtime) Sample.alice_id
    {| Query.search := None; Query.priority := None;
       Query.completed := None; Query.dueBefore := None;
       Query.dueAfter := None; Query.page := None; Query.limit := Some 2;
       Query.sort := None; Query.order := None |}
    [Sample.D; Sample.A; Sample.B; Sample.C] 2
  = [Sample.C; Sample.B; Sample.A].
Proof.
  destruct (paging_covers (RT := Stub.runtime) Sample.alice_id
              {| Query.search := None; Query.priority := None;
                 Query.completed := None; Query.dueBefore := None;
                 Query.dueAfter := None; Query.page := None;
                 Query.limit := Some 2; Query.sort := None;
                 Query.order := None |}
              [Sample.D; Sample.A; Sample.B; Sample.C] 2
              eq_refl eq_refl ltac:(lia)) as [_ Hall].
  - vm_compute. repeat constructor; simpl; intuition discriminate.
  - destruct (Hall [Sample.C; Sample.B; Sample.A]) as [_ Hpages].
    + vm_compute.
      apply (Permutation_rev [Sample.A; Sample.B; Sample.C]).
    + repeat constructor.
    + apply (Hpages 2%nat). vm_compute. lia.
Defined.

Section ResetName.
Context {RT : Runtime} {CR : Crypto}.

(** X18.  The name given with a reset.  When the raw token finds the
    user [u] (ids being unique), [resetPassword] leaves under the id of
    [u] a document whose name is the trimmed name given, or the name
    [u] had when none is given or the one given is blank; the session
    it answers carries that name, and the email of [u]. *)
Theorem reset_sets_name (now : Instant) (salt raw pw : string)
  (name : option string) (db : Users) (u : User.Doc) :
  NoDup (map User._id db) ->
  UserStore.findOne (UserStore.byResetToken (sha256_hex raw) now) db = Some u ->
  let name' :=
    match name with
    | Some n => if Str.blank n then User.name u else Some (Js.trim n)
    | None => User.name u
    end in
  exists s db1 u1,
    AuthService.resetPassword now salt raw pw name db = (Ok s, db1)
    /\ In u1 db1
    /\ User._id u1 = User._id u
    /\ User.name u1 = name'
    /\ AuthUser.name (AuthService.user s) = name'
    /\ AuthUser.email (AuthService.user s) = User.email u.
Proof.
  intros Hnd Hfind name'.
  assert (Hin : In u db) by (apply find_some in Hfind; tauto).
  unfold AuthService.resetPassword. rewrite Hfind.
  set (u4 := User.set_passwordResetExpires None _).
  assert (Hfields : User._id u4 = User._id u
                    /\ User.email u4 = User.email u
                    /\ User.name u4 = name').
  { unfold u4, name'. destruct name as [n|]; [|auto].
    rewrite trim_length_blank. destruct (Str.blank n); simpl; auto. }
  destruct Hfields as (Hid & Hemail & Hname).
  exists (AuthService.session now u4), (UserStore.save now u4 db),
    (User.set_updatedAt now u4).
  split; [reflexivity|]. clearbody u4. split.
  - apply (save_In now u4 db Hnd).
    + rewrite Hid. exact (in_map User._id db u Hin).
    + left. reflexivity.
  - simpl. rewrite Hname, Hemail. auto.
Qed.

End ResetName.

Lemma reset_sets_name_witness :
  (exists s db1,
      AuthService.resetPassword (CR := Stub.crypto) 2000 "salt9" "tok1"
        "brand-new" (Some (Cases.nbsp ++ " Carol ")%string)
        [Sample.carol_requested; Sample.dave]
      = (Ok s, db1)
      /\ AuthUser.name (AuthService.user s) = Some "Carol")
  /\ (exists s db1,
      AuthService.resetPassword (CR := Stub.crypto) 2000 "salt9" "tok1"
        "brand-new" (Some (Cases.nbsp ++ Cases.line_separator)%string)
        [Sample.carol_requested; Sample.dave]
      = (Ok s, db1)
      /\ AuthUser.name (AuthService.user s) = None).
Proof.
  split.
  - destruct (reset_sets_name (CR := Stub.crypto) 2000 "salt9" "tok1"
                "brand-new" (Some (Cases.nbsp ++ " Carol ")%string)
                [Sample.carol_requested; Sample.dave] Sample.carol_requested)
      as (s & db1 & u1 & Hrun & _ & _ & _ & Hname & _).
    + distinct_ids.
    + reflexivity.
    + exists s, db1. split; [exact Hrun | exact Hname].
  - destruct (reset_sets_name (CR := Stub.crypto) 2000 "salt9" "tok1"
                "brand-new" (Some (Cases.nbsp ++ Cases.line_separator)%string)
                [Sample.carol_requested; Sample.dave] Sample.carol_requested)
      as (s & db1 & u1 & Hrun & _ & _ & _ & Hname & _).
    + distinct_ids.
    + reflexivity.
    + exists s, db1. split; [exact Hrun | exact Hname].
Defined.

(** ** Runs on white space beyond ASCII *)

(** [trim] strips the Unicode spaces and line terminators with the
    ASCII ones. *)
Example trim_unicode_spaces :
  Js.trim (Cases.bom ++ " A" ++ Cases.nbsp ++ "B " ++ Cases.line_separator)
  = ("A" ++ Cases.nbsp ++ "B")%string
  /\ Str.blank (Cases.nbsp ++ Cases.line_separator ++ Cases.bom) = true.
Proof. split; reflexivity. Qed.

(** A title of one no-break space passes the schema and is refused by
    the model: nothing is stored. *)
Example post_task_nbsp_title :
  TaskRoutes.post_task (RT := Stub.runtime) (CR := Stub.crypto)
    7000 Sample.t5 Sample.alice_header
    {| Json.title := Some Cases.nbsp; Json.description := None;
       Json.priority := None; Json.dueDate := None; Json.completed := None |}
    [Sample.A]
  = (Throw (PlainError "ValidationError"), [Sample.A]).
Proof. reflexivity. Qed.
